(** * Elite Recovery OSINT backend: probe adapters, result merging,
      username variations and the investigation pipeline.

    A shallow embedding of
      - recovery-app/osint-backend/main.py  (module [Backend])
      - recovery-app/api/osint.py           (module [Api])
    Python [str] values are Rocq strings whose characters are the code
    points 0..255; Python lists are lists; a Python dict is an association
    list in insertion order; exceptions are values of [exn] carried by an
    error monad; everything the code obtains from the outside world (the
    outcome of a subprocess, the content of an output file, the result of a
    call handed to the executor) is an explicit argument. *)

From Stdlib Require Import List String Ascii Arith Bool Lia ZArith DecimalString.
Import ListNotations.
Open Scope string_scope.

(* ====================================================================== *)
(** * Python strings *)
(* ====================================================================== *)

Module PyStr.

(** ['\n'] *)
Definition nl : string := String (ascii_of_nat 10) "".

Definition is_empty (s : string) : bool :=
  match s with "" => true | _ => false end.

(** [str.isspace] on one character, code points 0..255. *)
Definition isspace (c : ascii) : bool :=
  let n := nat_of_ascii c in
  (((9 <=? n) && (n <=? 13)) || ((28 <=? n) && (n <=? 32))
   || (n =? 133) || (n =? 160))%nat.

(** [str.lower] on one character, code points 0..255. *)
Definition lower_char (c : ascii) : ascii :=
  let n := nat_of_ascii c in
  if (((65 <=? n) && (n <=? 90))
      || ((192 <=? n) && (n <=? 222) && negb (n =? 215)))%nat
  then ascii_of_nat (n + 32) else c.

(** [s.lower()] *)
Fixpoint lower (s : string) : string :=
  match s with
  | "" => ""
  | String c s' => String (lower_char c) (lower s')
  end.

(** [s + c] for one character [c]. *)
Definition snoc (s : string) (c : ascii) : string := s ++ String c "".

(** [s.split()]: the maximal runs of non-whitespace characters.  [cur] is
    the run read so far. *)
Fixpoint split_ws_from (cur s : string) : list string :=
  match s with
  | "" => if is_empty cur then [] else [cur]
  | String c s' =>
      if isspace c
      then (if is_empty cur then split_ws_from "" s'
            else cur :: split_ws_from "" s')
      else split_ws_from (snoc cur c) s'
  end.

Definition split_ws (s : string) : list string := split_ws_from "" s.

(** [s.split(sep)] for a separator of at least one character.  [skip]
    counts the characters of a separator occurrence still to be passed,
    [cur] is the piece read so far. *)
Fixpoint split_from (sep : string) (skip : nat) (cur s : string)
  : list string :=
  match s with
  | "" => [cur]
  | String c s' =>
      match skip with
      | S k => split_from sep k cur s'
      | O =>
          if prefix sep s
          then cur :: split_from sep (String.length sep - 1) "" s'
          else split_from sep 0 (snoc cur c) s'
      end
  end.

Definition split (sep s : string) : list string := split_from sep 0 "" s.

(** [s.replace(old, new)] for [old] of at least one character. *)
Fixpoint replace_from (old new : string) (skip : nat) (s : string) : string :=
  match s with
  | "" => ""
  | String c s' =>
      match skip with
      | S k => replace_from old new k s'
      | O =>
          if prefix old s
          then new ++ replace_from old new (String.length old - 1) s'
          else String c (replace_from old new 0 s')
      end
  end.

Definition replace (old new s : string) : string := replace_from old new 0 s.

(** [sub in s] *)
Fixpoint contains (sub s : string) : bool :=
  prefix sub s
  || match s with
     | "" => false
     | String _ s' => contains sub s'
     end.

(** [s.startswith(p)] *)
Definition startswith (p s : string) : bool := prefix p s.

Fixpoint lstrip (s : string) : string :=
  match s with
  | "" => ""
  | String c s' => if isspace c then lstrip s' else s
  end.

Fixpoint rstrip (s : string) : string :=
  match s with
  | "" => ""
  | String c s' =>
      let r := rstrip s' in
      if isspace c && is_empty r then "" else String c r
  end.

(** [s.strip()] *)
Definition strip (s : string) : string := rstrip (lstrip s).

(** [sep.join(l)] *)
Definition join (sep : string) (l : list string) : string := concat sep l.

(** [s[0] if s else ""] *)
Definition first_char (s : string) : string :=
  match s with
  | "" => ""
  | String c _ => String c ""
  end.

End PyStr.

(* ====================================================================== *)
(** * Python values, dicts and exceptions *)
(* ====================================================================== *)

(** The values json.load builds and the adapters store in their result
    dicts.  A float is kept by its 64-bit pattern: the code never computes
    with one. *)
#[warnings="-register-all"]
Inductive pyval : Type :=
| VNone
| VBool (b : bool)
| VInt (n : Z)
| VFloat (bits : Z)
| VStr (s : string)
| VList (l : list pyval)
| VDict (d : list (string * pyval)).

(** A dict with [str] keys, in insertion order. *)
Definition dict (V : Type) : Type := list (string * V).
Definition pydict : Type := dict pyval.

(** [d.get(k)] as an option; [d.get(k, default)]; [k in d]. *)
Fixpoint dict_get {V : Type} (k : string) (d : dict V) : option V :=
  match d with
  | [] => None
  | (k', v) :: d' => if String.eqb k k' then Some v else dict_get k d'
  end.

Definition dict_get_or {V : Type} (k : string) (default : V) (d : dict V) : V :=
  match dict_get k d with Some v => v | None => default end.

Definition dict_mem {V : Type} (k : string) (d : dict V) : bool :=
  match dict_get k d with Some _ => true | None => false end.

(** [d[k] = v]: a key already in [d] keeps its place and takes the new
    value, a new key goes last. *)
Fixpoint dict_set {V : Type} (k : string) (v : V) (d : dict V) : dict V :=
  match d with
  | [] => [(k, v)]
  | (k', v') :: d' =>
      if String.eqb k k' then (k, v) :: d' else (k', v') :: dict_set k v d'
  end.

(** [list(d.keys())], [list(d.values())] *)
Definition dict_keys {V : Type} (d : dict V) : list string := map fst d.
Definition dict_values {V : Type} (d : dict V) : list V := map snd d.

(** [k in d] for the keys [d] of a dict, in insertion order. *)
Definition key_in (k : string) (d : list string) : bool :=
  existsb (String.eqb k) d.

(** [list(dict.fromkeys(l))]: each key is inserted when it is first met; a
    key met again keeps its place. *)
Definition dict_fromkeys (l : list string) : list string :=
  fold_left (fun d k => if key_in k d then d else (d ++ [k])%list) l [].

(** [type(v).__name__] *)
Definition type_name (v : pyval) : string :=
  match v with
  | VNone => "NoneType"
  | VBool _ => "bool"
  | VInt _ => "int"
  | VFloat _ => "float"
  | VStr _ => "str"
  | VList _ => "list"
  | VDict _ => "dict"
  end.

(** [bool(v)] *)
Definition truthy (v : pyval) : bool :=
  match v with
  | VNone => false
  | VBool b => b
  | VInt n => negb (n =? 0)%Z
  | VFloat bits => negb ((bits =? 0)%Z || (bits =? 2 ^ 63)%Z)
  | VStr s => negb (PyStr.is_empty s)
  | VList l => match l with [] => false | _ => true end
  | VDict d => match d with [] => false | _ => true end
  end.

(** [v == s] for a [str] constant [s]. *)
Definition eq_str (v : pyval) (s : string) : bool :=
  match v with
  | VStr t => String.eqb t s
  | _ => false
  end.

(** ** Values as keys of a dict

    [hash(v)] with [==] between the values that can be hashed.  A bool, an
    int and a float are the same key when they stand for the same number
    ([True == 1 == 1.0]); a number is kept as [m * 2^e] with [m] odd, zero
    as [0 * 2^0].  json.load gives the one object json.decoder.NaN for
    every NaN, and a dict finds a key that is the same object, so NaN is one
    key.  A list and a dict cannot be hashed. *)
Inductive pykey : Type :=
| KNone
| KNum (m e : Z)
| KInf (negative : bool)
| KNaN
| KStr (s : string).

(** [p = r * 2^k] with [r] odd. *)
Fixpoint odd_part (p : positive) : positive * Z :=
  match p with
  | xO q => let (r, k) := odd_part q in (r, (k + 1)%Z)
  | _ => (p, 0%Z)
  end.

(** The key of the number [m * 2^e]. *)
Definition num_key (m e : Z) : pykey :=
  match m with
  | Z0 => KNum 0 0
  | Zpos p => let (r, k) := odd_part p in KNum (Zpos r) (e + k)
  | Zneg p => let (r, k) := odd_part p in KNum (Zneg r) (e + k)
  end.

(** The key of the float with the 64-bit pattern [bits]: sign, 11 bits of
    exponent, 52 bits of mantissa. *)
Definition float_key (bits : Z) : pykey :=
  let negative := Z.testbit bits 63 in
  let expo := ((bits / 2 ^ 52) mod 2 ^ 11)%Z in
  let mant := (bits mod 2 ^ 52)%Z in
  if (expo =? 2047)%Z
  then (if (mant =? 0)%Z then KInf negative else KNaN)
  else
    let m := if (expo =? 0)%Z then mant else (2 ^ 52 + mant)%Z in
    let e := if (expo =? 0)%Z then (-1074)%Z else (expo - 1075)%Z in
    num_key (if negative then (- m)%Z else m) e.

(** The key that [v] is in a dict; [None] when [hash(v)] raises
    TypeError. *)
Definition hash_key (v : pyval) : option pykey :=
  match v with
  | VNone => Some KNone
  | VBool b => Some (KNum (if b then 1 else 0) 0)
  | VInt n => Some (num_key n 0)
  | VFloat bits => Some (float_key bits)
  | VStr s => Some (KStr s)
  | VList _ => None
  | VDict _ => None
  end.

Definition pykey_eqb (a b : pykey) : bool :=
  match a, b with
  | KNone, KNone => true
  | KNum m e, KNum m' e' => (m =? m')%Z && (e =? e')%Z
  | KInf n, KInf n' => Bool.eqb n n'
  | KNaN, KNaN => true
  | KStr s, KStr t => String.eqb s t
  | _, _ => false
  end.

(** A dict whose keys are any values that can be hashed, in insertion
    order.  The keys are kept as [pykey]: the code below reads the values
    and the length of such a dict, never its key objects. *)
Definition keyed (V : Type) : Type := list (pykey * V).

(** [d.get(k)] as an option; [k in d]; [d[k] = v]; [list(d.values())]. *)
Fixpoint keyed_get {V : Type} (k : pykey) (d : keyed V) : option V :=
  match d with
  | [] => None
  | (k', v) :: d' => if pykey_eqb k k' then Some v else keyed_get k d'
  end.

Definition keyed_mem {V : Type} (k : pykey) (d : keyed V) : bool :=
  match keyed_get k d with Some _ => true | None => false end.

Fixpoint keyed_set {V : Type} (k : pykey) (v : V) (d : keyed V) : keyed V :=
  match d with
  | [] => [(k, v)]
  | (k', v') :: d' =>
      if pykey_eqb k k' then (k', v) :: d' else (k', v') :: keyed_set k v d'
  end.

Definition keyed_keys {V : Type} (d : keyed V) : list pykey := map fst d.
Definition keyed_values {V : Type} (d : keyed V) : list V := map snd d.

(** [str(n)] for a length [n]. *)
Definition str_nat (n : nat) : string := NilEmpty.string_of_uint (Nat.to_uint n).

(** The instances of [Exception], by the classes the handlers tell apart:
    subprocess.TimeoutExpired, FileNotFoundError, and any other class.
    [msg] is [str(e)]. *)
Inductive exn : Type :=
| TimeoutExpired (msg : string)
| FileNotFoundError (msg : string)
| OtherException (msg : string).

(** [str(e)] *)
Definition exn_str (e : exn) : string :=
  match e with
  | TimeoutExpired msg | FileNotFoundError msg | OtherException msg => msg
  end.

(** [str(e)] of the AttributeError raised by [v.attr] on a value without it. *)
Definition attribute_error (v : pyval) (attr : string) : exn :=
  OtherException ("'" ++ type_name v ++ "' object has no attribute '" ++ attr ++ "'").

(** [str(e)] of the IndexError raised by [l[i]]. *)
Definition index_error : exn := OtherException "list index out of range".

(** A call either returns or raises. *)
Inductive outcome (A : Type) : Type :=
| Done (a : A)
| Raised (e : exn).
Arguments Done {A} a.
Arguments Raised {A} e.

(** ** Code with local variables and exceptions

    [M St A] is a piece of Python code that works on local variables of
    type [St] and either yields an [A] or raises; the locals keep what was
    stored before a raise. *)
Definition M (St A : Type) : Type := St -> outcome A * St.

Definition ret {St A : Type} (a : A) : M St A := fun s => (Done a, s).

Definition bind {St A B : Type} (m : M St A) (k : A -> M St B) : M St B :=
  fun s =>
    match m s with
    | (Done a, s') => k a s'
    | (Raised e, s') => (Raised e, s')
    end.

Definition raise {St A : Type} (e : exn) : M St A := fun s => (Raised e, s).

Definition get {St : Type} : M St St := fun s => (Done s, s).

Definition modify {St : Type} (f : St -> St) : M St unit :=
  fun s => (Done tt, f s).

(** [try: body  except ... as e: handler e] *)
Definition try_except {St A : Type} (body : M St A) (handler : exn -> M St A)
  : M St A :=
  fun s =>
    match body s with
    | (Done a, s') => (Done a, s')
    | (Raised e, s') => handler e s'
    end.

(** A call whose outcome the outside world decides. *)
Definition lift {St A : Type} (o : outcome A) : M St A := fun s => (o, s).

Notation "x <- m ;; k" := (bind m (fun x => k))
  (at level 61, m at next level, right associativity).
Notation "m ;;; k" := (bind m (fun _ => k))
  (at level 61, right associativity).

(** [for x in l: body x] *)
Fixpoint for_each {St A : Type} (l : list A) (body : A -> M St unit)
  : M St unit :=
  match l with
  | [] => ret tt
  | x :: l' => body x ;;; for_each l' body
  end.

(** [if c: body] *)
Definition when {St : Type} (c : bool) (body : M St unit) : M St unit :=
  if c then body else ret tt.

(** [l[i]] *)
Definition index {St A : Type} (l : list A) (i : nat) : M St A :=
  match nth_error l i with
  | Some a => ret a
  | None => raise index_error
  end.

(** The value of a function whose code is [m], started on the locals [s]. *)
Definition run {St A : Type} (m : M St A) (s : St) : outcome A := fst (m s).

(** What the outside world gives one adapter call. *)
Inductive proc_outcome : Type :=
| Completed (stdout : string)   (* subprocess.run returned; result.stdout *)
| ProcRaises (e : exn).          (* subprocess.run, or the code around it, raised *)

Inductive file_outcome : Type :=
| NoFile                         (* os.path.exists(output_file) is False *)
| FileRaises (e : exn)           (* open or json.load raised *)
| FileJson (data : pyval).       (* json.load returned data *)

Record world : Type := {
  proc : proc_outcome;
  output_file : file_outcome;
  now_iso : string;              (* datetime.now().isoformat() *)
  elapsed : Z                    (* the float (now - start_time).total_seconds() *)
}.

(* ====================================================================== *)
(** * osint-backend/main.py *)
(* ====================================================================== *)

Module Backend.

(** ** run_sherlock *)

(** One entry of the local list [found]:
    [{'platform': ..., 'url': ..., 'response_time': ...}]. *)
Record sherlock_hit : Type := {
  platform : string;
  url : pyval;
  response_time : pyval
}.

Definition hit_dict (h : sherlock_hit) : pydict :=
  [("platform", VStr (platform h)); ("url", url h);
   ("response_time", response_time h)].

(** The locals [found], [not_found], [errors]. *)
Record locals : Type := {
  found : list sherlock_hit;
  not_found : list string;
  errors : list string
}.

Definition no_locals : locals := {| found := []; not_found := []; errors := [] |}.

Definition add_found (h : sherlock_hit) : M locals unit :=
  modify (fun st => {| found := found st ++ [h];
                       not_found := not_found st; errors := errors st |}).

Definition add_not_found (site : string) : M locals unit :=
  modify (fun st => {| found := found st;
                       not_found := not_found st ++ [site];
                       errors := errors st |}).

Definition add_error (msg : string) : M locals unit :=
  modify (fun st => {| found := found st; not_found := not_found st;
                       errors := errors st ++ [msg] |}).

(** The part of the try block after subprocess.run that reads the output
    file: [if os.path.exists(output_file): data = json.load(f); ...]. *)
Definition read_output {St : Type} (f : file_outcome) (parse : pyval -> M St unit)
  : M St unit :=
  match f with
  | NoFile => ret tt
  | FileRaises e => raise e
  | FileJson data => parse data
  end.

Section Sherlock.

(** [str(v)] for a value [v] that is not a [str], inside an f-string. *)
Variable py_repr : pyval -> string.

Definition str_of (v : pyval) : string :=
  match v with
  | VStr s => s
  | _ => py_repr v
  end.

(** The body of [for site, info in data.items()]. *)
Definition sherlock_site (site : string) (info : pyval) : M locals unit :=
  match info with
  | VDict i =>
      if eq_str (dict_get_or "status" VNone i) "Claimed" then
        add_found {| platform := site;
                     url := dict_get_or "url_user" (VStr "") i;
                     response_time := dict_get_or "response_time_s" (VInt 0) i |}
      else if eq_str (dict_get_or "status" VNone i) "Available" then
        add_not_found site
      else
        add_error (site ++ ": " ++ str_of (dict_get_or "status" (VStr "Unknown") i))
  | _ => raise (attribute_error info "get")
  end.

Definition sherlock_json (data : pyval) : M locals unit :=
  match data with
  | VDict d => for_each d (fun si => sherlock_site (fst si) (snd si))
  | _ => raise (attribute_error data "items")
  end.

(** [any(f['url'] == part for f in found)] *)
Definition url_known (part : string) (fs : list sherlock_hit) : bool :=
  existsb (fun f => eq_str (url f) part) fs.

Definition sherlock_part (part : string) : M locals unit :=
  when (PyStr.startswith "http" part)
    (st <- get ;;
     when (negb (url_known part (found st)))
       (add_found {| platform := "Unknown"; url := VStr part;
                     response_time := VInt 0 |})).

Definition sherlock_line (line : string) : M locals unit :=
  when (PyStr.contains "[+]" line && PyStr.contains "http" line)
    (for_each (PyStr.split_ws line) sherlock_part).

Definition sherlock_stdout (stdout : string) : M locals unit :=
  when (negb (PyStr.is_empty stdout))
    (for_each (PyStr.split PyStr.nl stdout) sherlock_line).

Definition sherlock_try (w : world) : M locals unit :=
  match proc w with
  | ProcRaises e => raise e
  | Completed stdout =>
      read_output (output_file w) sherlock_json ;;;
      sherlock_stdout stdout
  end.

Definition sherlock_except (e : exn) : M locals unit :=
  match e with
  | TimeoutExpired _ => add_error "Search timed out"
  | FileNotFoundError _ =>
      add_error "Sherlock not installed. Run: pip install sherlock-project"
  | OtherException msg => add_error ("Error: " ++ msg)
  end.

(** The locals when the return statement is reached. *)
Definition sherlock_locals (w : world) : locals :=
  snd (try_except (sherlock_try w) sherlock_except no_locals).

(** [timeout] only enters the command line and the bound given to
    subprocess.run; what the process then does is [proc w]. *)
Definition run_sherlock (username : string) (timeout : Z) (w : world)
  : outcome pydict :=
  run (try_except (sherlock_try w) sherlock_except ;;;
       st <- get ;;
       ret [("username", VStr username);
            ("searched_at", VStr (now_iso w));
            ("tool", VStr "sherlock");
            ("total_sites",
             VInt (Z.of_nat (List.length (found st))
                   + Z.of_nat (List.length (not_found st))));
            ("found", VList (map (fun h => VDict (hit_dict h)) (found st)));
            ("not_found", VList (map VStr (not_found st)));
            ("errors", VList (map VStr (errors st)));
            ("execution_time", VFloat (elapsed w))])
      no_locals.

End Sherlock.

(** ** run_maigret *)

(** [{'platform': ..., 'url': ..., 'tags': ..., 'ids': ...}] *)
Record maigret_hit : Type := {
  m_platform : string;
  m_url : pyval;
  m_tags : pyval;
  m_ids : pyval
}.

Definition maigret_hit_dict (h : maigret_hit) : pydict :=
  [("platform", VStr (m_platform h)); ("url", m_url h);
   ("tags", m_tags h); ("ids", m_ids h)].

Record maigret_locals : Type := {
  mg_found : list maigret_hit;
  mg_not_found : list string;
  mg_errors : list string
}.

Definition maigret_no_locals : maigret_locals :=
  {| mg_found := []; mg_not_found := []; mg_errors := [] |}.

Definition maigret_add_error (msg : string) : M maigret_locals unit :=
  modify (fun st => {| mg_found := mg_found st; mg_not_found := mg_not_found st;
                       mg_errors := mg_errors st ++ [msg] |}).

Definition maigret_site (site : string) (info : pyval) : M maigret_locals unit :=
  match info with
  | VDict i =>
      if eq_str (dict_get_or "status" VNone i) "Claimed"
         || truthy (dict_get_or "exists" VNone i)
      then
        modify (fun st =>
          {| mg_found := mg_found st ++
               [{| m_platform := site;
                   m_url := dict_get_or "url" (dict_get_or "url_user" (VStr "") i) i;
                   m_tags := dict_get_or "tags" (VList []) i;
                   m_ids := dict_get_or "ids" (VDict []) i |}];
             mg_not_found := mg_not_found st; mg_errors := mg_errors st |})
      else
        modify (fun st =>
          {| mg_found := mg_found st;
             mg_not_found := mg_not_found st ++ [site];
             mg_errors := mg_errors st |})
  | _ => ret tt
  end.

Definition maigret_json (data : pyval) : M maigret_locals unit :=
  match data with
  | VDict d => for_each d (fun si => maigret_site (fst si) (snd si))
  | _ => ret tt
  end.

Definition maigret_try (w : world) : M maigret_locals unit :=
  match proc w with
  | ProcRaises e => raise e
  | Completed _ => read_output (output_file w) maigret_json
  end.

Definition maigret_except (e : exn) : M maigret_locals unit :=
  match e with
  | TimeoutExpired _ => maigret_add_error "Search timed out"
  | FileNotFoundError _ =>
      maigret_add_error "Maigret not installed. Run: pip install maigret"
  | OtherException msg => maigret_add_error ("Error: " ++ msg)
  end.

Definition maigret_locals_at_return (w : world) : maigret_locals :=
  snd (try_except (maigret_try w) maigret_except maigret_no_locals).

Definition run_maigret (username : string) (timeout : Z) (w : world)
  : outcome pydict :=
  run (try_except (maigret_try w) maigret_except ;;;
       st <- get ;;
       ret [("username", VStr username);
            ("searched_at", VStr (now_iso w));
            ("tool", VStr "maigret");
            ("total_sites",
             VInt (Z.of_nat (List.length (mg_found st))
                   + Z.of_nat (List.length (mg_not_found st))));
            ("found", VList (map (fun h => VDict (maigret_hit_dict h)) (mg_found st)));
            ("not_found", VList (map VStr (firstn 50 (mg_not_found st))));
            ("errors", VList (map VStr (mg_errors st)));
            ("execution_time", VFloat (elapsed w))])
      maigret_no_locals.

(** ** run_holehe *)

(** [{'service': ..., 'status': 'registered', 'details': ...}] *)
Record holehe_hit : Type := {
  service : string;
  status : string;
  details : string
}.

Definition holehe_hit_dict (h : holehe_hit) : pydict :=
  [("service", VStr (service h)); ("status", VStr (status h));
   ("details", VStr (details h))].

Record holehe_locals : Type := {
  registered : list holehe_hit;
  not_registered : list string;
  h_errors : list string
}.

Definition holehe_no_locals : holehe_locals :=
  {| registered := []; not_registered := []; h_errors := [] |}.

Definition holehe_add_error (msg : string) : M holehe_locals unit :=
  modify (fun st => {| registered := registered st;
                       not_registered := not_registered st;
                       h_errors := h_errors st ++ [msg] |}).

(** The body of [for line in result.stdout.split('\n')]. *)
Definition holehe_line (line0 : string) : M holehe_locals unit :=
  let line := PyStr.strip line0 in
  if PyStr.is_empty line then ret tt
  else if PyStr.contains "[+]" line then
    match PyStr.split ":" (PyStr.strip (PyStr.replace "[+]" "" line)) with
    | [] => ret tt
    | p0 :: rest =>
        modify (fun st =>
          {| registered := registered st ++
               [{| service := PyStr.strip p0;
                   status := "registered";
                   details := if (1 <? List.length (p0 :: rest))%nat
                              then PyStr.strip (PyStr.join ":" rest) else "" |}];
             not_registered := not_registered st;
             h_errors := h_errors st |})
    end
  else if PyStr.contains "[-]" line then
    match PyStr.split ":" (PyStr.strip (PyStr.replace "[-]" "" line)) with
    | [] => ret tt
    | p0 :: _ =>
        modify (fun st =>
          {| registered := registered st;
             not_registered := not_registered st ++ [PyStr.strip p0];
             h_errors := h_errors st |})
    end
  else if PyStr.contains "[x]" line then
    match PyStr.split ":" (PyStr.strip (PyStr.replace "[x]" "" line)) with
    | [] => ret tt
    | p0 :: _ => holehe_add_error (PyStr.strip p0)
    end
  else ret tt.

Definition holehe_try (w : world) : M holehe_locals unit :=
  match proc w with
  | ProcRaises e => raise e
  | Completed stdout => for_each (PyStr.split PyStr.nl stdout) holehe_line
  end.

Definition holehe_except (e : exn) : M holehe_locals unit :=
  match e with
  | TimeoutExpired _ => holehe_add_error "Search timed out"
  | FileNotFoundError _ =>
      holehe_add_error "holehe not installed. Run: pip install holehe"
  | OtherException msg => holehe_add_error ("Error: " ++ msg)
  end.

Definition holehe_locals_at_return (w : world) : holehe_locals :=
  snd (try_except (holehe_try w) holehe_except holehe_no_locals).

Definition run_holehe (email : string) (timeout : Z) (w : world)
  : outcome pydict :=
  run (try_except (holehe_try w) holehe_except ;;;
       st <- get ;;
       ret [("email", VStr email);
            ("searched_at", VStr (now_iso w));
            ("tool", VStr "holehe");
            ("registered_on",
             VList (map (fun h => VDict (holehe_hit_dict h)) (registered st)));
            ("not_registered", VList (map VStr (firstn 20 (not_registered st))));
            ("errors", VList (map VStr (h_errors st)));
            ("execution_time", VFloat (elapsed w))])
      holehe_no_locals.

(** ** full_username_search: merging the two adapters' findings *)

(** One dict of an adapter's list 'found'. *)
Definition finding : Type := pydict.

(** [item.get('url', '')] *)
Definition get_url (item : finding) : pyval := dict_get_or "url" (VStr "") item.

(** What the callers read of the dict an adapter returns. *)
Record username_result : Type := {
  r_found : list finding;     (* result['found'] *)
  r_errors : list string      (* result['errors'] *)
}.

(** The dicts run_sherlock and run_maigret return, as their callers read
    them. *)
Definition sherlock_result (py_repr : pyval -> string) (w : world)
  : username_result :=
  let st := sherlock_locals py_repr w in
  {| r_found := map hit_dict (found st); r_errors := errors st |}.

Definition maigret_result (w : world) : username_result :=
  let st := maigret_locals_at_return w in
  {| r_found := map maigret_hit_dict (mg_found st); r_errors := mg_errors st |}.

Record combined_result : Type := {
  total_unique_profiles : nat;
  profiles : list finding
}.

Record full_search_result : Type := {
  fs_username : string;
  fs_searched_at : string;
  fs_sherlock : username_result;
  fs_maigret : username_result;
  fs_combined : combined_result
}.

Section Hashing.

(** [str(e)] of the TypeError raised when a list or a dict is hashed. *)
Variable unhashable : pyval -> string.

(** Code that uses [url] as the key of a dict: it goes on with the key, or
    raises TypeError. *)
Definition hashed {St A : Type} (url : pyval) (k : pykey -> M St A) : M St A :=
  match hash_key url with
  | Some key => k key
  | None => raise (OtherException (unhashable url))
  end.

(** The body of [for item in sherlock_result['found']], on [all_found]. *)
Definition insert_sherlock (item : finding) : M (keyed finding) unit :=
  let url := get_url item in
  when (truthy url)
    (hashed url (fun key => modify (keyed_set key item))).

(** The body of [for item in maigret_result['found']], on [all_found]. *)
Definition insert_maigret (item : finding) : M (keyed finding) unit :=
  let url := get_url item in
  when (truthy url)
    (hashed url (fun key =>
       all_found <- get ;;
       when (negb (keyed_mem key all_found)) (modify (keyed_set key item)))).

(** The two loops, on [all_found]. *)
Definition merge_found (sherlock_found maigret_found : list finding)
  : M (keyed finding) unit :=
  for_each sherlock_found insert_sherlock ;;;
  for_each maigret_found insert_maigret.

(** The entry 'combined' of the result, from [all_found = {}]. *)
Definition combined (sherlock_found maigret_found : list finding)
  : outcome combined_result :=
  match merge_found sherlock_found maigret_found [] with
  | (Done _, all_found) =>
      Done {| total_unique_profiles := List.length all_found;
              profiles := keyed_values all_found |}
  | (Raised e, _) => Raised e
  end.

(** [tasks] is what [await asyncio.gather(sherlock_task, maigret_task)]
    did: it gave the results of the two executor tasks, or it raised. *)
Definition full_username_search (username now : string)
    (tasks : outcome (username_result * username_result))
  : outcome full_search_result :=
  match tasks with
  | Done (sherlock_result, maigret_result) =>
      match combined (r_found sherlock_result) (r_found maigret_result) with
      | Done c =>
          Done {| fs_username := username;
                  fs_searched_at := now;
                  fs_sherlock := sherlock_result;
                  fs_maigret := maigret_result;
                  fs_combined := c |}
      | Raised e => Raised e
      end
  | Raised e => Raised e
  end.

(** ** generate_username_variations *)

(** [parts = full_name.lower().split()] *)
Definition name_parts (full_name : string) : list string :=
  PyStr.split_ws (PyStr.lower full_name).

(** The local list [variations] of generate_username_variations, for a
    name of at least two parts. *)
Definition variations (full_name : string) : list string :=
  let parts := name_parts full_name in
  let first := nth 0 parts "" in
  let last := List.last parts "" in
  let middle := if (2 <? List.length parts)%nat then nth 1 parts "" else "" in
  let first_initial := PyStr.first_char first in
  let last_initial := PyStr.first_char last in
  List.app
   [ first ++ last;
     first ++ "_" ++ last;
     first ++ "." ++ last;
     first ++ "-" ++ last;
     last ++ first;
     first_initial ++ last;
     first ++ last_initial;
     first ++ "_" ++ last_initial;
     last ++ "_" ++ first;
     first ++ last ++ "1";
     first ++ last ++ "123";
     "real" ++ first ++ last;
     "the" ++ first ++ last;
     first ++ "official" ]
   (if PyStr.is_empty middle then []
    else [ first ++ PyStr.first_char middle ++ last;
           first ++ "_" ++ PyStr.first_char middle ++ "_" ++ last ]).

Definition generate_username_variations (full_name : string) : list string :=
  if (List.length (name_parts full_name) <? 2)%nat
  then [PyStr.replace " " "" (PyStr.lower full_name)]
  else dict_fromkeys
         (filter (fun v => (2 <? String.length v)%nat) (variations full_name)).


(** ** multi_username_search *)

Record MultiUsernameRequest : Type := {
  mu_name : string;
  mu_usernames : option (list string);
  mu_max_usernames : Z;
  mu_timeout : Z
}.

(** [l[:n]] for a Python int [n]. *)
Definition slice_to {A : Type} (n : Z) (l : list A) : list A :=
  if (0 <=? n)%Z then firstn (Z.to_nat n) l
  else firstn (List.length l - Z.to_nat (- n)) l.

(** The locals [all_found], [all_errors], [searched_usernames]. *)
Record multi_locals : Type := {
  all_found : keyed finding;
  all_errors : list string;
  searched_usernames : list string
}.

(** [{**item, 'searched_username': username}] *)
Definition with_searched_username (item : finding) (username : string) : finding :=
  dict_set "searched_username" (VStr username) item.

(** The body of [for item in result.get('found', [])], on [all_found]. *)
Definition insert_found (username : string) (item : finding)
  : M (keyed finding) unit :=
  let url := get_url item in
  when (truthy url)
    (hashed url (fun key =>
       all_found <- get ;;
       when (negb (keyed_mem key all_found))
         (modify (keyed_set key (with_searched_username item username))))).

(** The body of [for username in usernames]; the outcome is what
    [await loop.run_in_executor(executor, run_sherlock, ...)] did.  An
    exception of the await or of the loop over the findings ends the try
    block: what was stored before stays, and the errors of the result are
    not read. *)
Definition multi_step (st : multi_locals)
    (uc : string * outcome username_result) : multi_locals :=
  let username := fst uc in
  match snd uc with
  | Done result =>
      match for_each (r_found result) (insert_found username) (all_found st) with
      | (Done _, found) =>
          {| all_found := found;
             all_errors := all_errors st ++
               map (fun e => username ++ ": " ++ e) (r_errors result);
             searched_usernames := searched_usernames st ++ [username] |}
      | (Raised e, found) =>
          {| all_found := found;
             all_errors := all_errors st ++ [username ++ ": " ++ exn_str e];
             searched_usernames := searched_usernames st ++ [username] |}
      end
  | Raised e =>
      {| all_found := all_found st;
         all_errors := all_errors st ++ [username ++ ": " ++ exn_str e];
         searched_usernames := searched_usernames st ++ [username] |}
  end.

Record multi_result : Type := {
  mr_name : string;
  mr_searched_at : string;
  mr_usernames_searched : list string;
  mr_total_profiles_found : nat;
  mr_profiles : list finding;
  mr_errors : list string;
  mr_execution_time : Z
}.

(** [usernames] after [usernames = usernames[:request.max_usernames]]. *)
Definition multi_usernames (request : MultiUsernameRequest) : list string :=
  let usernames :=
    match mu_usernames request with
    | Some (u :: us) => u :: us
    | _ => generate_username_variations (mu_name request)
    end in
  slice_to (mu_max_usernames request) usernames.

(** The usernames with what their executor calls did; [call i username]
    is the outcome of the [i]-th call. *)
Definition multi_runs (request : MultiUsernameRequest)
    (call : nat -> string -> outcome username_result)
  : list (string * outcome username_result) :=
  let usernames := multi_usernames request in
  map (fun iu => (snd iu, call (fst iu) (snd iu)))
      (combine (seq 0 (List.length usernames)) usernames).

(** The locals after [for username in usernames]. *)
Definition multi_loop (runs : list (string * outcome username_result))
  : multi_locals :=
  fold_left multi_step runs
    {| all_found := []; all_errors := []; searched_usernames := [] |}.

Definition multi_username_search (request : MultiUsernameRequest)
    (call : nat -> string -> outcome username_result)
    (now : string) (execution_time : Z) : multi_result :=
  let st := multi_loop (multi_runs request call) in
  {| mr_name := mu_name request;
     mr_searched_at := now;
     mr_usernames_searched := searched_usernames st;
     mr_total_profiles_found := List.length (all_found st);
     mr_profiles := keyed_values (all_found st);
     mr_errors := firstn 20 (all_errors st);
     mr_execution_time := execution_time |}.

(** ** investigate_person *)

Record InvestigatePersonRequest : Type := {
  ip_name : string;
  ip_email : option string;
  ip_phone : option string;
  ip_location : option string
}.

(** [if x:] for an [Optional[str]]. *)
Definition given (x : option string) : option string :=
  match x with
  | Some s => if PyStr.is_empty s then None else Some s
  | None => None
  end.

(** One dict of [flow_steps]; ['result'] is absent until the step ends. *)
Record flow_step : Type := {
  step : Z;
  action : string;
  step_status : string;
  step_result : option string
}.

Record search_link : Type := {
  link_name : string;
  link_url : string;
  link_type : string
}.

(** The locals the steps work on. *)
Record InvestigationState : Type := {
  flow_steps : list flow_step;
  discovered_emails : list string;
  discovered_usernames : list string;
  confirmed_profiles : list pydict;
  people_search_links : list search_link
}.

Definition initial_state : InvestigationState :=
  {| flow_steps := []; discovered_emails := []; discovered_usernames := [];
     confirmed_profiles := []; people_search_links := [] |}.

(** [l[-1] = f(l[-1])] on a list that is not empty. *)
Fixpoint update_last {A : Type} (f : A -> A) (l : list A) : list A :=
  match l with
  | [] => []
  | [x] => [f x]
  | x :: l' => x :: update_last f l'
  end.

(** [flow_steps[-1]["status"] = s; flow_steps[-1]["result"] = r] *)
Definition finish_step (s r : string) (steps : list flow_step) : list flow_step :=
  update_last (fun fs => {| step := step fs; action := action fs;
                            step_status := s; step_result := Some r |}) steps.

Definition running (n : Z) (a : string) : flow_step :=
  {| step := n; action := a; step_status := "running"; step_result := None |}.

(** [first] and [last] of the parsed name. *)
Definition first_of (name : string) : string :=
  nth 0 (PyStr.split_ws (PyStr.lower name)) "".

Definition last_of (name : string) : string :=
  let name_parts := PyStr.split_ws (PyStr.lower name) in
  if (1 <? List.length name_parts)%nat then List.last name_parts ""
  else nth 0 name_parts "".

Definition link (n u t : string) : search_link :=
  {| link_name := n; link_url := u; link_type := t |}.

Definition base_links (name : string) : list search_link :=
  let first := first_of name in
  let last := last_of name in
  let q := PyStr.replace " " "%20" name in
  [ link "TruePeopleSearch" ("https://www.truepeoplesearch.com/results?name=" ++ q) "free";
    link "FastPeopleSearch"
         ("https://www.fastpeoplesearch.com/name/" ++ PyStr.replace " " "-" name) "free";
    link "Whitepages" ("https://www.whitepages.com/name/" ++ first ++ "-" ++ last) "free";
    link "Spokeo" ("https://www.spokeo.com/" ++ first ++ "-" ++ last) "paid";
    link "BeenVerified"
         ("https://www.beenverified.com/people/" ++ first ++ "-" ++ last ++ "/") "paid";
    link "Intelius"
         ("https://www.intelius.com/people-search/" ++ first ++ "-" ++ last ++ "/") "paid";
    link "ThatsThem" ("https://thatsthem.com/name/" ++ first ++ "-" ++ last) "free";
    link "USSearch"
         ("https://www.ussearch.com/search/results/people?firstName=" ++ first
          ++ "&lastName=" ++ last) "paid";
    link "Facebook" ("https://www.facebook.com/search/people?q=" ++ q) "social";
    link "LinkedIn"
         ("https://www.linkedin.com/search/results/people/?keywords=" ++ q) "social";
    link "Instagram" ("https://www.instagram.com/" ++ first ++ last ++ "/") "social";
    link "Twitter/X" ("https://twitter.com/search?q=" ++ q ++ "&f=user") "social" ].

Definition location_links (name location : string) : list search_link :=
  let first := first_of name in
  let last := last_of name in
  let loc := PyStr.replace " " "%20" location in
  [ link "TruePeopleSearch (Location)"
         ("https://www.truepeoplesearch.com/results?name="
          ++ PyStr.replace " " "%20" name ++ "&citystatezip=" ++ loc) "free";
    link "Whitepages (Location)"
         ("https://www.whitepages.com/name/" ++ first ++ "-" ++ last ++ "/" ++ loc)
         "free" ].

(** Step 1: generate people search links. *)
Definition step1 (request : InvestigatePersonRequest) (st : InvestigationState)
  : InvestigationState :=
  let links :=
    List.app (base_links (ip_name request))
      (match given (ip_location request) with
       | Some location => location_links (ip_name request) location
       | None => []
       end) in
  {| flow_steps :=
       finish_step "complete"
         ("Generated " ++ str_nat (List.length links) ++ " search links")
         (flow_steps st ++ [running 1 "Generate people search links"]);
     discovered_emails := discovered_emails st;
     discovered_usernames := discovered_usernames st;
     confirmed_profiles := confirmed_profiles st;
     people_search_links := links |}.

(** The dict appended to [confirmed_profiles] for one holehe service. *)
Definition holehe_profile (email : string) (h : holehe_hit) : pydict :=
  [("platform", VStr (service h));
   ("source", VStr "holehe (email)");
   ("email", VStr email);
   ("url", VStr ("https://" ++ PyStr.replace " " "" (PyStr.lower (service h)) ++ ".com"))].

(** Step 2: if an email is given, check it with holehe.  [holehe_call] is
    what [await loop.run_in_executor(executor, run_holehe, email, 60)]
    did, with the result's ['registered_on'] when it returned. *)
Definition step2 (request : InvestigatePersonRequest)
    (holehe_call : string -> outcome (list holehe_hit))
    (st : InvestigationState) : InvestigationState :=
  match given (ip_email request) with
  | None => st
  | Some email =>
      let steps : list flow_step :=
        List.app (flow_steps st) [running 2 ("Check email registration: " ++ email)] in
      let emails : list string := List.app (discovered_emails st) [email] in
      match holehe_call email with
      | Done registered_services =>
          {| flow_steps :=
               finish_step "complete"
                 ("Found " ++ str_nat (List.length registered_services) ++ " services")
                 steps;
             discovered_emails := emails;
             discovered_usernames := discovered_usernames st;
             confirmed_profiles :=
               confirmed_profiles st ++ map (holehe_profile email) registered_services;
             people_search_links := people_search_links st |}
      | Raised e =>
          {| flow_steps := finish_step "error" (exn_str e) steps;
             discovered_emails := emails;
             discovered_usernames := discovered_usernames st;
             confirmed_profiles := confirmed_profiles st;
             people_search_links := people_search_links st |}
      end
  end.

(** The dict stored in [all_sherlock_found] and appended to
    [confirmed_profiles]. *)
Definition sherlock_profile (username : string) (url : pyval) (profile : finding)
  : pydict :=
  [("platform", dict_get_or "platform" (VStr "Unknown") profile);
   ("url", url);
   ("username", VStr username);
   ("source", VStr "sherlock")].

(** The body of [for profile in result.get('found', [])], on the pair
    ([all_sherlock_found], [confirmed_profiles]). *)
Definition add_profile (username : string) (profile : finding)
  : M (keyed pydict * list pydict) unit :=
  let url := get_url profile in
  when (truthy url)
    (hashed url (fun key =>
       acc <- get ;;
       when (negb (keyed_mem key (fst acc)))
         (modify (fun acc =>
            (keyed_set key (sherlock_profile username url profile) (fst acc),
             List.app (snd acc) [sherlock_profile username url profile]))))).

(** The body of [for username in username_variations]: an exception of
    the await or of the loop over the findings is passed over; what was
    stored before it stays. *)
Definition search_variation (sherlock_call : string -> outcome (list finding))
    (acc : keyed pydict * list pydict) (username : string)
  : keyed pydict * list pydict :=
  match sherlock_call username with
  | Done found_profiles =>
      snd (try_except (for_each found_profiles (add_profile username))
                      (fun _ => ret tt) acc)
  | Raised _ => acc
  end.

(** [generate_username_variations(request.name)[:5]] *)
Definition username_variations (request : InvestigatePersonRequest) : list string :=
  firstn 5 (generate_username_variations (ip_name request)).

(** Step 3: try the username variations with Sherlock. *)
Definition step3 (request : InvestigatePersonRequest)
    (sherlock_call : string -> outcome (list finding))
    (st : InvestigationState) : InvestigationState :=
  let steps : list flow_step :=
    List.app (flow_steps st) [running 3 "Search username variations with Sherlock"] in
  let acc := fold_left (search_variation sherlock_call) (username_variations request)
               ([], confirmed_profiles st) in
  {| flow_steps :=
       finish_step "complete"
         ("Searched " ++ str_nat (List.length (username_variations request))
          ++ " usernames, found " ++ str_nat (List.length (fst acc)) ++ " profiles")
         steps;
     discovered_emails := discovered_emails st;
     discovered_usernames := discovered_usernames st ++ username_variations request;
     confirmed_profiles := snd acc;
     people_search_links := people_search_links st |}.

Record InvestigatePersonResult : Type := {
  res_name : string;
  res_searched_at : string;
  res_flow_steps : list flow_step;
  res_discovered_emails : list string;
  res_discovered_usernames : list string;
  res_confirmed_profiles : list pydict;
  res_people_search_links : list search_link;
  res_summary : string;
  res_execution_time : Z
}.

Definition summary_parts (request : InvestigatePersonRequest)
    (st : InvestigationState) : list string :=
  let rest :=
    [ "Search links: " ++ str_nat (List.length (people_search_links st));
      "Usernames tried: "
        ++ PyStr.join ", " (firstn 3 (username_variations request)) ++ "...";
      "Confirmed profiles: " ++ str_nat (List.length (confirmed_profiles st)) ] in
  ("Investigated: " ++ ip_name request)
  :: match given (ip_email request) with
     | Some email => ("Email checked: " ++ email) :: rest
     | None => rest
     end.

Definition investigate_person (request : InvestigatePersonRequest)
    (holehe_call : string -> outcome (list holehe_hit))
    (sherlock_call : string -> outcome (list finding))
    (now : string) (execution_time : Z) : InvestigatePersonResult :=
  let st := step3 request sherlock_call
              (step2 request holehe_call (step1 request initial_state)) in
  {| res_name := ip_name request;
     res_searched_at := now;
     res_flow_steps := flow_steps st;
     res_discovered_emails := discovered_emails st;
     res_discovered_usernames := discovered_usernames st;
     res_confirmed_profiles := confirmed_profiles st;
     res_people_search_links := people_search_links st;
     res_summary := PyStr.join " | " (summary_parts request st);
     res_execution_time := execution_time |}.

End Hashing.

End Backend.

(* ====================================================================== *)
(** * api/osint.py *)
(* ====================================================================== *)

Module Api.

(** ** re.search(r'https?://[^\s]+', line) *)

(** The longest prefix without whitespace: what [[^\s]+] takes. *)
Fixpoint take_nonspace (s : string) : string :=
  match s with
  | "" => ""
  | String c s' => if PyStr.isspace c then "" else String c (take_nonspace s')
  end.

(** [s[n:]] *)
Fixpoint drop (n : nat) (s : string) : string :=
  match n, s with
  | O, _ => s
  | S _, "" => ""
  | S k, String _ s' => drop k s'
  end.

(** The match of the pattern that starts at the first character of [s]. *)
Definition url_at (s : string) : option string :=
  if prefix "https://" s then
    let r := take_nonspace (drop 8 s) in
    if PyStr.is_empty r then None else Some ("https://" ++ r)
  else if prefix "http://" s then
    let r := take_nonspace (drop 7 s) in
    if PyStr.is_empty r then None else Some ("http://" ++ r)
  else None.

(** The leftmost match: [url_match.group(0)], or [None]. *)
Fixpoint search_url (s : string) : option string :=
  match url_at s with
  | Some u => Some u
  | None =>
      match s with
      | "" => None
      | String _ s' => search_url s'
      end
  end.

(** The local list [found_sites] / [services] is the state. *)
Definition append_site (d : pydict) : M (list pydict) unit :=
  modify (fun sites => List.app sites [d]).

(** [subprocess.run(...)] followed by [result.stdout]. *)
Definition stdout_of {St : Type} (p : proc_outcome) : M St string :=
  match p with
  | Completed stdout => ret stdout
  | ProcRaises e => raise e
  end.

(** ** run_sherlock *)

Definition sherlock_line (line : string) : M (list pydict) unit :=
  when (PyStr.contains "[+]" line)
    match search_url line with
    | Some url_match =>
        site <- (if PyStr.contains ":" line
                 then p <- index (PyStr.split "[+]" line) 1 ;;
                      q <- index (PyStr.split ":" p) 0 ;;
                      ret (PyStr.strip q)
                 else ret "Unknown") ;;
        append_site [("site", VStr site); ("url", VStr url_match);
                     ("status", VStr "found")]
    | None => ret tt
    end.

Definition run_sherlock (username : string) (p : proc_outcome) : outcome pydict :=
  run (try_except
         (stdout <- stdout_of p ;;
          for_each (PyStr.split PyStr.nl stdout) sherlock_line ;;;
          found_sites <- get ;;
          ret [("username", VStr username);
               ("sites_checked", VInt 400);
               ("sites_found", VInt (Z.of_nat (List.length found_sites)));
               ("results", VList (map VDict found_sites))])
         (fun e =>
            match e with
            | TimeoutExpired _ =>
                ret [("error", VStr "Search timed out"); ("username", VStr username)]
            | FileNotFoundError _ =>
                ret [("error", VStr "Sherlock not installed");
                     ("username", VStr username); ("results", VList [])]
            | OtherException msg =>
                ret [("error", VStr msg); ("username", VStr username);
                     ("results", VList [])]
            end))
      [].

(** ** run_maigret *)

Definition maigret_line (line : string) : M (list pydict) unit :=
  when (PyStr.contains "[+]" line || PyStr.contains "http" (PyStr.lower line))
    match search_url line with
    | Some url_match =>
        append_site [("site", VStr "Various"); ("url", VStr url_match);
                     ("status", VStr "found")]
    | None => ret tt
    end.

Definition run_maigret (username : string) (p : proc_outcome) : outcome pydict :=
  run (try_except
         (stdout <- stdout_of p ;;
          for_each (PyStr.split PyStr.nl stdout) maigret_line ;;;
          found_sites <- get ;;
          ret [("username", VStr username);
               ("sites_checked", VInt 2000);
               ("sites_found", VInt (Z.of_nat (List.length found_sites)));
               ("results", VList (map VDict found_sites))])
         (fun e =>
            match e with
            | TimeoutExpired _ =>
                ret [("error", VStr "Deep search timed out");
                     ("username", VStr username)]
            | FileNotFoundError _ =>
                ret [("error", VStr "Maigret not installed");
                     ("username", VStr username); ("results", VList [])]
            | OtherException msg =>
                ret [("error", VStr msg); ("username", VStr username);
                     ("results", VList [])]
            end))
      [].

(** ** run_holehe *)

Definition holehe_line (line : string) : M (list pydict) unit :=
  when (PyStr.contains "[+]" line)
    (service_name <-
       index (PyStr.split_ws (PyStr.strip (PyStr.replace "[+]" "" line))) 0 ;;
     append_site [("service", VStr service_name); ("email_registered", VBool true)]).

Definition run_holehe (email : string) (p : proc_outcome) : outcome pydict :=
  run (try_except
         (stdout <- stdout_of p ;;
          for_each (PyStr.split PyStr.nl stdout) holehe_line ;;;
          services <- get ;;
          ret [("email", VStr email);
               ("services_checked", VInt 120);
               ("services_found", VInt (Z.of_nat (List.length services)));
               ("results", VList (map VDict services))])
         (fun e =>
            match e with
            | TimeoutExpired _ =>
                ret [("error", VStr "Email search timed out"); ("email", VStr email)]
            | FileNotFoundError _ =>
                ret [("error", VStr "holehe not installed");
                     ("email", VStr email); ("results", VList [])]
            | OtherException msg =>
                ret [("error", VStr msg); ("email", VStr email);
                     ("results", VList [])]
            end))
      [].

End Api.

(* ====================================================================== *)
(** * Vocabulary of the properties, and example data *)
(* ====================================================================== *)

Import Backend.

(** [r] lists elements of [l] in the order of their first occurrences in
    [l]: whenever [x] stands before [y] in [r], the first [x] of [l] stands
    before the first [y] of [l]. *)
Definition first_occurrence_order (l r : list string) : Prop :=
  forall r1 x r2 y r3,
    r = (r1 ++ x :: r2 ++ y :: r3)%list ->
    exists a b c,
      l = (a ++ x :: b ++ y :: c)%list /\ ~ In x a /\ ~ In y (a ++ x :: b)%list.

(** The message of the TypeError in CPython up to 3.13, for the examples. *)
Definition unhashable_type (v : pyval) : string :=
  "unhashable type: '" ++ type_name v ++ "'".

(** The key a finding is stored under: that of its URL; none for a finding
    that is passed over, its URL being absent, empty or otherwise false. *)
Definition url_key (item : finding) : option pykey :=
  if truthy (get_url item) then hash_key (get_url item) else None.

(** A finding at which the loops raise: its URL is a list or a dict that
    is not empty. *)
Definition unhashable_url (item : finding) : bool :=
  truthy (get_url item)
  && match hash_key (get_url item) with Some _ => false | None => true end.

(** The exception raised at such a finding. *)
Definition type_error (unhashable : pyval -> string) (item : finding) : exn :=
  OtherException (unhashable (get_url item)).

(** The findings a loop reads before it raises: those before the first
    one whose URL cannot be hashed. *)
Fixpoint readable (l : list finding) : list finding :=
  match l with
  | [] => []
  | x :: l' => if unhashable_url x then [] else x :: readable l'
  end.

(** What the bodies of the loops do with a finding at which they do not
    raise. *)
Definition put_sherlock (d : keyed finding) (item : finding) : keyed finding :=
  match url_key item with
  | Some k => keyed_set k item d
  | None => d
  end.

Definition put_maigret (d : keyed finding) (item : finding) : keyed finding :=
  match url_key item with
  | Some k => if keyed_mem k d then d else keyed_set k item d
  | None => d
  end.

Definition put_found (username : string) (d : keyed finding) (item : finding)
  : keyed finding :=
  match url_key item with
  | Some k =>
      if keyed_mem k d then d
      else keyed_set k (with_searched_username item username) d
  | None => d
  end.

Definition put_profile (username : string) (acc : keyed pydict * list pydict)
    (profile : finding) : keyed pydict * list pydict :=
  match url_key profile with
  | Some k =>
      if keyed_mem k (fst acc) then acc
      else (keyed_set k (sherlock_profile username (get_url profile) profile) (fst acc),
            List.app (snd acc) [sherlock_profile username (get_url profile) profile])
  | None => acc
  end.

(** [all_found] after both loops, when none of them raises. *)
Definition merged (sherlock_found maigret_found : list finding) : keyed finding :=
  fold_left put_maigret maigret_found (fold_left put_sherlock sherlock_found []).

(** Every entry of [d] is stored under the key of its own URL, and no key
    is stored twice. *)
Definition well_keyed (d : keyed finding) : Prop :=
  NoDup (keyed_keys d)
  /\ Forall (fun kv => url_key (snd kv) = Some (fst kv)) d.

(** The finding [x] is stored under the key [k]. *)
Definition has_key (k : pykey) (x : finding) : bool :=
  match url_key x with
  | Some k' => pykey_eqb k' k
  | None => false
  end.

(** Sherlock and Maigret report the same URL; Maigret adds a tag. *)
Definition bob_sherlock : finding :=
  [("platform", VStr "GitHub"); ("url", VStr "https://github.com/bob");
   ("response_time", VInt 0)].

Definition bob_maigret : finding :=
  [("platform", VStr "GitHub (maigret)"); ("url", VStr "https://github.com/bob");
   ("tags", VList [VStr "coding"]); ("ids", VDict [])].

Definition bob_sherlock_result : username_result :=
  {| r_found := [bob_sherlock]; r_errors := [] |}.

Definition bob_maigret_result : username_result :=
  {| r_found := [bob_maigret]; r_errors := [] |}.

(** The dict [d] has a list under [findings] and a list of strings under
    'errors'. *)
Definition has_findings_and_errors (findings : string) (d : pydict) : Prop :=
  exists fs es,
    dict_get findings d = Some (VList fs)
    /\ dict_get "errors" d = Some (VList (map VStr es)).

(** The world [w] with another outcome of the subprocess. *)
Definition with_proc (p : proc_outcome) (w : world) : world :=
  {| proc := p; output_file := output_file w;
     now_iso := now_iso w; elapsed := elapsed w |}.

(** The dict has no findings and the one error [msg]. *)
Definition nothing_found_one_error (findings msg : string) (d : pydict) : Prop :=
  dict_get findings d = Some (VList [])
  /\ dict_get "errors" d = Some (VList [VStr msg]).

(** What api/osint.py returns, by what the subprocess did: after a normal
    end, 'results' and no 'error', unless parsing raised; after a missing
    binary or another exception, 'error' with 'results' empty; after a
    timeout, 'error'. *)
Definition api_result_shape (p : proc_outcome) (timed_out missing : string)
    (d : pydict) : Prop :=
  match p with
  | Completed _ =>
      (dict_get "error" d = None /\ exists fs, dict_get "results" d = Some (VList fs))
      \/ (exists msg, dict_get "error" d = Some (VStr msg)
                      /\ dict_get "results" d = Some (VList []))
  | ProcRaises (TimeoutExpired _) =>
      dict_get "error" d = Some (VStr timed_out)
  | ProcRaises (FileNotFoundError _) =>
      dict_get "error" d = Some (VStr missing)
      /\ dict_get "results" d = Some (VList [])
  | ProcRaises (OtherException msg) =>
      dict_get "error" d = Some (VStr msg)
      /\ dict_get "results" d = Some (VList [])
  end.

(** Code that raises nothing but exceptions outside the two classes with a
    handler of their own. *)
Definition raises_only_other {St A : Type} (m : M St A) : Prop :=
  forall s e s', m s = (Raised e, s') -> exists msg, e = OtherException msg.

(** More than 50 sites without account: the result lists 50 of them and
    counts them all. *)
Definition many_available (n : nat) : world :=
  {| proc := Completed "";
     output_file :=
       FileJson (VDict (map (fun i => ("site" ++ str_nat i,
                                       VDict [("status", VStr "Available")]))
                            (seq 0 n)));
     now_iso := "2024-01-01T00:00:00";
     elapsed := 0 |}.

(** [l'] is [l] with entries added at its end. *)
Definition extends {A : Type} (l l' : list A) : Prop :=
  exists added, l' = (l ++ added)%list.

(** From [st] to [st'] the three accumulated lists only had entries
    added: every earlier entry is still there, at its place. *)
Definition state_grows (st st' : InvestigationState) : Prop :=
  extends (confirmed_profiles st) (confirmed_profiles st')
  /\ extends (discovered_emails st) (discovered_emails st')
  /\ extends (discovered_usernames st) (discovered_usernames st').

(** A request by name alone, one with an email, and calls that raise. *)
Definition amanda_request : InvestigatePersonRequest :=
  {| ip_name := "Amanda Driskell"; ip_email := None;
     ip_phone := None; ip_location := None |}.

Definition amanda_email_request : InvestigatePersonRequest :=
  {| ip_name := "Amanda Driskell"; ip_email := Some "a@example.com";
     ip_phone := None; ip_location := None |}.

Definition sherlock_crashes : string -> outcome (list finding) :=
  fun _ => Raised (OtherException "sherlock crashed").

Definition holehe_crashes (msg : string) : string -> outcome (list holehe_hit) :=
  fun _ => Raised (OtherException msg).

(** Every character of [s] satisfies [p]. *)
Fixpoint all_chars (p : ascii -> bool) (s : string) : bool :=
  match s with
  | "" => true
  | String c s' => p c && all_chars p s'
  end.

(** [c] is no whitespace and [lower] leaves it as it is. *)
Definition lowered_nonspace (c : ascii) : bool :=
  negb (PyStr.isspace c) && Ascii.eqb (PyStr.lower_char c) c.

(** [isinstance(v, dict)] *)
Definition is_dict (v : pyval) : bool :=
  match v with
  | VDict _ => true
  | _ => false
  end.

(** The world of an adapter whose process ended with [stdout] on its
    standard output and left [file] as its output file. *)
Definition completed_world (stdout : string) (file : file_outcome) : world :=
  {| proc := Completed stdout; output_file := file;
     now_iso := "2024-01-01T00:00:00"; elapsed := 0 |}.


(** A record of flow_steps whose step has ended: it is no longer
    'running' and it has a result. *)
Definition step_closed (fs : flow_step) : Prop :=
  (step_status fs = "complete" \/ step_status fs = "error")
  /\ step_result fs <> None.

(** The findings step 3 reads, each with the username it was found
    under: for every username whose call returned, in the order of the
    usernames, the findings before the first one whose URL cannot be
    hashed. *)
Definition findings_read (sherlock_call : string -> outcome (list finding))
    (usernames : list string) : list (string * finding) :=
  flat_map (fun username =>
              match sherlock_call username with
              | Done found_profiles => map (pair username) (readable found_profiles)
              | Raised _ => []
              end)
           usernames.

(** What step 3 does with a finding read under a username. *)
Definition put_pair (acc : keyed pydict * list pydict) (uf : string * finding)
  : keyed pydict * list pydict :=
  put_profile (fst uf) acc (snd uf).

(** The key of a finding read under a username. *)
Definition pair_key (uf : string * finding) : option pykey := url_key (snd uf).

(** The profile step 3 makes of a finding. *)
Definition profile_of (uf : string * finding) : pydict :=
  sherlock_profile (fst uf) (get_url (snd uf)) (snd uf).

(** Of the findings [l], the first one for each key, in their order; the
    keys in [seen] are passed over. *)
Fixpoint first_of_each_key (seen : list pykey) (l : list (string * finding))
  : list (string * finding) :=
  match l with
  | [] => []
  | uf :: l' =>
      match url_key (snd uf) with
      | Some k =>
          if existsb (pykey_eqb k) seen then first_of_each_key seen l'
          else uf :: first_of_each_key (k :: seen) l'
      | None => first_of_each_key seen l'
      end
  end.

(* ====================================================================== *)
(** * main.py: phone intelligence *)
(* ====================================================================== *)

Module Phone.

(** [s[n:]] and [s[:n]] for [n >= 0]. *)
Fixpoint from_index (n : nat) (s : string) : string :=
  match n, s with
  | O, _ => s
  | S _, "" => ""
  | S k, String _ s' => from_index k s'
  end.

Fixpoint up_to (n : nat) (s : string) : string :=
  match n, s with
  | O, _ => ""
  | S _, "" => ""
  | S k, String c s' => String c (up_to k s')
  end.

(** [phone.replace("-", "").replace(" ", "").replace("(", "").replace(")", "")] *)
Definition clean_phone (phone : string) : string :=
  PyStr.replace ")" "" (PyStr.replace "(" "" (PyStr.replace " " ""
    (PyStr.replace "-" "" phone))).

(** The two tests that drop the country code of a cleaned number. *)
Definition drop_country_code (phone : string) : string :=
  let phone := if PyStr.startswith "+1" phone then from_index 2 phone else phone in
  if PyStr.startswith "1" phone && (String.length phone =? 11)%nat
  then from_index 1 phone else phone.

Record place : Type := { city : string; state : string }.

(** The dict [area_codes] of phone_search. *)
Definition area_codes : dict place :=
  [("212", {| city := "New York"; state := "NY" |});
   ("213", {| city := "Los Angeles"; state := "CA" |});
   ("312", {| city := "Chicago"; state := "IL" |});
   ("404", {| city := "Atlanta"; state := "GA" |});
   ("504", {| city := "New Orleans"; state := "LA" |});
   ("713", {| city := "Houston"; state := "TX" |});
   ("305", {| city := "Miami"; state := "FL" |});
   ("702", {| city := "Las Vegas"; state := "NV" |});
   ("206", {| city := "Seattle"; state := "WA" |});
   ("415", {| city := "San Francisco"; state := "CA" |})].

Record social_link : Type := { sl_platform : string; sl_url : string }.

Record PhoneSearchResult : Type := {
  ps_phone : string;
  ps_searched_at : string;
  ps_carrier : option string;
  ps_line_type : option string;
  ps_location : option place;
  ps_reputation : option pydict;
  ps_social_media : list social_link;
  ps_execution_time : Z
}.

(** phone_search, for [request.phone]. *)
Definition phone_search (request_phone now : string) (execution_time : Z)
  : PhoneSearchResult :=
  let phone := drop_country_code (clean_phone request_phone) in
  let location :=
    if (10 <=? String.length phone)%nat
    then Some (dict_get_or (up_to 3 phone)
                 {| city := "Unknown"; state := "Unknown" |} area_codes)
    else None in
  {| ps_phone := request_phone;
     ps_searched_at := now;
     ps_carrier := None;
     ps_line_type := None;
     ps_location := location;
     ps_reputation := None;
     ps_social_media :=
       [ {| sl_platform := "Facebook";
            sl_url := "https://www.facebook.com/search/top?q=" ++ phone |};
         {| sl_platform := "TrueCaller";
            sl_url := "https://www.truecaller.com/search/us/" ++ phone |};
         {| sl_platform := "Whitepages";
            sl_url := "https://www.whitepages.com/phone/" ++ phone |};
         {| sl_platform := "NumLookup";
            sl_url := "https://www.numlookup.com/us/" ++ phone |} ];
     ps_execution_time := execution_time |}.

(** ** run_phoneinfoga *)

(** The dict [result_data]. *)
Record result_data : Type := {
  raw_local : pyval;
  international : pyval;
  country : pyval;
  carrier : pyval;
  line_type : pyval;
  valid : pyval;
  possible_owner : pyval;
  social_results : list pydict;
  dork_results : list string
}.

(** The locals [result_data] and [errors]. *)
Record infoga_locals : Type := {
  rd : result_data;
  pi_errors : list string
}.

Definition infoga_no_locals : infoga_locals :=
  {| rd := {| raw_local := VNone; international := VNone; country := VNone;
              carrier := VNone; line_type := VNone; valid := VBool false;
              possible_owner := VNone; social_results := [];
              dork_results := [] |};
     pi_errors := [] |}.

Definition update (f : result_data -> result_data) : M infoga_locals unit :=
  modify (fun st => {| rd := f (rd st); pi_errors := pi_errors st |}).

Definition infoga_add_error (msg : string) : M infoga_locals unit :=
  modify (fun st => {| rd := rd st; pi_errors := pi_errors st ++ [msg] |}).

Definition set_carrier (v : pyval) (r : result_data) : result_data :=
  {| raw_local := raw_local r; international := international r;
     country := country r; carrier := v; line_type := line_type r;
     valid := valid r; possible_owner := possible_owner r;
     social_results := social_results r; dork_results := dork_results r |}.

Definition set_country (v : pyval) (r : result_data) : result_data :=
  {| raw_local := raw_local r; international := international r;
     country := v; carrier := carrier r; line_type := line_type r;
     valid := valid r; possible_owner := possible_owner r;
     social_results := social_results r; dork_results := dork_results r |}.

Definition set_line_type (v : pyval) (r : result_data) : result_data :=
  {| raw_local := raw_local r; international := international r;
     country := country r; carrier := carrier r; line_type := v;
     valid := valid r; possible_owner := possible_owner r;
     social_results := social_results r; dork_results := dork_results r |}.

Definition set_valid (v : pyval) (r : result_data) : result_data :=
  {| raw_local := raw_local r; international := international r;
     country := country r; carrier := carrier r; line_type := line_type r;
     valid := v; possible_owner := possible_owner r;
     social_results := social_results r; dork_results := dork_results r |}.

Definition add_social (d : pydict) (r : result_data) : result_data :=
  {| raw_local := raw_local r; international := international r;
     country := country r; carrier := carrier r; line_type := line_type r;
     valid := valid r; possible_owner := possible_owner r;
     social_results := social_results r ++ [d]; dork_results := dork_results r |}.

Definition set_dorks (l : list string) (r : result_data) : result_data :=
  {| raw_local := raw_local r; international := international r;
     country := country r; carrier := carrier r; line_type := line_type r;
     valid := valid r; possible_owner := possible_owner r;
     social_results := social_results r; dork_results := l |}.

(** The six assignments from the dict [data] of the output file. *)
Definition set_from_json (phone : string) (data : pydict) (r : result_data)
  : result_data :=
  {| raw_local := dict_get_or "rawLocal" (VStr phone) data;
     international := dict_get_or "international" (VStr "") data;
     country := dict_get_or "country" (VStr "") data;
     carrier := dict_get_or "carrier" (VStr "") data;
     line_type := dict_get_or "lineType" (VStr "") data;
     valid := dict_get_or "valid" (VBool false) data;
     possible_owner := possible_owner r;
     social_results := social_results r; dork_results := dork_results r |}.

(** The one-character strings a [str] is iterated into. *)
Fixpoint chars (s : string) : list pyval :=
  match s with
  | "" => []
  | String c s' => VStr (String c "") :: chars s'
  end.

(** [for item in v]: the items, or the TypeError of a value that cannot
    be iterated. *)
Definition iterate {St : Type} (v : pyval) : M St (list pyval) :=
  match v with
  | VList l => ret l
  | VDict d => ret (map (fun kv => VStr (fst kv)) d)
  | VStr s => ret (chars s)
  | _ => raise (OtherException ("'" ++ type_name v ++ "' object is not iterable"))
  end.

(** The body of [for item in data.get('googlesearch', [])]. *)
Definition infoga_item (item : pyval) : M infoga_locals unit :=
  match item with
  | VDict i =>
      update (add_social [("title", dict_get_or "title" (VStr "") i);
                          ("url", dict_get_or "url" (VStr "") i);
                          ("snippet", dict_get_or "snippet" (VStr "") i)])
  | _ => raise (attribute_error item "get")
  end.

Definition infoga_json (phone : string) (data : pyval) : M infoga_locals unit :=
  match data with
  | VDict d =>
      update (set_from_json phone d) ;;;
      when (dict_mem "googlesearch" d)
        (items <- iterate (dict_get_or "googlesearch" (VList []) d) ;;
         for_each items infoga_item)
  | _ => raise (attribute_error data "get")
  end.

(** The body of [for line in proc_result.stdout.split('\n')]. *)
Definition infoga_line (line : string) : M infoga_locals unit :=
  if PyStr.contains "Carrier:" line then
    v <- index (PyStr.split "Carrier:" line) 1 ;;
    update (set_carrier (VStr (PyStr.strip v)))
  else if PyStr.contains "Country:" line then
    v <- index (PyStr.split "Country:" line) 1 ;;
    update (set_country (VStr (PyStr.strip v)))
  else if PyStr.contains "Line type:" line || PyStr.contains "LineType:" line then
    v <- index (PyStr.split ":" line) 1 ;;
    update (set_line_type (VStr (PyStr.strip v)))
  else ret tt.

(** The double quote character. *)
Definition dq : string := String (ascii_of_nat 34) "".

(** The list assigned to [result_data['dork_results']]. *)
Definition dorks (phone : string) : list string :=
  let clean := clean_phone phone in
  [ dq ++ clean ++ dq;
    dq ++ phone ++ dq ++ " site:facebook.com";
    dq ++ phone ++ dq ++ " site:linkedin.com";
    dq ++ phone ++ dq ++ " site:twitter.com";
    dq ++ clean ++ dq ++ " intext:contact";
    dq ++ clean ++ dq ++ " filetype:pdf" ].

Definition infoga_try (phone : string) (w : world) : M infoga_locals unit :=
  match proc w with
  | ProcRaises e => raise e
  | Completed stdout =>
      read_output (output_file w) (infoga_json phone) ;;;
      when (negb (PyStr.is_empty stdout))
        (for_each (PyStr.split PyStr.nl stdout) infoga_line) ;;;
      update (set_dorks (dorks phone))
  end.

(** The basic analysis of the handler of FileNotFoundError. *)
Definition fallback (phone : string) : M infoga_locals unit :=
  let clean := clean_phone phone in
  let clean := if PyStr.startswith "+1" clean then from_index 2 clean else clean in
  let clean := if (String.length clean =? 11)%nat && PyStr.startswith "1" clean
               then from_index 1 clean else clean in
  when (String.length clean =? 10)%nat
    (update (set_country (VStr "US")) ;;; update (set_valid (VBool true))).

Definition infoga_except (phone : string) (e : exn) : M infoga_locals unit :=
  match e with
  | TimeoutExpired _ => infoga_add_error "PhoneInfoga search timed out"
  | FileNotFoundError _ =>
      infoga_add_error
        "PhoneInfoga not installed. Run: go install github.com/sundowndev/phoneinfoga/v2/cmd/phoneinfoga@latest" ;;;
      fallback phone
  | OtherException msg => infoga_add_error ("PhoneInfoga error: " ++ msg)
  end.

Definition infoga_locals_at_return (phone : string) (w : world) : infoga_locals :=
  snd (try_except (infoga_try phone w) (infoga_except phone) infoga_no_locals).

(** [scanners] is not read. *)
Definition run_phoneinfoga (phone : string) (scanners : option (list string))
    (w : world) : outcome pydict :=
  run (try_except (infoga_try phone w) (infoga_except phone) ;;;
       st <- get ;;
       ret [("phone", VStr phone);
            ("searched_at", VStr (now_iso w));
            ("raw_local", raw_local (rd st));
            ("international", international (rd st));
            ("country", country (rd st));
            ("carrier", carrier (rd st));
            ("line_type", line_type (rd st));
            ("valid", valid (rd st));
            ("possible_owner", possible_owner (rd st));
            ("social_results", VList (map VDict (social_results (rd st))));
            ("dork_results", VList (map VStr (dork_results (rd st))));
            ("errors", VList (map VStr (pi_errors st)));
            ("execution_time", VFloat (elapsed w))])
      infoga_no_locals.

End Phone.

(** The characters of [s] that satisfy [p], in their order. *)
Fixpoint keep_chars (p : ascii -> bool) (s : string) : string :=
  match s with
  | "" => ""
  | String c s' => if p c then String c (keep_chars p s') else keep_chars p s'
  end.

(** The characters phone_search removes: "-", " ", "(" and ")". *)
Definition formatting_char (c : ascii) : bool :=
  Ascii.eqb c "-" || Ascii.eqb c " " || Ascii.eqb c "(" || Ascii.eqb c ")".

Definition digits_of (phone : string) : string :=
  keep_chars (fun c => negb (formatting_char c)) phone.

(* ====================================================================== *)
(** * main.py: temporary image hosting *)
(* ====================================================================== *)

Module Images.

(** One value of the dict [temp_images]; [uploaded_at] is a datetime, in
    microseconds. *)
Record stored_image : Type := {
  data : string;
  uploaded_at : Z
}.

(** [(a - b).seconds] for two datetimes: the seconds of the difference
    without its days and microseconds. *)
Definition delta_seconds (a b : Z) : Z := (((a - b) / 1000000) mod 86400)%Z.

(** [del d[k]] for a key of [d]. *)
Definition dict_del {V : Type} (k : string) (d : dict V) : dict V :=
  filter (fun kv => negb (String.eqb k (fst kv))) d.

(** The list [expired]. *)
Definition expired (temp_images : dict stored_image) (current_time : Z)
  : list string :=
  map fst (filter (fun kv => (600 <? delta_seconds current_time
                                       (uploaded_at (snd kv)))%Z)
                  temp_images).

Record upload_result : Type := {
  image_id : string;
  url : string;
  expires_in : Z;
  search_urls : dict string
}.

(** upload_temp_image on the store [temp_images]; [uuid4] is
    [str(uuid.uuid4())] and [render_external_url] the environment variable
    RENDER_EXTERNAL_URL, when set.  The result is the store afterwards and
    the dict returned. *)
Definition upload_temp_image (temp_images : dict stored_image)
    (image_base64 : string) (current_time : Z) (uuid4 : string)
    (render_external_url : option string)
  : dict stored_image * upload_result :=
  let temp_images :=
    fold_left (fun d k => dict_del k d) (expired temp_images current_time)
              temp_images in
  let image_id := Phone.up_to 8 uuid4 in
  let temp_images :=
    dict_set image_id {| data := image_base64; uploaded_at := current_time |}
             temp_images in
  let base_url :=
    match render_external_url with
    | Some u => u
    | None => "https://elite-recovery-osint.onrender.com"
    end in
  let image_url := base_url ++ "/api/image/" ++ image_id in
  (temp_images,
   {| image_id := image_id;
      url := image_url;
      expires_in := 600;
      search_urls :=
        [("google_lens", "https://lens.google.com/uploadbyurl?url=" ++ image_url);
         ("yandex", "https://yandex.com/images/search?rpt=imageview&url=" ++ image_url);
         ("bing",
          "https://www.bing.com/images/search?view=detailv2&iss=sbi&form=SBIVSP&sbisrc=UrlPaste&q=imgurl:"
          ++ image_url);
         ("tineye", "https://tineye.com/search?url=" ++ image_url)] |}).

(** What get_temp_image does: it raises an HTTPException or returns a
    Response. *)
Inductive http_result : Type :=
| HTTPException (status_code : Z) (detail : string)
| Response (content : string) (media_type : string).

(** The bytes [\x89PNG\r\n\x1a\n]. *)
Definition png_magic : string :=
  String (ascii_of_nat 137) ("PNG" ++ String (ascii_of_nat 13)
    (String (ascii_of_nat 10) (String (ascii_of_nat 26)
      (String (ascii_of_nat 10) "")))).

(** The content type read off the first bytes. *)
Definition content_type (image_bytes : string) : string :=
  if String.eqb (Phone.up_to 8 image_bytes) png_magic then "image/png"
  else if String.eqb (Phone.up_to 4 image_bytes) "GIF8" then "image/gif"
  else if String.eqb (Phone.up_to 4 image_bytes) "RIFF"
          && String.eqb (Phone.up_to 4 (Phone.from_index 8 image_bytes)) "WEBP"
  then "image/webp"
  else "image/jpeg".

(** The stored text without the prefix of a data URL. *)
Definition payload (image_data : string) : string :=
  if PyStr.contains "base64," image_data
  then nth 1 (PyStr.split "base64," image_data) ""
  else image_data.

(** get_temp_image; [b64decode s] is [None] when base64.b64decode raises. *)
Definition get_temp_image (b64decode : string -> option string)
    (temp_images : dict stored_image) (image_id : string) : http_result :=
  match dict_get image_id temp_images with
  | None => HTTPException 404 "Image not found or expired"
  | Some img =>
      match b64decode (payload (data img)) with
      | None => HTTPException 400 "Invalid image data"
      | Some image_bytes => Response image_bytes (content_type image_bytes)
      end
  end.

End Images.

(** A store with one image, uploaded at time 0. *)
Definition day_old_store : dict Images.stored_image :=
  [("0a1b2c3d", {| Images.data := "aGVsbG8="; Images.uploaded_at := 0 |})].

(* ====================================================================== *)
(** * main.py: theHarvester and h8mail *)
(* ====================================================================== *)

Module Harvester.

(** The values of [current_section]. *)
Inductive section : Type := Emails | Hosts | Ips | Urls | People.

(** The locals [emails], [hosts], [ips], [urls], [people], [errors] and
    [current_section]. *)
Record locals : Type := {
  emails : list string;
  hosts : list string;
  ips : list string;
  urls : list string;
  people : list string;
  errors : list string;
  current_section : option section
}.

Definition no_locals : locals :=
  {| emails := []; hosts := []; ips := []; urls := []; people := [];
     errors := []; current_section := None |}.

Definition set_section (sec : option section) (st : locals) : locals :=
  {| emails := emails st; hosts := hosts st; ips := ips st; urls := urls st;
     people := people st; errors := errors st; current_section := sec |}.

(** [<list>.append(line)] for the list of the section [sec]. *)
Definition append_to (sec : section) (line : string) (st : locals) : locals :=
  match sec with
  | Emails =>
      {| emails := emails st ++ [line]; hosts := hosts st; ips := ips st;
         urls := urls st; people := people st; errors := errors st;
         current_section := current_section st |}
  | Hosts =>
      {| emails := emails st; hosts := hosts st ++ [line]; ips := ips st;
         urls := urls st; people := people st; errors := errors st;
         current_section := current_section st |}
  | Ips =>
      {| emails := emails st; hosts := hosts st; ips := ips st ++ [line];
         urls := urls st; people := people st; errors := errors st;
         current_section := current_section st |}
  | Urls =>
      {| emails := emails st; hosts := hosts st; ips := ips st;
         urls := urls st ++ [line]; people := people st; errors := errors st;
         current_section := current_section st |}
  | People =>
      {| emails := emails st; hosts := hosts st; ips := ips st;
         urls := urls st; people := people st ++ [line]; errors := errors st;
         current_section := current_section st |}
  end.

Definition add_error (msg : string) (st : locals) : locals :=
  {| emails := emails st; hosts := hosts st; ips := ips st; urls := urls st;
     people := people st; errors := errors st ++ [msg];
     current_section := current_section st |}.

(** The body of [for line in proc_result.stdout.split('\n')]. *)
Definition harvest_line (line0 : string) : M locals unit :=
  let line := PyStr.strip line0 in
  if PyStr.is_empty line then ret tt
  else if PyStr.contains "Emails found" line || PyStr.contains "[*] Emails" line
  then modify (set_section (Some Emails))
  else if PyStr.contains "Hosts found" line || PyStr.contains "[*] Hosts" line
  then modify (set_section (Some Hosts))
  else if PyStr.contains "IPs found" line || PyStr.contains "[*] IPs" line
  then modify (set_section (Some Ips))
  else if PyStr.contains "URLs found" line
  then modify (set_section (Some Urls))
  else if PyStr.contains "People found" line || PyStr.contains "[*] LinkedIn" line
  then modify (set_section (Some People))
  else if PyStr.startswith "[*]" line || PyStr.startswith "[-]" line
  then modify (set_section None)
  else
    st <- get ;;
    match current_section st with
    | Some sec =>
        if negb (PyStr.startswith "-" line) then
          match sec with
          | Emails => when (PyStr.contains "@" line) (modify (append_to Emails line))
          | Hosts => modify (append_to Hosts line)
          | Ips => modify (append_to Ips line)
          | Urls => when (PyStr.contains "http" line) (modify (append_to Urls line))
          | People => when (negb (PyStr.is_empty line)) (modify (append_to People line))
          end
        else ret tt
    | None => ret tt
    end.

(** The body of [for source in sources]; [p] is what subprocess.run did
    for the source. *)
Definition harvest_source (p : proc_outcome) : M locals unit :=
  match p with
  | ProcRaises e => raise e
  | Completed stdout =>
      when (negb (PyStr.is_empty stdout))
        (modify (set_section None) ;;;
         for_each (PyStr.split PyStr.nl stdout) harvest_line)
  end.

Definition harvest_except (e : exn) : M locals unit :=
  match e with
  | TimeoutExpired _ => modify (add_error "theHarvester search timed out")
  | FileNotFoundError _ =>
      modify (add_error "theHarvester not installed. Run: pip install theHarvester")
  | OtherException msg => modify (add_error ("theHarvester error: " ++ msg))
  end.

(** [sources] after [if not sources: sources = [...]]. *)
Definition sources_or_default (sources : option (list string)) : list string :=
  match sources with
  | Some (s :: ss) => s :: ss
  | _ => ["google"; "bing"; "linkedin"]
  end.

(** The locals when the lists are deduplicated; [run i source] is what
    the [i]-th call of subprocess.run did. *)
Definition locals_before_dedup (sources : option (list string))
    (run : nat -> string -> proc_outcome) : locals :=
  let sources := sources_or_default sources in
  snd (try_except
         (for_each (combine (seq 0 (List.length sources)) sources)
                   (fun ix => harvest_source (run (fst ix) (snd ix))))
         harvest_except no_locals).

Record HarvesterResult : Type := {
  hr_domain : string;
  hr_searched_at : string;
  emails_found : list string;
  hosts_found : list string;
  ips_found : list string;
  urls_found : list string;
  people_found : list string;
  total_results : nat;
  hr_errors : list string;
  hr_execution_time : Z
}.

Section SetOrder.

(** [list(set(l))]: the elements of [l], each once, in the order in which
    the set gives them. *)
Variable list_of_set : list string -> list string.

(** [limit] only enters the command line. *)
Definition run_theharvester (domain : string) (sources : option (list string))
    (limit : Z) (run : nat -> string -> proc_outcome)
    (now : string) (execution_time : Z) : HarvesterResult :=
  let st := locals_before_dedup sources run in
  let emails := list_of_set (emails st) in
  let hosts := list_of_set (hosts st) in
  let ips := list_of_set (ips st) in
  let urls := list_of_set (urls st) in
  let people := list_of_set (people st) in
  {| hr_domain := domain;
     hr_searched_at := now;
     emails_found := emails;
     hosts_found := hosts;
     ips_found := ips;
     urls_found := urls;
     people_found := people;
     total_results := List.length emails + List.length hosts + List.length people;
     hr_errors := errors st;
     hr_execution_time := execution_time |}.

End SetOrder.

End Harvester.

(** [list_of_set] gives the elements of its argument, each once. *)
Definition set_order (list_of_set : list string -> list string) : Prop :=
  forall l, NoDup (list_of_set l) /\ forall x, In x (list_of_set l) <-> In x l.

(** A result line of theHarvester: not empty and not starting with "-". *)
Definition result_line (line : string) : Prop :=
  line <> "" /\ PyStr.startswith "-" line = false.

(** The five lists hold result lines only; the emails hold an "@" and the
    URLs hold "http". *)
Definition harvest_ok (st : Harvester.locals) : Prop :=
  Forall (fun e => result_line e /\ PyStr.contains "@" e = true) (Harvester.emails st)
  /\ Forall result_line (Harvester.hosts st)
  /\ Forall result_line (Harvester.ips st)
  /\ Forall (fun u => result_line u /\ PyStr.contains "http" u = true)
            (Harvester.urls st)
  /\ Forall result_line (Harvester.people st).

(** One run of theHarvester that prints a section of emails. *)
Definition harvester_prints (i : nat) (source : string) : proc_outcome :=
  Completed ("[*] Emails found: 2" ++ PyStr.nl ++ "------" ++ PyStr.nl
             ++ "alice@example.com" ++ PyStr.nl ++ "alice@example.com" ++ PyStr.nl
             ++ "no address here" ++ PyStr.nl).

Module H8mail.

(** The locals [breaches], [leaked_passwords], [related_emails] and
    [errors]. *)
Record locals : Type := {
  breaches : list pydict;
  leaked_passwords : list string;
  related_emails : list pyval;
  errors : list string
}.

Definition no_locals : locals :=
  {| breaches := []; leaked_passwords := []; related_emails := []; errors := [] |}.

Definition add_breach (d : pydict) (st : locals) : locals :=
  {| breaches := breaches st ++ [d]; leaked_passwords := leaked_passwords st;
     related_emails := related_emails st; errors := errors st |}.

Definition add_leaked (p : string) (st : locals) : locals :=
  {| breaches := breaches st; leaked_passwords := leaked_passwords st ++ [p];
     related_emails := related_emails st; errors := errors st |}.

Definition add_related (v : pyval) (st : locals) : locals :=
  {| breaches := breaches st; leaked_passwords := leaked_passwords st;
     related_emails := related_emails st ++ [v]; errors := errors st |}.

Definition add_error (msg : string) (st : locals) : locals :=
  {| breaches := breaches st; leaked_passwords := leaked_passwords st;
     related_emails := related_emails st; errors := errors st ++ [msg] |}.

Section Messages.

(** [str(e)] of the TypeError that [':' in v] raises for a value [v]
    that is no container. *)
Variable not_a_container : pyval -> string.

(** The check for a leaked password, on [data_str = breach.get('data', '')]. *)
Definition check_password (data_str : pyval) : M locals unit :=
  match data_str with
  | VStr s =>
      when (PyStr.contains ":" s
            && PyStr.contains "@" (nth 0 (PyStr.split ":" s) ""))
        (let possible_password := List.last (PyStr.split ":" s) "" in
         when (negb (PyStr.is_empty possible_password)
               && (3 <? String.length possible_password)%nat)
           (modify (add_leaked (Phone.up_to 3 possible_password ++ "***"))))
  | VList l =>
      if existsb (fun x => eq_str x ":") l
      then raise (attribute_error data_str "split") else ret tt
  | VDict d =>
      if dict_mem ":" d
      then raise (attribute_error data_str "split") else ret tt
  | _ => raise (OtherException (not_a_container data_str))
  end.

(** The body of [for breach in target.get('data', [])]. *)
Definition h8_breach (breach : pyval) : M locals unit :=
  match breach with
  | VDict b =>
      modify (add_breach [("source", dict_get_or "source" (VStr "Unknown") b);
                          ("breach_name", dict_get_or "breach" (VStr "") b);
                          ("data", dict_get_or "data" (VStr "") b);
                          ("date", dict_get_or "date" (VStr "") b)]) ;;;
      check_password (dict_get_or "data" (VStr "") b)
  | _ => raise (attribute_error breach "get")
  end.

(** The body of [for target in data.get('targets', [])]. *)
Definition h8_target (email : string) (target : pyval) : M locals unit :=
  match target with
  | VDict t =>
      let target_email := dict_get_or "target" (VStr "") t in
      when (negb (eq_str target_email email)) (modify (add_related target_email)) ;;;
      (items <- Phone.iterate (dict_get_or "data" (VList []) t) ;;
       for_each items h8_breach)
  | _ => raise (attribute_error target "get")
  end.

Definition h8_json (email : string) (data : pyval) : M locals unit :=
  match data with
  | VDict d =>
      items <- Phone.iterate (dict_get_or "targets" (VList []) d) ;;
      for_each items (h8_target email)
  | _ => raise (attribute_error data "get")
  end.

(** The body of [for line in proc_result.stdout.split('\n')]. *)
Definition h8_line (line : string) : M locals unit :=
  when (PyStr.contains "[+]" line && PyStr.contains "breach" (PyStr.lower line))
    (modify (add_breach [("source", VStr "h8mail_stdout");
                         ("data", VStr (PyStr.strip (PyStr.replace "[+]" "" line)))])).

Definition h8_try (email : string) (w : world) : M locals unit :=
  match proc w with
  | ProcRaises e => raise e
  | Completed stdout =>
      read_output (output_file w) (h8_json email) ;;;
      when (negb (PyStr.is_empty stdout))
        (for_each (PyStr.split PyStr.nl stdout) h8_line)
  end.

Definition h8_except (e : exn) : M locals unit :=
  match e with
  | TimeoutExpired _ => modify (add_error "h8mail search timed out")
  | FileNotFoundError _ =>
      modify (add_error "h8mail not installed. Run: pip install h8mail")
  | OtherException msg => modify (add_error ("h8mail error: " ++ msg))
  end.

(** The locals of run_h8mail when its return statement is reached;
    [chase] only enters the command line. *)
Definition locals_at_return (email : string) (chase : bool) (w : world) : locals :=
  snd (try_except (h8_try email w) h8_except no_locals).

End Messages.

End H8mail.

(** A password as run_h8mail records it: three characters and "***". *)
Definition masked (p : string) : Prop :=
  exists shown, p = shown ++ "***" /\ String.length shown = 3.

(* ====================================================================== *)
(** * main.py: full_osint_sweep *)
(* ====================================================================== *)

Module Sweep.

Record FullSweepRequest : Type := {
  name : string;
  email : option string;
  phone : option string;
  username : option string;
  state : option string
}.

(** [username] after [if not username and request.name: ...]. *)
Definition sweep_username (request : FullSweepRequest) : option string :=
  match given (username request) with
  | Some u => Some u
  | None =>
      if negb (PyStr.is_empty (name request))
      then Some (PyStr.replace " " "" (PyStr.lower (name request)))
      else username request
  end.

(** [len(v)] *)
Definition len_of (v : pyval) : outcome nat :=
  match v with
  | VList l => Done (List.length l)
  | VStr s => Done (String.length s)
  | VDict d => Done (List.length d)
  | _ => Raised (OtherException ("object of type '" ++ type_name v ++ "' has no len()"))
  end.

Definition and_then {A B : Type} (o : outcome A) (k : A -> outcome B) : outcome B :=
  match o with
  | Done a => k a
  | Raised e => Raised e
  end.

(** [len(result.get(key, []))] for the result of a search that ran, 0
    for a search that did not. *)
Definition count_of (key : string) (result : option pydict) : outcome nat :=
  match result with
  | Some d => if truthy (VDict d) then len_of (dict_get_or key (VList []) d) else Done 0
  | None => Done 0
  end.

Record target : Type := {
  t_name : string;
  t_email : option string;
  t_phone : option string;
  t_username : option string;
  t_state : option string
}.

Record FullSweepResult : Type := {
  sw_target : target;
  sw_searched_at : string;
  username_results : option pydict;
  email_results : option pydict;
  phone_results : option Phone.PhoneSearchResult;
  summary : string;
  total_profiles_found : nat;
  sw_execution_time : Z
}.

(** What the awaits of the two executor calls did, and what the phone task
    reads of the clock.  When both searches raise, asyncio.gather raises
    the exception of the task that ended first. *)
Record awaits : Type := {
  sherlock_await : string -> outcome pydict;
  holehe_await : string -> outcome pydict;
  email_task_first : bool;
  phone_now : string;
  phone_elapsed : Z
}.

(** The tasks that are started, with what their awaits did. *)
Definition search_username (request : FullSweepRequest) (aw : awaits)
  : option (outcome pydict) :=
  match given (sweep_username request) with
  | Some u => Some (sherlock_await aw u)
  | None => None
  end.

Definition search_email (request : FullSweepRequest) (aw : awaits)
  : option (outcome pydict) :=
  match given (email request) with
  | Some e => Some (holehe_await aw e)
  | None => None
  end.

Definition search_phone (request : FullSweepRequest) (aw : awaits)
  : option Phone.PhoneSearchResult :=
  match given (phone request) with
  | Some p => Some (Phone.phone_search p (phone_now aw) (phone_elapsed aw))
  | None => None
  end.

(** The entries 'username_results' and 'email_results' of [results] after
    awaiting asyncio.gather on the tasks, or the exception it raised. *)
Definition gather (username_task email_task : option (outcome pydict))
    (email_task_first : bool) : outcome (option pydict * option pydict) :=
  match username_task, email_task with
  | Some (Raised e1), Some (Raised e2) =>
      Raised (if email_task_first then e2 else e1)
  | Some (Raised e), _ => Raised e
  | _, Some (Raised e) => Raised e
  | Some (Done a), Some (Done b) => Done (Some a, Some b)
  | Some (Done a), None => Done (Some a, None)
  | None, Some (Done b) => Done (None, Some b)
  | None, None => Done (None, None)
  end.

Definition summary_parts (username : option string) (found registered : nat)
    (username_results email_results : option pydict)
    (phone_results : option Phone.PhoneSearchResult) : list string :=
  List.app
    (match username_results with
     | Some d =>
         if truthy (VDict d)
         then ["Found " ++ str_nat found ++ " social profiles for @"
               ++ match username with Some u => u | None => "None" end]
         else []
     | None => []
     end)
    (List.app
       (match email_results with
        | Some d =>
            if truthy (VDict d)
            then ["Email registered on " ++ str_nat registered ++ " services"]
            else []
        | None => []
        end)
       (match phone_results with
        | Some r =>
            match Phone.ps_location r with
            | Some loc => ["Phone from " ++ Phone.city loc ++ ", " ++ Phone.state loc]
            | None => []
            end
        | None => []
        end)).

Definition full_osint_sweep (request : FullSweepRequest) (aw : awaits)
    (now : string) (execution_time : Z) : outcome FullSweepResult :=
  let username := sweep_username request in
  and_then (gather (search_username request aw) (search_email request aw)
                   (email_task_first aw)) (fun results =>
  let username_results := fst results in
  let email_results := snd results in
  let phone_results := search_phone request aw in
  and_then (count_of "found" username_results) (fun found =>
  and_then (count_of "registered_on" email_results) (fun registered =>
  let parts := summary_parts username found registered
                 username_results email_results phone_results in
  Done {| sw_target := {| t_name := name request; t_email := email request;
                          t_phone := phone request; t_username := username;
                          t_state := state request |};
          sw_searched_at := now;
          username_results := username_results;
          email_results := email_results;
          phone_results := phone_results;
          summary := match parts with
                     | [] => "No results found"
                     | _ => PyStr.join " | " parts
                     end;
          total_profiles_found := found + registered;
          sw_execution_time := execution_time |}))).

(** The awaits when the executor runs the two adapters in the worlds
    [sherlock_world] and [holehe_world]. *)
Definition executor_runs (py_repr : pyval -> string)
    (sherlock_world holehe_world : world) (now : string) (elapsed : Z)
    (email_first : bool) : awaits :=
  {| sherlock_await := fun u => Backend.run_sherlock py_repr u 60 sherlock_world;
     holehe_await := fun e => Backend.run_holehe e 60 holehe_world;
     email_task_first := email_first;
     phone_now := now;
     phone_elapsed := elapsed |}.

End Sweep.

(** A line of holehe's output that run_holehe reads: it holds, between
    its surrounding whitespace, one of the marks "[+]", "[-]" and "[x]". *)
Definition holehe_marked (line0 : string) : bool :=
  let line := PyStr.strip line0 in
  negb (PyStr.is_empty line)
  && (PyStr.contains "[+]" line || PyStr.contains "[-]" line
      || PyStr.contains "[x]" line).

(** An entry of 'results' as run_sherlock of api/osint.py builds it: the
    URL starts with "http://" or "https://" and holds no whitespace. *)
Definition api_site_entry (f : pydict) : Prop :=
  exists site u,
    f = [("site", VStr site); ("url", VStr u); ("status", VStr "found")]
    /\ (prefix "http://" u = true \/ prefix "https://" u = true)
    /\ all_chars (fun c => negb (PyStr.isspace c)) u = true.

(** A request for two usernames at most, and searches that all raise. *)
Definition two_usernames_request : MultiUsernameRequest :=
  {| mu_name := "Amanda Driskell"; mu_usernames := None;
     mu_max_usernames := 2; mu_timeout := 30 |}.

Definition search_raises : nat -> string -> outcome username_result :=
  fun _ _ => Raised (OtherException "executor is shut down").

(* ====================================================================== *)
(** * Properties of the username variation generator *)
(* ====================================================================== *)

Lemma key_in_In (k : string) (d : list string) :
  key_in k d = true <-> In k d.
Proof.
  unfold key_in. rewrite existsb_exists. split.
  - intros [x [Hx He]]. apply String.eqb_eq in He. now subst.
  - intros H. exists k. split; [assumption | apply String.eqb_refl].
Qed.

Lemma dict_fromkeys_snoc (l : list string) (x : string) :
  dict_fromkeys (l ++ [x])%list
  = if key_in x (dict_fromkeys l) then dict_fromkeys l
    else (dict_fromkeys l ++ [x])%list.
Proof. unfold dict_fromkeys. now rewrite fold_left_app. Qed.

Lemma dict_fromkeys_In (l : list string) (x : string) :
  In x (dict_fromkeys l) <-> In x l.
Proof.
  induction l as [|y l IH] using rev_ind.
  - reflexivity.
  - rewrite dict_fromkeys_snoc.
    destruct (key_in y (dict_fromkeys l)) eqn:E.
    + apply key_in_In in E. rewrite in_app_iff, IH. simpl.
      split; [tauto|]. intros [H|[H|[]]]; [assumption|].
      subst. now apply IH.
    + rewrite !in_app_iff, IH. reflexivity.
Qed.

Lemma dict_fromkeys_NoDup (l : list string) : NoDup (dict_fromkeys l).
Proof.
  induction l as [|y l IH] using rev_ind.
  - constructor.
  - rewrite dict_fromkeys_snoc.
    destruct (key_in y (dict_fromkeys l)) eqn:E; [assumption|].
    apply NoDup_app; [assumption | repeat constructor; simpl; tauto|].
    intros a Ha [Hb|[]]. subst a.
    apply key_in_In in Ha. congruence.
Qed.

Lemma in_split_first (x : string) (l : list string) :
  In x l -> exists a b, l = (a ++ x :: b)%list /\ ~ In x a.
Proof.
  induction l as [|y l IH]; [intros []|].
  intros H. destruct (string_dec y x) as [->|Hne].
  - exists [], l. split; [reflexivity | intros []].
  - destruct H as [H|H]; [contradiction|].
    destruct (IH H) as (a & b & -> & Ha).
    exists (y :: a), b. split; [reflexivity|].
    intros [E|E]; [contradiction | now apply Ha].
Qed.

Lemma dict_fromkeys_order (l : list string) :
  first_occurrence_order l (dict_fromkeys l).
Proof.
  induction l as [|z l IH] using rev_ind; intros r1 x r2 y r3 Hr.
  - destruct r1; discriminate.
  - rewrite dict_fromkeys_snoc in Hr.
    destruct (key_in z (dict_fromkeys l)) eqn:E.
    + destruct (IH _ _ _ _ _ Hr) as (a & b & c & -> & Hx & Hy).
      exists a, b, (c ++ [z])%list. repeat split; try assumption.
      now rewrite <- !app_assoc; simpl; rewrite <- !app_assoc.
    + assert (Hz : ~ In z l).
      { intros Hin. apply dict_fromkeys_In in Hin. apply key_in_In in Hin.
        congruence. }
      destruct r3 as [|w r3] using rev_ind.
      * clear IH.
        replace (r1 ++ x :: r2 ++ [y])%list with ((r1 ++ x :: r2) ++ [y])%list in Hr
          by (rewrite <- app_assoc; reflexivity).
        apply app_inj_tail in Hr. destruct Hr as [Hr ->].
        assert (Hin : In x l).
        { apply dict_fromkeys_In. rewrite Hr. apply in_elt. }
        destruct (in_split_first x l Hin) as (a & b & -> & Ha).
        exists a, b, []. repeat split; try assumption.
        now rewrite <- app_assoc.
      * clear IHr3.
        replace (r1 ++ x :: r2 ++ y :: r3 ++ [w])%list
          with ((r1 ++ x :: r2 ++ y :: r3) ++ [w])%list in Hr
          by (rewrite <- !app_assoc; simpl; rewrite <- !app_assoc; reflexivity).
        apply app_inj_tail in Hr. destruct Hr as [Hr ->].
        destruct (IH _ _ _ _ _ Hr) as (a & b & c & -> & Hx & Hy).
        exists a, b, (c ++ [w])%list. repeat split; try assumption.
        now rewrite <- !app_assoc; simpl; rewrite <- !app_assoc.
Qed.

Lemma generate_username_variations_NoDup (full_name : string) :
  NoDup (Backend.generate_username_variations full_name).
Proof.
  unfold Backend.generate_username_variations.
  destruct (_ <? 2)%nat.
  - repeat constructor. intros [].
  - apply dict_fromkeys_NoDup.
Qed.

(** A name of fewer than two parts comes back alone, lower-cased and with
    its spaces removed, whatever its length. *)
Lemma generate_username_variations_single (full_name : string) :
  List.length (Backend.name_parts full_name) < 2 ->
  Backend.generate_username_variations full_name
  = [PyStr.replace " " "" (PyStr.lower full_name)].
Proof.
  intros H. unfold Backend.generate_username_variations.
  apply Nat.ltb_lt in H. now rewrite H.
Qed.

(** C6: generate_username_variations("Amanda Driskell") is a fixed list (the
    function reads nothing but its argument); the list holds the five
    candidates amandadriskell, amanda.driskell, amanda_driskell, adriskell
    and driskellamanda, has no duplicates and no entry shorter than 3
    characters. *)
Theorem amanda_driskell_variations :
  let r := Backend.generate_username_variations "Amanda Driskell" in
  r = ["amandadriskell"; "amanda_driskell"; "amanda.driskell"; "amanda-driskell";
       "driskellamanda"; "adriskell"; "amandad"; "amanda_d"; "driskell_amanda";
       "amandadriskell1"; "amandadriskell123"; "realamandadriskell";
       "theamandadriskell"; "amandaofficial"]
  /\ In "amandadriskell" r
  /\ In "amanda.driskell" r
  /\ In "amanda_driskell" r
  /\ In "adriskell" r
  /\ In "driskellamanda" r
  /\ NoDup r
  /\ Forall (fun v => 3 <= String.length v) r.
Proof.
  intros r.
  assert (E : r = ["amandadriskell"; "amanda_driskell"; "amanda.driskell";
                   "amanda-driskell"; "driskellamanda"; "adriskell"; "amandad";
                   "amanda_d"; "driskell_amanda"; "amandadriskell1";
                   "amandadriskell123"; "realamandadriskell";
                   "theamandadriskell"; "amandaofficial"])
    by (vm_compute; reflexivity).
  assert (N : NoDup r) by apply generate_username_variations_NoDup.
  clearbody r. subst r.
  split; [reflexivity|].
  do 5 (split; [simpl; repeat (first [left; reflexivity | right]) |]).
  split; [exact N|].
  repeat (constructor; [simpl; lia|]). constructor.
Qed.

(** C7, the claim as stated fails: the one-part name "Al" comes back as
    the 2-character candidate "al". *)
Lemma short_single_token_name_kept :
  ~ Forall (fun v => 3 <= String.length v)
      (Backend.generate_username_variations "Al").
Proof.
  assert (E : Backend.generate_username_variations "Al" = ["al"])
    by (vm_compute; reflexivity).
  rewrite E. intros H. apply Forall_inv in H. simpl in H. lia.
Qed.

(** C7 (amended): for every full name of at least two whitespace-separated
    parts, every returned candidate has length at least 3, the returned
    list has no duplicates, it holds exactly the candidates of length at
    least 3, and it keeps them in the order of their first occurrences. *)
Theorem variations_filtered_and_deduplicated (full_name : string) :
  2 <= List.length (Backend.name_parts full_name) ->
  let r := Backend.generate_username_variations full_name in
  Forall (fun v => 3 <= String.length v) r
  /\ NoDup r
  /\ (forall v, In v r <-> In v (Backend.variations full_name) /\ 3 <= String.length v)
  /\ first_occurrence_order
       (filter (fun v => (2 <? String.length v)%nat) (Backend.variations full_name)) r.
Proof.
  intros H r.
  assert (E : r = dict_fromkeys
                    (filter (fun v => (2 <? String.length v)%nat)
                            (Backend.variations full_name))).
  { subst r. unfold Backend.generate_username_variations.
    destruct (Nat.ltb_spec (List.length (Backend.name_parts full_name)) 2);
      [lia | reflexivity]. }
  assert (M : forall v, In v r <->
                        In v (Backend.variations full_name) /\ 3 <= String.length v).
  { intros v. rewrite E, dict_fromkeys_In, filter_In, Nat.ltb_lt. reflexivity. }
  split; [|split; [|split]].
  - apply Forall_forall. intros v Hv. now apply M in Hv.
  - rewrite E. apply dict_fromkeys_NoDup.
  - exact M.
  - rewrite E. apply dict_fromkeys_order.
Qed.

Lemma variations_filtered_and_deduplicated_witness :
  2 <= List.length (Backend.name_parts "Amanda J Driskell")
  /\ Forall (fun v => 3 <= String.length v)
       (Backend.generate_username_variations "Amanda J Driskell").
Proof.
  assert (H : 2 <= List.length (Backend.name_parts "Amanda J Driskell"))
    by (vm_compute; lia).
  split; [exact H|].
  exact (proj1 (variations_filtered_and_deduplicated "Amanda J Driskell" H)).
Defined.

(** C8: generate_username_variations("Cher"), a one-part name, is exactly
    ["cher"]. *)
Theorem cher_single_token :
  Backend.generate_username_variations "Cher" = ["cher"].
Proof. vm_compute. reflexivity. Qed.

(* ====================================================================== *)
(** * Dicts in insertion order *)
(* ====================================================================== *)

Section DictFacts.

Context {V : Type}.
Implicit Types (d : dict V) (k : string) (v : V).

Lemma dict_mem_In k d : dict_mem k d = true <-> In k (dict_keys d).
Proof.
  unfold dict_mem. induction d as [|[k' v'] d IH]; simpl.
  - split; [discriminate | intros []].
  - destruct (String.eqb_spec k k') as [->|Hne].
    + split; auto.
    + rewrite IH. split; [auto | intros [E|H]; [congruence | assumption]].
Qed.

Lemma dict_mem_false k d : dict_mem k d = false <-> ~ In k (dict_keys d).
Proof.
  rewrite <- dict_mem_In. destruct (dict_mem k d); split; congruence.
Qed.

Lemma dict_keys_set k v d :
  dict_keys (dict_set k v d)
  = if dict_mem k d then dict_keys d else (dict_keys d ++ [k])%list.
Proof.
  unfold dict_mem. induction d as [|[k' v'] d IH]; simpl; [reflexivity|].
  destruct (String.eqb_spec k k') as [->|Hne]; simpl; [reflexivity|].
  rewrite IH. now destruct (dict_get k d).
Qed.

Lemma dict_get_set_eq k v d : dict_get k (dict_set k v d) = Some v.
Proof.
  induction d as [|[k' v'] d IH]; simpl.
  - now rewrite String.eqb_refl.
  - destruct (String.eqb_spec k k') as [->|Hne]; simpl.
    + now rewrite String.eqb_refl.
    + destruct (String.eqb_spec k k'); [contradiction | assumption].
Qed.

Lemma dict_get_set_ne k k' v d :
  k <> k' -> dict_get k' (dict_set k v d) = dict_get k' d.
Proof.
  intros Hne. induction d as [|[k0 v0] d IH]; simpl.
  - destruct (String.eqb_spec k' k); [congruence | reflexivity].
  - destruct (String.eqb_spec k k0) as [->|H0]; simpl.
    + destruct (String.eqb_spec k' k0); [congruence | reflexivity].
    + now rewrite IH.
Qed.

Lemma dict_mem_set k k' v d :
  dict_mem k' (dict_set k v d) = String.eqb k k' || dict_mem k' d.
Proof.
  unfold dict_mem. destruct (String.eqb_spec k k') as [->|Hne]; simpl.
  - now rewrite dict_get_set_eq.
  - now rewrite dict_get_set_ne.
Qed.

Lemma dict_set_set k v w d : dict_set k v (dict_set k w d) = dict_set k v d.
Proof.
  induction d as [|[k' v'] d IH]; simpl.
  - now rewrite String.eqb_refl.
  - destruct (String.eqb_spec k k') as [->|Hne]; simpl.
    + now rewrite String.eqb_refl.
    + destruct (String.eqb_spec k k'); [contradiction | now rewrite IH].
Qed.

Lemma dict_set_same k v d : dict_get k d = Some v -> dict_set k v d = d.
Proof.
  induction d as [|[k' v'] d IH]; simpl; [discriminate|].
  destruct (String.eqb_spec k k') as [->|Hne].
  - now intros [= ->].
  - intros H. now rewrite IH.
Qed.

(** Two writes to different keys commute when the first key is already
    there: neither moves. *)
Lemma dict_set_comm k k' v v' d :
  k <> k' -> dict_mem k d = true ->
  dict_set k' v' (dict_set k v d) = dict_set k v (dict_set k' v' d).
Proof.
  intros Hne. unfold dict_mem.
  induction d as [|[k0 v0] d IH]; simpl; [discriminate|].
  destruct (String.eqb_spec k k0) as [->|H0]; simpl.
  - intros _. destruct (String.eqb_spec k' k0) as [->|H1]; [congruence|].
    simpl. now rewrite String.eqb_refl.
  - intros Hm. destruct (String.eqb_spec k' k0) as [->|H1]; simpl.
    + destruct (String.eqb_spec k k0); [contradiction | reflexivity].
    + destruct (String.eqb_spec k k0); [contradiction|]. now rewrite IH.
Qed.

Lemma dict_set_NoDup k v d :
  NoDup (dict_keys d) -> NoDup (dict_keys (dict_set k v d)).
Proof.
  intros H. rewrite dict_keys_set. destruct (dict_mem k d) eqn:E; [assumption|].
  apply dict_mem_false in E.
  apply NoDup_app; [assumption | repeat constructor; intros [] |].
  intros a Ha [<-|[]]. contradiction.
Qed.

Lemma dict_get_In k v d : dict_get k d = Some v -> In (k, v) d.
Proof.
  induction d as [|[k' v'] d IH]; simpl; [discriminate|].
  destruct (String.eqb_spec k k') as [->|Hne].
  - intros [= ->]. now left.
  - intros H. right. now apply IH.
Qed.

Lemma dict_set_Forall (P : string * V -> Prop) k v d :
  P (k, v) -> Forall P d -> Forall P (dict_set k v d).
Proof.
  intros Hk H. induction H as [|[k' v'] d Hx Hd IH]; simpl.
  - now repeat constructor.
  - destruct (String.eqb k k'); constructor; assumption.
Qed.

End DictFacts.

Lemma is_empty_false (s : string) : PyStr.is_empty s = false <-> s <> "".
Proof. destruct s; simpl; split; congruence. Qed.

Lemma is_empty_true (s : string) : PyStr.is_empty s = true <-> s = "".
Proof. destruct s; simpl; split; congruence. Qed.

(* ====================================================================== *)
(** * Dicts keyed by values *)
(* ====================================================================== *)

Lemma pykey_eqb_spec (a b : pykey) : reflect (a = b) (pykey_eqb a b).
Proof.
  destruct a as [|m e|n| |s], b as [|m' e'|n'| |s']; simpl;
    try (constructor; congruence).
  - destruct (Z.eqb_spec m m') as [->|H]; simpl; [|constructor; congruence].
    destruct (Z.eqb_spec e e') as [->|H]; constructor; congruence.
  - destruct (Bool.eqb_spec n n'); constructor; congruence.
  - destruct (String.eqb_spec s s'); constructor; congruence.
Qed.

Lemma pykey_eqb_refl (a : pykey) : pykey_eqb a a = true.
Proof. now destruct (pykey_eqb_spec a a). Qed.

Lemma pykey_dec (a b : pykey) : {a = b} + {a <> b}.
Proof. destruct (pykey_eqb_spec a b); [now left | now right]. Qed.

Section KeyedFacts.

Context {V : Type}.
Implicit Types (d : keyed V) (k : pykey) (v : V).

Lemma keyed_mem_In k d : keyed_mem k d = true <-> In k (keyed_keys d).
Proof.
  unfold keyed_mem. induction d as [|[k' v'] d IH]; simpl.
  - split; [discriminate | intros []].
  - destruct (pykey_eqb_spec k k') as [->|Hne].
    + split; auto.
    + rewrite IH. split; [auto | intros [E|H]; [congruence | assumption]].
Qed.

Lemma keyed_mem_false k d : keyed_mem k d = false <-> ~ In k (keyed_keys d).
Proof.
  rewrite <- keyed_mem_In. destruct (keyed_mem k d); split; congruence.
Qed.

Lemma keyed_keys_set k v d :
  keyed_keys (keyed_set k v d)
  = if keyed_mem k d then keyed_keys d else (keyed_keys d ++ [k])%list.
Proof.
  unfold keyed_mem. induction d as [|[k' v'] d IH]; simpl; [reflexivity|].
  destruct (pykey_eqb_spec k k') as [->|Hne]; simpl; [reflexivity|].
  rewrite IH. now destruct (keyed_get k d).
Qed.

Lemma keyed_get_set_eq k v d : keyed_get k (keyed_set k v d) = Some v.
Proof.
  induction d as [|[k' v'] d IH]; simpl.
  - now rewrite pykey_eqb_refl.
  - destruct (pykey_eqb_spec k k') as [->|Hne]; simpl.
    + now rewrite pykey_eqb_refl.
    + destruct (pykey_eqb_spec k k'); [contradiction | assumption].
Qed.

Lemma keyed_get_set_ne k k' v d :
  k <> k' -> keyed_get k' (keyed_set k v d) = keyed_get k' d.
Proof.
  intros Hne. induction d as [|[k0 v0] d IH]; simpl.
  - destruct (pykey_eqb_spec k' k); [congruence | reflexivity].
  - destruct (pykey_eqb_spec k k0) as [->|H0]; simpl.
    + destruct (pykey_eqb_spec k' k0); [congruence | reflexivity].
    + now rewrite IH.
Qed.

Lemma keyed_mem_set k k' v d :
  keyed_mem k' (keyed_set k v d) = pykey_eqb k k' || keyed_mem k' d.
Proof.
  unfold keyed_mem. destruct (pykey_eqb_spec k k') as [->|Hne]; simpl.
  - now rewrite keyed_get_set_eq.
  - now rewrite keyed_get_set_ne.
Qed.

Lemma keyed_set_set k v w d : keyed_set k v (keyed_set k w d) = keyed_set k v d.
Proof.
  induction d as [|[k' v'] d IH]; simpl.
  - now rewrite pykey_eqb_refl.
  - destruct (pykey_eqb_spec k k') as [->|Hne]; simpl.
    + now rewrite pykey_eqb_refl.
    + destruct (pykey_eqb_spec k k'); [contradiction | now rewrite IH].
Qed.

Lemma keyed_set_same k v d : keyed_get k d = Some v -> keyed_set k v d = d.
Proof.
  induction d as [|[k' v'] d IH]; simpl; [discriminate|].
  destruct (pykey_eqb_spec k k') as [->|Hne].
  - now intros [= ->].
  - intros H. now rewrite IH.
Qed.

(** Two writes to different keys commute when the first key is already
    there: neither moves. *)
Lemma keyed_set_comm k k' v v' d :
  k <> k' -> keyed_mem k d = true ->
  keyed_set k' v' (keyed_set k v d) = keyed_set k v (keyed_set k' v' d).
Proof.
  intros Hne. unfold keyed_mem.
  induction d as [|[k0 v0] d IH]; simpl; [discriminate|].
  destruct (pykey_eqb_spec k k0) as [->|H0]; simpl.
  - intros _. destruct (pykey_eqb_spec k' k0) as [->|H1]; [congruence|].
    simpl. now rewrite pykey_eqb_refl.
  - intros Hm. destruct (pykey_eqb_spec k' k0) as [->|H1]; simpl.
    + destruct (pykey_eqb_spec k k0); [contradiction | reflexivity].
    + destruct (pykey_eqb_spec k k0); [contradiction|]. now rewrite IH.
Qed.

Lemma keyed_set_NoDup k v d :
  NoDup (keyed_keys d) -> NoDup (keyed_keys (keyed_set k v d)).
Proof.
  intros H. rewrite keyed_keys_set. destruct (keyed_mem k d) eqn:E; [assumption|].
  apply keyed_mem_false in E.
  apply NoDup_app; [assumption | repeat constructor; intros [] |].
  intros a Ha [<-|[]]. contradiction.
Qed.

Lemma keyed_get_In k v d : keyed_get k d = Some v -> In (k, v) d.
Proof.
  induction d as [|[k' v'] d IH]; simpl; [discriminate|].
  destruct (pykey_eqb_spec k k') as [->|Hne].
  - intros [= ->]. now left.
  - intros H. right. now apply IH.
Qed.

Lemma keyed_set_Forall (P : pykey * V -> Prop) k v d :
  P (k, v) -> Forall P d -> Forall P (keyed_set k v d).
Proof.
  intros Hk H. induction H as [|[k' v'] d Hx Hd IH]; simpl.
  - now repeat constructor.
  - destruct (pykey_eqb_spec k k') as [<-|Hne]; constructor; assumption.
Qed.

End KeyedFacts.

(** The keys of some values: [True], [1] and [1.0] are one key, as are
    [2**53] and [float(2**53)]; [1.5] is [3 * 2^-1]; the smallest positive
    float is [2^-1074]; [-2.5] is [-5 * 2^-1]; a string is never the key of
    a number. *)
Example hash_key_numbers :
  hash_key (VBool true) = hash_key (VInt 1)
  /\ hash_key (VInt 1) = hash_key (VFloat 4607182418800017408)
  /\ hash_key (VFloat 4609434218613702656) = Some (KNum 3 (-1))
  /\ hash_key (VInt (2 ^ 53)) = hash_key (VFloat 4845873199050653696)
  /\ hash_key (VInt (2 ^ 53 + 1)) <> hash_key (VFloat 4845873199050653696)
  /\ hash_key (VFloat 1) = Some (KNum 1 (-1074))
  /\ hash_key (VFloat 13836183955189006336) = Some (KNum (-5) (-1))
  /\ hash_key (VFloat 9218868437227405312) = Some (KInf false)
  /\ hash_key (VStr "1") <> hash_key (VInt 1).
Proof. vm_compute. repeat split; discriminate. Qed.

(** A number is never the key of a string. *)
Lemma num_key_not_str (m e : Z) (u : string) : num_key m e <> KStr u.
Proof.
  destruct m as [|p|p]; simpl; [discriminate| |];
    destruct (odd_part p); discriminate.
Qed.

Lemma float_key_not_str (bits : Z) (u : string) : float_key bits <> KStr u.
Proof.
  unfold float_key.
  generalize (Z.testbit bits 63) ((bits / 2 ^ 52) mod 2 ^ 11)%Z (bits mod 2 ^ 52)%Z.
  intros n e m.
  destruct (Z.eqb e 2047); [destruct (Z.eqb m 0); discriminate|].
  apply num_key_not_str.
Qed.

Lemma hash_key_str (v : pyval) (u : string) :
  hash_key v = Some (KStr u) <-> v = VStr u.
Proof.
  split; [|now intros ->].
  destruct v as [|b|n|bits|s|l|d]; cbn [hash_key]; try discriminate.
  - intros [= H]. now apply num_key_not_str in H.
  - intros [= H]. now apply float_key_not_str in H.
  - now intros [= ->].
Qed.

(** The key of a finding is that of a string exactly when its URL is
    this string, and the string is not empty. *)
Lemma url_key_str (item : finding) (u : string) :
  url_key item = Some (KStr u) <-> get_url item = VStr u /\ u <> "".
Proof.
  unfold url_key. split.
  - destruct (truthy (get_url item)) eqn:T; [|discriminate].
    intros H. apply hash_key_str in H. rewrite H in T. split; [assumption|].
    simpl in T. now destruct u.
  - intros [-> Hu]. simpl. now destruct u.
Qed.

Lemma url_key_readable (item : finding) (k : pykey) :
  url_key item = Some k -> unhashable_url item = false.
Proof.
  unfold url_key, unhashable_url.
  destruct (truthy (get_url item)); [|discriminate].
  now intros ->.
Qed.

(* ====================================================================== *)
(** * Loops that store findings under their URL *)
(* ====================================================================== *)

Lemma find_app {A : Type} (f : A -> bool) (l l' : list A) :
  find f (l ++ l')
  = match find f l with Some x => Some x | None => find f l' end.
Proof.
  induction l as [|x l IH]; simpl; [reflexivity|].
  now destruct (f x).
Qed.

Lemma readable_clean (l : list finding) :
  find unhashable_url l = None -> readable l = l.
Proof.
  induction l as [|x l IH]; simpl; [reflexivity|].
  destruct (unhashable_url x); [discriminate|].
  intros H. now rewrite IH.
Qed.

Lemma readable_app (l l' : list finding) :
  readable (l ++ l')
  = match find unhashable_url l with
    | Some _ => readable l
    | None => (l ++ readable l')%list
    end.
Proof.
  induction l as [|x l IH]; simpl; [reflexivity|].
  destruct (unhashable_url x); [reflexivity|].
  rewrite IH. now destruct (find unhashable_url l).
Qed.

Lemma readable_In (l : list finding) (x : finding) :
  In x (readable l) -> In x l /\ unhashable_url x = false.
Proof.
  induction l as [|y l IH]; simpl; [intros []|].
  destruct (unhashable_url y) eqn:E; [intros []|].
  intros [<-|H]; [auto|]. destruct (IH H). auto.
Qed.

Section GuardedLoops.

Context {St : Type}.
Variable unhashable : pyval -> string.

(** The body of a loop over findings: it raises at a finding whose URL
    cannot be hashed, and otherwise does [put]. *)
Variable body : finding -> M St unit.
Variable put : St -> finding -> St.
Hypothesis body_spec : forall x s,
  body x s = if unhashable_url x then (Raised (type_error unhashable x), s)
             else (Done tt, put s x).

Lemma for_each_readable (l : list finding) (s : St) :
  for_each l body s
  = (match find unhashable_url l with
     | Some x => Raised (type_error unhashable x)
     | None => Done tt
     end,
     fold_left put (readable l) s).
Proof.
  revert s. induction l as [|x l IH]; intros s; simpl; [reflexivity|].
  unfold bind. rewrite body_spec.
  destruct (unhashable_url x); [reflexivity|]. apply IH.
Qed.

End GuardedLoops.

Lemma insert_sherlock_spec (unhashable : pyval -> string) (item : finding)
    (d : keyed finding) :
  insert_sherlock unhashable item d
  = if unhashable_url item then (Raised (type_error unhashable item), d)
    else (Done tt, put_sherlock d item).
Proof.
  unfold insert_sherlock, unhashable_url, put_sherlock, url_key, type_error,
    hashed, when.
  destruct (truthy (get_url item)); simpl; [|reflexivity].
  destruct (hash_key (get_url item)); reflexivity.
Qed.

Lemma insert_maigret_spec (unhashable : pyval -> string) (item : finding)
    (d : keyed finding) :
  insert_maigret unhashable item d
  = if unhashable_url item then (Raised (type_error unhashable item), d)
    else (Done tt, put_maigret d item).
Proof.
  unfold insert_maigret, unhashable_url, put_maigret, url_key, type_error,
    hashed, when.
  destruct (truthy (get_url item)); simpl; [|reflexivity].
  destruct (hash_key (get_url item)) as [k|]; [|reflexivity].
  unfold bind, get, modify, ret. simpl.
  now destruct (keyed_mem k d).
Qed.

Lemma insert_found_spec (unhashable : pyval -> string) (username : string)
    (item : finding) (d : keyed finding) :
  insert_found unhashable username item d
  = if unhashable_url item then (Raised (type_error unhashable item), d)
    else (Done tt, put_found username d item).
Proof.
  unfold insert_found, unhashable_url, put_found, url_key, type_error,
    hashed, when.
  destruct (truthy (get_url item)); simpl; [|reflexivity].
  destruct (hash_key (get_url item)) as [k|]; [|reflexivity].
  unfold bind, get, modify, ret. simpl.
  now destruct (keyed_mem k d).
Qed.

Lemma add_profile_spec (unhashable : pyval -> string) (username : string)
    (profile : finding) (acc : keyed pydict * list pydict) :
  add_profile unhashable username profile acc
  = if unhashable_url profile then (Raised (type_error unhashable profile), acc)
    else (Done tt, put_profile username acc profile).
Proof.
  unfold add_profile, unhashable_url, put_profile, url_key, type_error,
    hashed, when.
  destruct (truthy (get_url profile)); simpl; [|reflexivity].
  destruct (hash_key (get_url profile)) as [k|]; [|reflexivity].
  unfold bind, get, modify, ret. simpl.
  now destruct (keyed_mem k (fst acc)).
Qed.

(** The merge of full_username_search: it raises at the first finding
    whose URL cannot be hashed, of Sherlock's and then of Maigret's; until
    then it stores the findings read. *)
Lemma merge_found_spec (unhashable : pyval -> string) (S M : list finding) :
  merge_found unhashable S M []
  = match find unhashable_url S with
    | Some x => (Raised (type_error unhashable x),
                 fold_left put_sherlock (readable S) [])
    | None =>
        (match find unhashable_url M with
         | Some x => Raised (type_error unhashable x)
         | None => Done tt
         end,
         fold_left put_maigret (readable M) (fold_left put_sherlock S []))
    end.
Proof.
  unfold merge_found, bind.
  rewrite (for_each_readable unhashable _ put_sherlock
             (insert_sherlock_spec unhashable)).
  destruct (find unhashable_url S) eqn:E; [reflexivity|].
  rewrite (readable_clean _ E).
  apply (for_each_readable unhashable _ put_maigret
           (insert_maigret_spec unhashable)).
Qed.

Lemma combined_spec (unhashable : pyval -> string) (S M : list finding) :
  combined unhashable S M
  = match find unhashable_url (S ++ M) with
    | Some x => Raised (type_error unhashable x)
    | None => Done {| total_unique_profiles := List.length (merged S M);
                      profiles := keyed_values (merged S M) |}
    end.
Proof.
  unfold combined. rewrite merge_found_spec, find_app.
  destruct (find unhashable_url S); [reflexivity|].
  destruct (find unhashable_url M) eqn:E; [reflexivity|].
  now rewrite (readable_clean _ E).
Qed.

(* ====================================================================== *)
(** * Merging findings by URL *)
(* ====================================================================== *)

Lemma well_keyed_nil : well_keyed [].
Proof. split; constructor. Qed.

Lemma well_keyed_set (d : keyed finding) (item : finding) (k : pykey) :
  url_key item = Some k -> well_keyed d -> well_keyed (keyed_set k item d).
Proof.
  intros Hu [Hn Hf]. split.
  - now apply keyed_set_NoDup.
  - now apply keyed_set_Forall.
Qed.

Lemma well_keyed_urls (d : keyed finding) :
  well_keyed d -> map url_key (keyed_values d) = map Some (keyed_keys d).
Proof.
  intros [_ Hf]. unfold keyed_values, keyed_keys.
  induction Hf as [|kv d Hk _ IH]; simpl; [reflexivity|].
  now rewrite Hk, IH.
Qed.

Lemma url_key_searched (item : finding) (username : string) :
  url_key (with_searched_username item username) = url_key item.
Proof.
  unfold url_key, get_url, with_searched_username, dict_get_or.
  now rewrite dict_get_set_ne by discriminate.
Qed.

Lemma put_sherlock_wk (d : keyed finding) (item : finding) :
  well_keyed d -> well_keyed (put_sherlock d item).
Proof.
  intros H. unfold put_sherlock.
  destruct (url_key item) as [k|] eqn:E; [|assumption].
  now apply well_keyed_set.
Qed.

Lemma put_maigret_wk (d : keyed finding) (item : finding) :
  well_keyed d -> well_keyed (put_maigret d item).
Proof.
  intros H. unfold put_maigret.
  destruct (url_key item) as [k|] eqn:E; [|assumption].
  destruct (keyed_mem k d); [assumption|].
  now apply well_keyed_set.
Qed.

Lemma put_found_wk (username : string) (d : keyed finding) (item : finding) :
  well_keyed d -> well_keyed (put_found username d item).
Proof.
  intros H. unfold put_found.
  destruct (url_key item) as [k|] eqn:E; [|assumption].
  destruct (keyed_mem k d); [assumption|].
  apply well_keyed_set; [|assumption]. now rewrite url_key_searched.
Qed.

Lemma put_sherlock_keys (d : keyed finding) (x : finding) (k : pykey) :
  In k (keyed_keys (put_sherlock d x))
  <-> In k (keyed_keys d) \/ url_key x = Some k.
Proof.
  unfold put_sherlock. destruct (url_key x) as [k'|].
  - rewrite keyed_keys_set. destruct (keyed_mem k' d) eqn:M.
    + apply keyed_mem_In in M. split; [auto|].
      intros [H|[= <-]]; assumption.
    + rewrite in_app_iff. simpl. split.
      * intros [H|[<-|[]]]; auto.
      * intros [H|[= <-]]; auto.
  - split; [auto|]. intros [H|H]; [assumption | discriminate].
Qed.

Lemma put_maigret_keys (d : keyed finding) (x : finding) (k : pykey) :
  In k (keyed_keys (put_maigret d x))
  <-> In k (keyed_keys d) \/ url_key x = Some k.
Proof.
  unfold put_maigret. destruct (url_key x) as [k'|].
  - destruct (keyed_mem k' d) eqn:M.
    + apply keyed_mem_In in M. split; [auto|].
      intros [H|[= <-]]; assumption.
    + rewrite keyed_keys_set, M, in_app_iff. simpl. split.
      * intros [H|[<-|[]]]; auto.
      * intros [H|[= <-]]; auto.
  - split; [auto|]. intros [H|H]; [assumption | discriminate].
Qed.

Lemma put_found_keys (username : string) (d : keyed finding) (x : finding)
    (k : pykey) :
  In k (keyed_keys (put_found username d x))
  <-> In k (keyed_keys d) \/ url_key x = Some k.
Proof.
  unfold put_found. destruct (url_key x) as [k'|].
  - destruct (keyed_mem k' d) eqn:M.
    + apply keyed_mem_In in M. split; [auto|].
      intros [H|[= <-]]; assumption.
    + rewrite keyed_keys_set, M, in_app_iff. simpl. split.
      * intros [H|[<-|[]]]; auto.
      * intros [H|[= <-]]; auto.
  - split; [auto|]. intros [H|H]; [assumption | discriminate].
Qed.

Section Loops.

(** What the body of a loop that stores findings under their URL does. *)
Variable f : keyed finding -> finding -> keyed finding.
Hypothesis f_wk : forall d x, well_keyed d -> well_keyed (f d x).
Hypothesis f_keys : forall d x k,
  In k (keyed_keys (f d x)) <-> In k (keyed_keys d) \/ url_key x = Some k.

Lemma loop_wk (l : list finding) (d : keyed finding) :
  well_keyed d -> well_keyed (fold_left f l d).
Proof. revert d. induction l; simpl; auto. Qed.

Lemma loop_keys (l : list finding) (d : keyed finding) (k : pykey) :
  In k (keyed_keys (fold_left f l d))
  <-> In k (keyed_keys d) \/ In (Some k) (map url_key l).
Proof.
  revert d. induction l as [|x l IH]; intros d; simpl.
  - tauto.
  - rewrite IH, f_keys. tauto.
Qed.

End Loops.

Lemma merged_wk (s m : list finding) : well_keyed (merged s m).
Proof.
  unfold merged.
  apply (loop_wk _ put_maigret_wk), (loop_wk _ put_sherlock_wk), well_keyed_nil.
Qed.

Lemma merged_keys (s m : list finding) (k : pykey) :
  In k (keyed_keys (merged s m)) <-> In (Some k) (map url_key (s ++ m)).
Proof.
  unfold merged.
  rewrite (loop_keys _ put_maigret_keys), (loop_keys _ put_sherlock_keys).
  rewrite map_app, in_app_iff. simpl. tauto.
Qed.

(** The findings with the URL string [u] are those stored under the key
    of this string. *)
Lemma In_url_str (l : list finding) (u : string) :
  In (Some (KStr u)) (map url_key l) <-> u <> "" /\ In (VStr u) (map get_url l).
Proof.
  rewrite !in_map_iff. split.
  - intros (x & Hx & Hin). apply url_key_str in Hx. destruct Hx as [Hx Hu].
    split; [assumption|]. now exists x.
  - intros (Hu & x & Hx & Hin). exists x. split; [|assumption].
    now apply url_key_str.
Qed.

(** What one turn of the loop of multi_username_search leaves in
    [all_found]. *)
Lemma multi_step_found (unhashable : pyval -> string) (st : multi_locals)
    (uc : string * outcome username_result) :
  all_found (multi_step unhashable st uc)
  = match snd uc with
    | Done result =>
        fold_left (put_found (fst uc)) (readable (r_found result)) (all_found st)
    | Raised _ => all_found st
    end.
Proof.
  unfold multi_step. destruct (snd uc) as [result|e]; [|reflexivity].
  rewrite (for_each_readable unhashable _ (put_found (fst uc))
             (insert_found_spec unhashable (fst uc))).
  now destruct (find unhashable_url (r_found result)).
Qed.

Lemma multi_step_wk (unhashable : pyval -> string) (st : multi_locals)
    (uc : string * outcome username_result) :
  well_keyed (all_found st) -> well_keyed (all_found (multi_step unhashable st uc)).
Proof.
  intros H. rewrite multi_step_found. destruct (snd uc) as [result|e]; [|assumption].
  now apply (loop_wk _ (put_found_wk (fst uc))).
Qed.

Lemma multi_step_keys (unhashable : pyval -> string) (st : multi_locals)
    (uc : string * outcome username_result) (k : pykey) :
  In k (keyed_keys (all_found (multi_step unhashable st uc)))
  <-> In k (keyed_keys (all_found st))
      \/ (exists result, snd uc = Done result
                         /\ In (Some k) (map url_key (readable (r_found result)))).
Proof.
  rewrite multi_step_found. destruct (snd uc) as [result|e]; simpl.
  - rewrite (loop_keys _ (put_found_keys (fst uc))). split.
    + intros [H|H]; [now left | right; eauto].
    + intros [H|(r & [= <-] & H)]; [now left | now right].
  - split; [auto|]. intros [H|(r & H & _)]; [assumption | discriminate].
Qed.

Lemma multi_fold_wk (unhashable : pyval -> string)
    (runs : list (string * outcome username_result)) (st : multi_locals) :
  well_keyed (all_found st)
  -> well_keyed (all_found (fold_left (multi_step unhashable) runs st)).
Proof.
  revert st. induction runs as [|uc runs IH]; intros st H; simpl; [assumption|].
  apply IH. now apply multi_step_wk.
Qed.

Lemma multi_fold_keys (unhashable : pyval -> string)
    (runs : list (string * outcome username_result)) (st : multi_locals)
    (k : pykey) :
  In k (keyed_keys (all_found (fold_left (multi_step unhashable) runs st)))
  <-> In k (keyed_keys (all_found st))
      \/ (exists username result,
             In (username, Done result) runs
             /\ In (Some k) (map url_key (readable (r_found result)))).
Proof.
  revert st. induction runs as [|[un o] runs IH]; intros st; simpl.
  - split; [auto|]. intros [H|(x & r & [] & _)]. assumption.
  - rewrite IH, multi_step_keys. simpl. split.
    + intros [[H|(r & -> & H2)]|(x & r & H2 & H3)].
      * now left.
      * right. exists un, r. auto.
      * right. exists x, r. auto.
    + intros [H|(x & r & [[= -> ->]|H2] & H3)].
      * left. now left.
      * left. right. eauto.
      * right. eauto.
Qed.

Lemma no_None_in_Some {A : Type} (l : list A) : ~ In None (map Some l).
Proof. rewrite in_map_iff. intros (x & H & _). discriminate. Qed.

Lemma NoDup_map_Some {A : Type} (l : list A) : NoDup l -> NoDup (map Some l).
Proof.
  induction 1 as [|x l Hx _ IH]; simpl; constructor; [|assumption].
  rewrite in_map_iff. intros (y & [= ->] & H). contradiction.
Qed.

Lemma In_str_keyed (l : list finding) (u : string) :
  ~ In None (map url_key l) ->
  In (VStr u) (map get_url l) -> In (Some (KStr u)) (map url_key l).
Proof.
  intros Hn H. apply In_url_str. split; [|assumption]. intros ->.
  apply Hn. apply in_map_iff in H. destruct H as (x & Hx & Hin).
  apply in_map_iff. exists x. split; [|assumption].
  unfold url_key. now rewrite Hx.
Qed.

(** C3, the claim as stated fails: four findings whose URLs differ only in
    the case of scheme and host, in a trailing slash, or in a query string
    stay four entries of the combined result. *)
Lemma url_variants_stay_separate :
  let f u := [("platform", VStr "GitHub"); ("url", VStr u);
              ("response_time", VInt 0)] in
  exists r,
    full_username_search unhashable_type "bob" "2024-01-01T00:00:00"
      (Done ({| r_found := [f "https://github.com/bob"; f "HTTPS://GitHub.com/bob"];
                r_errors := [] |},
             {| r_found := [f "https://github.com/bob/";
                            f "https://github.com/bob?tab=repositories"];
                r_errors := [] |}))
    = Done r
    /\ total_unique_profiles (fs_combined r) = 4.
Proof. eexists. split; vm_compute; reflexivity. Qed.

(** C3 (amended): full_username_search and multi_username_search key the
    findings by the value of 'url' as it is.  When the URL of a finding is
    a list or a dict that is not empty, full_username_search raises the
    TypeError of the first such finding and returns nothing, and
    multi_username_search reads the findings of that username up to it.
    Otherwise the deduplicated collection has exactly one entry for every
    distinct key among the findings read, hence one for every distinct
    non-empty URL string, no two entries have the same key, and findings
    whose URL is absent or empty are left out. *)
Theorem dedup_by_exact_url_string
    (unhashable : pyval -> string) (username now : string)
    (sherlock_result maigret_result : username_result)
    (request : MultiUsernameRequest)
    (call : nat -> string -> outcome username_result) (execution_time : Z) :
  let inputs := (r_found sherlock_result ++ r_found maigret_result)%list in
  let full := full_username_search unhashable username now
                (Done (sherlock_result, maigret_result)) in
  let m := multi_username_search unhashable request call now execution_time in
  let read k :=
    exists searched result,
      In (searched, Done result) (multi_runs request call)
      /\ In (Some k) (map url_key (readable (r_found result))) in
  match find unhashable_url inputs with
  | Some item => full = Raised (OtherException (unhashable (get_url item)))
  | None =>
      exists r,
        full = Done r
        /\ NoDup (map url_key (profiles (fs_combined r)))
        /\ ~ In None (map url_key (profiles (fs_combined r)))
        /\ (forall k, In (Some k) (map url_key (profiles (fs_combined r)))
                      <-> In (Some k) (map url_key inputs))
        /\ (forall u, In (VStr u) (map get_url (profiles (fs_combined r)))
                      <-> u <> "" /\ In (VStr u) (map get_url inputs))
        /\ total_unique_profiles (fs_combined r)
           = List.length (profiles (fs_combined r))
  end
  /\ NoDup (map url_key (mr_profiles m))
  /\ ~ In None (map url_key (mr_profiles m))
  /\ (forall k, In (Some k) (map url_key (mr_profiles m)) <-> read k)
  /\ (forall u, In (VStr u) (map get_url (mr_profiles m))
                <-> u <> "" /\ read (KStr u))
  /\ mr_total_profiles_found m = List.length (mr_profiles m).
Proof.
  intros inputs full m read. subst inputs. split.
  - subst full. unfold full_username_search. rewrite combined_spec.
    destruct (find unhashable_url _) as [item|]; [reflexivity|].
    eexists. split; [reflexivity|]. cbn [fs_combined profiles total_unique_profiles].
    pose proof (merged_wk (r_found sherlock_result) (r_found maigret_result)) as W.
    rewrite (well_keyed_urls _ W).
    assert (K : forall k, In (Some k)
                            (map Some (keyed_keys (merged (r_found sherlock_result)
                                                          (r_found maigret_result))))
                          <-> In (Some k) (map url_key
                                             (r_found sherlock_result
                                              ++ r_found maigret_result)%list)).
    { intros k. rewrite <- merged_keys. rewrite in_map_iff. split.
      - now intros (x & [= ->] & H).
      - intros H. now exists k. }
    split; [apply NoDup_map_Some, W|].
    split; [apply no_None_in_Some|].
    split; [exact K|]. split.
    + intros u. rewrite <- In_url_str, <- K, <- (well_keyed_urls _ W). split.
      * apply In_str_keyed. rewrite (well_keyed_urls _ W). apply no_None_in_Some.
      * intros H. now apply In_url_str in H.
    + unfold keyed_values. now rewrite length_map.
  - subst m. cbn [multi_username_search mr_profiles mr_total_profiles_found].
    assert (W : well_keyed (all_found (multi_loop unhashable (multi_runs request call))))
      by (apply multi_fold_wk, well_keyed_nil).
    rewrite (well_keyed_urls _ W).
    assert (K : forall k, In (Some k)
                            (map Some (keyed_keys (all_found
                               (multi_loop unhashable (multi_runs request call)))))
                          <-> read k).
    { intros k. unfold read, multi_loop. rewrite in_map_iff. split.
      - intros (x & [= ->] & H). apply multi_fold_keys in H.
        destruct H as [[]|H]. exact H.
      - intros H. exists k. split; [reflexivity|].
        apply multi_fold_keys. now right. }
    split; [apply NoDup_map_Some, W|].
    split; [apply no_None_in_Some|].
    split; [exact K|]. split.
    + intros u. split.
      * intros H. assert (Hk : In (Some (KStr u))
                                  (map url_key (keyed_values (all_found
                                     (multi_loop unhashable (multi_runs request call)))))).
        { apply In_str_keyed; [|assumption].
          rewrite (well_keyed_urls _ W). apply no_None_in_Some. }
        split; [now apply In_url_str in Hk|].
        apply K. now rewrite <- (well_keyed_urls _ W).
      * intros [_ H]. apply K in H. rewrite <- (well_keyed_urls _ W) in H.
        now apply In_url_str in H.
    + unfold keyed_values. now rewrite length_map.
Qed.

(** ** What the merge keeps for a URL reported twice *)

Lemma fold_sherlock_get (S : list finding) (d : keyed finding) (k : pykey) :
  In (Some k) (map url_key S) ->
  exists s, In s S /\ url_key s = Some k
            /\ keyed_get k (fold_left put_sherlock S d) = Some s.
Proof.
  induction S as [|x S IH] using rev_ind; [intros []|].
  rewrite map_app, in_app_iff, fold_left_app. simpl. intros Hin.
  destruct (url_key x) as [k'|] eqn:E.
  - destruct (pykey_dec k' k) as [->|Hne].
    + exists x. split; [apply in_or_app; right; now left|]. split; [assumption|].
      unfold put_sherlock. rewrite E. apply keyed_get_set_eq.
    + destruct Hin as [Hin|[H|[]]]; [|congruence].
      destruct (IH Hin) as (s & Hs & Es & Hg).
      exists s. split; [apply in_or_app; now left|]. split; [assumption|].
      unfold put_sherlock. rewrite E. now rewrite keyed_get_set_ne.
  - destruct Hin as [Hin|[H|[]]]; [|discriminate].
    destruct (IH Hin) as (s & Hs & Es & Hg).
    exists s. split; [apply in_or_app; now left|]. split; [assumption|].
    unfold put_sherlock. now rewrite E.
Qed.

Lemma put_maigret_noop (d : keyed finding) (m : finding) (k : pykey) :
  url_key m = Some k -> keyed_mem k d = true -> put_maigret d m = d.
Proof. intros E H. unfold put_maigret. now rewrite E, H. Qed.

Lemma put_maigret_mem (d : keyed finding) (m : finding) (k : pykey) :
  keyed_mem k d = true -> keyed_mem k (put_maigret d m) = true.
Proof. rewrite !keyed_mem_In, put_maigret_keys. auto. Qed.

Lemma put_maigret_get (d : keyed finding) (m : finding) (k : pykey) :
  keyed_mem k d = true -> keyed_get k (put_maigret d m) = keyed_get k d.
Proof.
  intros H. unfold put_maigret.
  destruct (url_key m) as [k'|]; [|reflexivity].
  destruct (keyed_mem k' d) eqn:M; [reflexivity|].
  apply keyed_get_set_ne. intros E. congruence.
Qed.

Lemma fold_maigret_get (M : list finding) (d : keyed finding) (k : pykey) :
  keyed_mem k d = true ->
  keyed_get k (fold_left put_maigret M d) = keyed_get k d.
Proof.
  revert d. induction M as [|m M IH]; intros d H; simpl; [reflexivity|].
  rewrite IH by now apply put_maigret_mem.
  now apply put_maigret_get.
Qed.

Lemma has_key_spec (k : pykey) (x : finding) :
  has_key k x = true <-> url_key x = Some k.
Proof.
  unfold has_key. destruct (url_key x) as [k'|]; [|split; discriminate].
  destruct (pykey_eqb_spec k' k); split; congruence.
Qed.

(** Findings with a key that [d] already holds leave no trace. *)
Lemma fold_maigret_filter (k : pykey) (M : list finding) (d : keyed finding) :
  keyed_mem k d = true ->
  fold_left put_maigret M d
  = fold_left put_maigret (filter (fun x => negb (has_key k x)) M) d.
Proof.
  revert d. induction M as [|m M IH]; intros d H; simpl; [reflexivity|].
  destruct (has_key k m) eqn:E; simpl.
  - apply has_key_spec in E. rewrite (put_maigret_noop _ _ _ E H). now apply IH.
  - apply IH. now apply put_maigret_mem.
Qed.

(** Leaving out findings that can be hashed does not change where a loop
    raises. *)
Lemma find_unhashable_filter (k : pykey) (M : list finding) :
  find unhashable_url (filter (fun x => negb (has_key k x)) M)
  = find unhashable_url M.
Proof.
  induction M as [|m M IH]; simpl; [reflexivity|].
  destruct (has_key k m) eqn:E; simpl.
  - apply has_key_spec, url_key_readable in E. now rewrite E.
  - now rewrite IH.
Qed.

Lemma NoDup_map_same {A B : Type} (g : A -> B) (l : list A) (p q : A) :
  NoDup (map g l) -> In p l -> In q l -> g p = g q -> p = q.
Proof.
  induction l as [|a l IH]; simpl; [intros _ []|].
  intros Hn Hp Hq E. inversion Hn as [|? ? Hnot Hn']; subst.
  destruct Hp as [->|Hp], Hq as [->|Hq]; auto.
  - exfalso. apply Hnot. rewrite E. now apply in_map.
  - exfalso. apply Hnot. rewrite <- E. now apply in_map.
Qed.

Lemma keyed_get_values {V : Type} (k : pykey) (v : V) (d : keyed V) :
  keyed_get k d = Some v -> In v (keyed_values d).
Proof.
  intros H. apply keyed_get_In in H. apply (in_map snd) in H. exact H.
Qed.

(** C4, the claim as stated fails: Maigret reports the URL Sherlock
    reported, with a tag; the merged collection is the Sherlock finding
    alone, which carries no tags. *)
Lemma duplicate_tags_not_merged :
  (exists r,
      full_username_search unhashable_type "bob" "2024-01-01T00:00:00"
        (Done (bob_sherlock_result, bob_maigret_result)) = Done r
      /\ profiles (fs_combined r) = [bob_sherlock])
  /\ dict_get "tags" bob_maigret = Some (VList [VStr "coding"])
  /\ dict_get "tags" bob_sherlock = None.
Proof.
  split; [eexists; split; vm_compute; reflexivity|].
  vm_compute. split; reflexivity.
Qed.

(** C4 (amended): when a Maigret finding has the URL of a Sherlock
    finding (the same non-empty string, or another value with the same
    key), the Maigret findings with that URL are dropped whole: the
    combined result, or the exception raised in its place, is the one
    obtained without them, so nothing of their tags or metadata enters
    it.  When no URL is a list or dict that cannot be hashed,
    full_username_search returns, and the merged collection has a single
    entry for that URL; the entry is a Sherlock finding as Sherlock
    reported it (the very finding when Sherlock reported the URL once), so
    the label of the first adapter is kept. *)
Theorem sherlock_entry_kept_maigret_duplicate_dropped
    (unhashable : pyval -> string) (username now : string)
    (sherlock_result maigret_result : username_result)
    (s m : finding) (k : pykey) :
  In s (r_found sherlock_result) ->
  In m (r_found maigret_result) ->
  url_key s = Some k ->
  url_key m = Some k ->
  let S := r_found sherlock_result in
  let M := r_found maigret_result in
  combined unhashable S M
  = combined unhashable S (filter (fun x => negb (has_key k x)) M)
  /\ (find unhashable_url (S ++ M) = None ->
      exists r s',
        full_username_search unhashable username now
          (Done (sherlock_result, maigret_result)) = Done r
        /\ In s' S /\ url_key s' = Some k
        /\ In s' (profiles (fs_combined r))
        /\ (forall p, In p (profiles (fs_combined r)) -> url_key p = Some k -> p = s')
        /\ ((forall x, In x S -> url_key x = Some k -> x = s) -> s' = s)).
Proof.
  intros Hs Hm Es Em S M.
  assert (Hin : In (Some k) (map url_key S))
    by (rewrite <- Es; now apply in_map).
  destruct (fold_sherlock_get S [] k Hin) as (s' & Hs' & Eu & Hg).
  assert (Hmem : keyed_mem k (fold_left put_sherlock S []) = true)
    by (unfold keyed_mem; now rewrite Hg).
  split.
  - rewrite !combined_spec, !find_app, find_unhashable_filter.
    destruct (find unhashable_url S); [reflexivity|].
    destruct (find unhashable_url M); [reflexivity|].
    unfold merged. now rewrite <- (fold_maigret_filter k M) by assumption.
  - intros Hclean. unfold full_username_search. fold S M.
    rewrite combined_spec, Hclean.
    eexists. exists s'. split; [reflexivity|].
    cbn [fs_combined profiles].
    assert (Hget : keyed_get k (merged S M) = Some s')
      by (unfold merged; now rewrite fold_maigret_get).
    pose proof (merged_wk S M) as W.
    assert (Hn : NoDup (map url_key (keyed_values (merged S M)))).
    { rewrite (well_keyed_urls _ W).
      apply NoDup_map_Some, W. }
    assert (Hp : In s' (keyed_values (merged S M)))
      by (eapply keyed_get_values; eassumption).
    split; [assumption|]. split; [assumption|]. split; [assumption|]. split.
    + intros p Hpin Hpu.
      apply (NoDup_map_same url_key (keyed_values (merged S M))); auto.
      congruence.
    + intros Honce. now apply Honce.
Qed.

Lemma sherlock_entry_kept_maigret_duplicate_dropped_witness :
  In bob_sherlock (r_found bob_sherlock_result)
  /\ In bob_maigret (r_found bob_maigret_result)
  /\ url_key bob_sherlock = Some (KStr "https://github.com/bob")
  /\ url_key bob_maigret = Some (KStr "https://github.com/bob")
  /\ combined unhashable_type (r_found bob_sherlock_result)
       (r_found bob_maigret_result)
     = combined unhashable_type (r_found bob_sherlock_result)
         (filter (fun x => negb (has_key (KStr "https://github.com/bob") x))
                 (r_found bob_maigret_result)).
Proof.
  assert (H1 : In bob_sherlock (r_found bob_sherlock_result))
    by (left; reflexivity).
  assert (H2 : In bob_maigret (r_found bob_maigret_result))
    by (left; reflexivity).
  assert (H3 : url_key bob_sherlock = Some (KStr "https://github.com/bob"))
    by reflexivity.
  assert (H4 : url_key bob_maigret = Some (KStr "https://github.com/bob"))
    by reflexivity.
  split; [exact H1|]. split; [exact H2|]. split; [exact H3|]. split; [exact H4|].
  exact (proj1 (sherlock_entry_kept_maigret_duplicate_dropped unhashable_type
                  "bob" "now" bob_sherlock_result bob_maigret_result
                  bob_sherlock bob_maigret (KStr "https://github.com/bob")
                  H1 H2 H3 H4)).
Defined.

(** ** Merging twice *)

Lemma put_sherlock_mem (d : keyed finding) (x : finding) (k : pykey) :
  keyed_mem k d = true -> keyed_mem k (put_sherlock d x) = true.
Proof. rewrite !keyed_mem_In, put_sherlock_keys. auto. Qed.

Lemma fold_sherlock_mem (X : list finding) (d : keyed finding) (k : pykey) :
  keyed_mem k d = true -> keyed_mem k (fold_left put_sherlock X d) = true.
Proof.
  rewrite !keyed_mem_In, (loop_keys _ put_sherlock_keys). auto.
Qed.

(** A value stored under [k] is lost when a later finding of the loop has
    the key [k]. *)
Lemma fold_sherlock_overwrites (X : list finding) (d : keyed finding)
    (k : pykey) (v : finding) :
  keyed_mem k d = true -> In (Some k) (map url_key X) ->
  fold_left put_sherlock X (keyed_set k v d) = fold_left put_sherlock X d.
Proof.
  revert d. induction X as [|y Y IH]; intros d Hm Hin; [destruct Hin|].
  simpl. unfold put_sherlock at 2 4.
  destruct (url_key y) as [k'|] eqn:E.
  - destruct (pykey_dec k' k) as [->|Hne].
    + now rewrite keyed_set_set.
    + destruct Hin as [Hin|Hin]; [congruence|].
      rewrite keyed_set_comm by auto.
      apply IH; [|assumption].
      rewrite keyed_mem_set, Hm. apply orb_true_r.
  - destruct Hin as [Hin|Hin]; [congruence|]. now apply IH.
Qed.

Lemma fold_sherlock_untouched (X : list finding) (d : keyed finding) (k : pykey) :
  ~ In (Some k) (map url_key X) ->
  keyed_get k (fold_left put_sherlock X d) = keyed_get k d.
Proof.
  revert d. induction X as [|y Y IH]; intros d Hn; simpl; [reflexivity|].
  simpl in Hn. rewrite IH by tauto.
  unfold put_sherlock. destruct (url_key y) as [k'|]; [|reflexivity].
  apply keyed_get_set_ne. intros ->. tauto.
Qed.

Lemma option_key_dec (a b : option pykey) : {a = b} + {a <> b}.
Proof. decide equality. apply pykey_dec. Qed.

Lemma fold_sherlock_twice (X : list finding) (d : keyed finding) :
  fold_left put_sherlock X (fold_left put_sherlock X d)
  = fold_left put_sherlock X d.
Proof.
  revert d. induction X as [|x Y IH]; intros d; simpl; [reflexivity|].
  set (E := fold_left put_sherlock Y (put_sherlock d x)).
  unfold put_sherlock at 2.
  destruct (url_key x) as [k|] eqn:He.
  - assert (Hi : put_sherlock d x = keyed_set k x d)
      by (unfold put_sherlock; now rewrite He).
    assert (Hm : keyed_mem k E = true).
    { subst E. apply fold_sherlock_mem. rewrite Hi, keyed_mem_set.
      now rewrite pykey_eqb_refl. }
    destruct (in_dec option_key_dec (Some k) (map url_key Y)) as [Hin|Hn].
    + rewrite fold_sherlock_overwrites by assumption. subst E. apply IH.
    + rewrite keyed_set_same.
      * subst E. apply IH.
      * subst E. rewrite fold_sherlock_untouched by assumption.
        rewrite Hi. apply keyed_get_set_eq.
  - subst E. apply IH.
Qed.

(** The second loop changes nothing when every key is already stored. *)
Lemma fold_maigret_saturated (M : list finding) (d : keyed finding) :
  (forall m k, In m M -> url_key m = Some k -> keyed_mem k d = true) ->
  fold_left put_maigret M d = d.
Proof.
  induction M as [|m M IH]; intros H; simpl; [reflexivity|].
  assert (E : put_maigret d m = d).
  { unfold put_maigret.
    destruct (url_key m) as [k|] eqn:He; [|reflexivity].
    rewrite (H m k); [reflexivity | now left | assumption]. }
  rewrite E. apply IH. intros m' k Hm'. apply H. now right.
Qed.

Lemma fold_maigret_twice (M : list finding) (d : keyed finding) :
  fold_left put_maigret M (fold_left put_maigret M d)
  = fold_left put_maigret M d.
Proof.
  apply fold_maigret_saturated. intros m k Hm Hu.
  apply keyed_mem_In. rewrite (loop_keys _ put_maigret_keys).
  right. rewrite <- Hu. now apply in_map.
Qed.

Lemma find_twice {A : Type} (f : A -> bool) (l : list A) :
  find f (l ++ l) = find f l.
Proof. rewrite find_app. now destruct (find f l). Qed.

Lemma readable_twice (l : list finding) :
  readable (l ++ l)
  = match find unhashable_url l with
    | Some _ => readable l
    | None => (l ++ l)%list
    end.
Proof.
  rewrite readable_app. destruct (find unhashable_url l) eqn:E; [reflexivity|].
  now rewrite (readable_clean _ E).
Qed.

(** C5: merging is idempotent.  Merging a collection given twice over
    (each adapter's findings followed by the same findings again) does
    what merging it once does: it leaves the same dict, hence the same
    keys and the same entries in the same order, and it raises the same
    TypeError when a URL cannot be hashed; and merging a collection with
    itself, as both adapters' findings, does what merging it alone does. *)
Theorem merge_idempotent (unhashable : pyval -> string) (X Y : list finding) :
  merge_found unhashable (X ++ X) (Y ++ Y) [] = merge_found unhashable X Y []
  /\ merge_found unhashable (X ++ X) [] [] = merge_found unhashable X [] []
  /\ merge_found unhashable [] (X ++ X) [] = merge_found unhashable [] X []
  /\ merge_found unhashable X X [] = merge_found unhashable X [] []
  /\ combined unhashable (X ++ X) (Y ++ Y) = combined unhashable X Y
  /\ combined unhashable X X = combined unhashable X [].
Proof.
  assert (G : forall A B, merge_found unhashable (A ++ A) (B ++ B) []
                          = merge_found unhashable A B []).
  { intros A B. rewrite !merge_found_spec, !find_twice, !readable_twice.
    destruct (find unhashable_url A) eqn:EA; [reflexivity|].
    rewrite fold_left_app, fold_sherlock_twice.
    destruct (find unhashable_url B) eqn:EB; [reflexivity|].
    rewrite (readable_clean _ EB).
    now rewrite fold_left_app, fold_maigret_twice. }
  assert (H : merge_found unhashable X X [] = merge_found unhashable X [] []).
  { rewrite !merge_found_spec.
    destruct (find unhashable_url X) eqn:EX; [reflexivity|].
    rewrite (readable_clean _ EX). simpl. f_equal.
    apply fold_maigret_saturated. intros m k Hm Hu.
    apply keyed_mem_In. rewrite (loop_keys _ put_sherlock_keys).
    right. rewrite <- Hu. now apply in_map. }
  split; [apply G|]. split; [apply (G X [])|]. split; [apply (G [] X)|].
  split; [exact H|]. unfold combined. now rewrite G, H.
Qed.
(* ====================================================================== *)
(** * The adapters *)
(* ====================================================================== *)

(** A try statement whose handlers all end normally ends normally. *)
Lemma try_except_total {St : Type} (body : M St unit) (handler : exn -> M St unit) :
  (forall e s, fst (handler e s) = Done tt) ->
  forall s, fst (try_except body handler s) = Done tt.
Proof.
  intros H s. unfold try_except.
  destruct (body s) as [[[]|e] s']; [reflexivity | apply H].
Qed.

Lemma after_try {St A : Type} (body : M St unit) (handler : exn -> M St unit)
    (k : St -> A) (s : St) :
  (forall e s, fst (handler e s) = Done tt) ->
  run (try_except body handler ;;; st <- get ;; ret (k st)) s
  = Done (k (snd (try_except body handler s))).
Proof.
  intros H. pose proof (try_except_total body handler H s) as T.
  unfold run, bind, get, ret.
  destruct (try_except body handler s) as [[[]|e] s']; simpl in *;
    [reflexivity | discriminate].
Qed.

Lemma sherlock_except_total (e : exn) (s : locals) :
  fst (sherlock_except e s) = Done tt.
Proof. now destruct e. Qed.

Lemma maigret_except_total (e : exn) (s : maigret_locals) :
  fst (maigret_except e s) = Done tt.
Proof. now destruct e. Qed.

Lemma holehe_except_total (e : exn) (s : holehe_locals) :
  fst (holehe_except e s) = Done tt.
Proof. now destruct e. Qed.

Lemma run_sherlock_returns (py_repr : pyval -> string) (username : string)
    (timeout : Z) (w : world) :
  Backend.run_sherlock py_repr username timeout w
  = let st := sherlock_locals py_repr w in
    Done [("username", VStr username);
          ("searched_at", VStr (now_iso w));
          ("tool", VStr "sherlock");
          ("total_sites",
           VInt (Z.of_nat (List.length (found st))
                 + Z.of_nat (List.length (not_found st))));
          ("found", VList (map (fun h => VDict (hit_dict h)) (found st)));
          ("not_found", VList (map VStr (not_found st)));
          ("errors", VList (map VStr (errors st)));
          ("execution_time", VFloat (elapsed w))].
Proof.
  unfold Backend.run_sherlock, sherlock_locals.
  now rewrite after_try by apply sherlock_except_total.
Qed.

Lemma run_maigret_returns (username : string) (timeout : Z) (w : world) :
  Backend.run_maigret username timeout w
  = let st := maigret_locals_at_return w in
    Done [("username", VStr username);
          ("searched_at", VStr (now_iso w));
          ("tool", VStr "maigret");
          ("total_sites",
           VInt (Z.of_nat (List.length (mg_found st))
                 + Z.of_nat (List.length (mg_not_found st))));
          ("found", VList (map (fun h => VDict (maigret_hit_dict h)) (mg_found st)));
          ("not_found", VList (map VStr (firstn 50 (mg_not_found st))));
          ("errors", VList (map VStr (mg_errors st)));
          ("execution_time", VFloat (elapsed w))].
Proof.
  unfold Backend.run_maigret, maigret_locals_at_return.
  now rewrite after_try by apply maigret_except_total.
Qed.

Lemma run_holehe_returns (email : string) (timeout : Z) (w : world) :
  Backend.run_holehe email timeout w
  = let st := holehe_locals_at_return w in
    Done [("email", VStr email);
          ("searched_at", VStr (now_iso w));
          ("tool", VStr "holehe");
          ("registered_on",
           VList (map (fun h => VDict (holehe_hit_dict h)) (registered st)));
          ("not_registered", VList (map VStr (firstn 20 (not_registered st))));
          ("errors", VList (map VStr (h_errors st)));
          ("execution_time", VFloat (elapsed w))].
Proof.
  unfold Backend.run_holehe, holehe_locals_at_return.
  now rewrite after_try by apply holehe_except_total.
Qed.

Lemma bind_only_other {St A B : Type} (m : M St A) (k : A -> M St B) :
  raises_only_other m -> (forall a, raises_only_other (k a)) ->
  raises_only_other (bind m k).
Proof.
  intros Hm Hk s e s'. unfold bind.
  destruct (m s) as [[a|e0] s0] eqn:E.
  - apply Hk.
  - intros [= <- <-]. now apply (Hm s e0 s0).
Qed.

Lemma ret_only_other {St A : Type} (a : A) : raises_only_other (@ret St A a).
Proof. intros s e s'. discriminate. Qed.

Lemma modify_only_other {St : Type} (f : St -> St) : raises_only_other (modify f).
Proof. intros s e s'. discriminate. Qed.

Lemma index_only_other {St A : Type} (l : list A) (i : nat) :
  raises_only_other (@index St A l i).
Proof.
  intros s e s'. unfold index. destruct (nth_error l i).
  - discriminate.
  - intros [= <- <-]. now exists "list index out of range".
Qed.

Lemma when_only_other {St : Type} (c : bool) (m : M St unit) :
  raises_only_other m -> raises_only_other (when c m).
Proof. destruct c; [auto | intros _; apply ret_only_other]. Qed.

Lemma for_each_only_other {St A : Type} (l : list A) (body : A -> M St unit) :
  (forall a, raises_only_other (body a)) -> raises_only_other (for_each l body).
Proof.
  intros H. induction l as [|a l IH]; simpl.
  - apply ret_only_other.
  - apply bind_only_other; auto.
Qed.

Lemma api_sherlock_line_only_other (line : string) :
  raises_only_other (Api.sherlock_line line).
Proof.
  unfold Api.sherlock_line. apply when_only_other.
  destruct (Api.search_url line); [|apply ret_only_other].
  apply bind_only_other; [|intros; apply modify_only_other].
  destruct (PyStr.contains ":" line); [|apply ret_only_other].
  apply bind_only_other; [apply index_only_other|]. intros p.
  apply bind_only_other; [apply index_only_other|]. intros q.
  apply ret_only_other.
Qed.

Lemma api_maigret_line_only_other (line : string) :
  raises_only_other (Api.maigret_line line).
Proof.
  unfold Api.maigret_line. apply when_only_other.
  destruct (Api.search_url line); [apply modify_only_other | apply ret_only_other].
Qed.

Lemma api_holehe_line_only_other (line : string) :
  raises_only_other (Api.holehe_line line).
Proof.
  unfold Api.holehe_line. apply when_only_other.
  apply bind_only_other; [apply index_only_other|].
  intros; apply modify_only_other.
Qed.

Ltac api_shape_by line_only_other :=
  match goal with
  | |- exists d, ?call ?x ?p = Done d /\ _ =>
      destruct p as [stdout|[msg|msg|msg]];
      [ unfold call, run, try_except, bind, Api.stdout_of, ret, get; simpl;
        match goal with
        | |- context [for_each ?l ?body ?s] =>
            let E := fresh "E" in
            destruct (for_each l body s) as [[[]|e] sites] eqn:E; simpl;
            [ eexists; split; [reflexivity|]; left; simpl; eauto
            | destruct (for_each_only_other l body line_only_other _ _ _ E)
                as [msg ->];
              simpl; eexists; split; [reflexivity|]; right; simpl; eauto ]
        end
      | eexists; split; [reflexivity|]; simpl; auto ..]
  end.

Lemma api_run_sherlock_shape (username : string) (p : proc_outcome) :
  exists d, Api.run_sherlock username p = Done d
            /\ api_result_shape p "Search timed out" "Sherlock not installed" d.
Proof. api_shape_by api_sherlock_line_only_other. Qed.

Lemma api_run_maigret_shape (username : string) (p : proc_outcome) :
  exists d, Api.run_maigret username p = Done d
            /\ api_result_shape p "Deep search timed out" "Maigret not installed" d.
Proof. api_shape_by api_maigret_line_only_other. Qed.

Lemma api_run_holehe_shape (email : string) (p : proc_outcome) :
  exists d, Api.run_holehe email p = Done d
            /\ api_result_shape p "Email search timed out" "holehe not installed" d.
Proof. api_shape_by api_holehe_line_only_other. Qed.

(** On a timeout the dict api/osint.py returns has the key 'error' and no
    list of findings. *)
Example api_timeout_result :
  Api.run_sherlock "bob" (ProcRaises (TimeoutExpired "timed out after 60 seconds"))
  = Done [("error", VStr "Search timed out"); ("username", VStr "bob")].
Proof. reflexivity. Qed.

(** A line that holds nothing but the marker makes [split()[0]] raise; the
    handler turns the IndexError into a result. *)
Example api_holehe_parse_failure :
  Api.run_holehe "a@example.com" (Completed "[+]")
  = Done [("error", VStr "list index out of range");
          ("email", VStr "a@example.com"); ("results", VList [])].
Proof. vm_compute. reflexivity. Qed.

(** C1, the claim as stated fails: after a normal end, run_sherlock of
    api/osint.py returns a dict with the findings under 'results' and
    neither an 'errors' nor an 'error' field. *)
Lemma api_success_has_no_errors_field :
  exists d,
    Api.run_sherlock "bob" (Completed "[+] GitHub: https://github.com/bob") = Done d
    /\ dict_get "results" d
       = Some (VList [VDict [("site", VStr "GitHub");
                             ("url", VStr "https://github.com/bob");
                             ("status", VStr "found")]])
    /\ dict_get "errors" d = None
    /\ dict_get "error" d = None.
Proof. eexists. split; [vm_compute; reflexivity|]. repeat split. Qed.

(** C1 (amended): every path of the six adapter functions returns
    normally.  In osint-backend/main.py the returned dict always has the
    list of findings ('found', 'registered_on') and the list 'errors' of
    strings, and when the binary is missing it has no findings and the one
    error that says so.  In api/osint.py the returned dict has 'results'
    and no error field after a normal end (or, when parsing raised,
    'error' and empty 'results'), it has the string 'error' and empty
    'results' when the binary is missing or another exception was raised,
    and it has the string 'error' after a timeout. *)
Theorem adapters_return_normally
    (py_repr : pyval -> string) (username email : string) (timeout : Z)
    (w : world) (p : proc_outcome) (msg : string) :
  let missing := with_proc (ProcRaises (FileNotFoundError msg)) w in
  (exists d, Backend.run_sherlock py_repr username timeout w = Done d
             /\ has_findings_and_errors "found" d)
  /\ (exists d, Backend.run_maigret username timeout w = Done d
                /\ has_findings_and_errors "found" d)
  /\ (exists d, Backend.run_holehe email timeout w = Done d
                /\ has_findings_and_errors "registered_on" d)
  /\ (exists d, Backend.run_sherlock py_repr username timeout missing = Done d
                /\ nothing_found_one_error "found"
                     "Sherlock not installed. Run: pip install sherlock-project" d)
  /\ (exists d, Backend.run_maigret username timeout missing = Done d
                /\ nothing_found_one_error "found"
                     "Maigret not installed. Run: pip install maigret" d)
  /\ (exists d, Backend.run_holehe email timeout missing = Done d
                /\ nothing_found_one_error "registered_on"
                     "holehe not installed. Run: pip install holehe" d)
  /\ (exists d, Api.run_sherlock username p = Done d
                /\ api_result_shape p "Search timed out" "Sherlock not installed" d)
  /\ (exists d, Api.run_maigret username p = Done d
                /\ api_result_shape p "Deep search timed out" "Maigret not installed" d)
  /\ (exists d, Api.run_holehe email p = Done d
                /\ api_result_shape p "Email search timed out" "holehe not installed" d).
Proof.
  intros missing.
  split; [|split; [|split; [|split; [|split; [|split; [|split; [|split]]]]]]].
  - rewrite run_sherlock_returns. eexists. split; [reflexivity|].
    unfold has_findings_and_errors. simpl. eauto.
  - rewrite run_maigret_returns. eexists. split; [reflexivity|].
    unfold has_findings_and_errors. simpl. eauto.
  - rewrite run_holehe_returns. eexists. split; [reflexivity|].
    unfold has_findings_and_errors. simpl. eauto.
  - rewrite run_sherlock_returns. eexists. split; [reflexivity|]. now split.
  - rewrite run_maigret_returns. eexists. split; [reflexivity|]. now split.
  - rewrite run_holehe_returns. eexists. split; [reflexivity|]. now split.
  - apply api_run_sherlock_shape.
  - apply api_run_maigret_shape.
  - apply api_run_holehe_shape.
Qed.

Example maigret_not_found_cut :
  exists d nf,
    Backend.run_maigret "bob" 120 (many_available 60) = Done d
    /\ dict_get "not_found" d = Some (VList nf)
    /\ List.length nf = 50
    /\ dict_get "total_sites" d = Some (VInt 60).
Proof.
  eexists. eexists. split; [vm_compute; reflexivity|].
  split; [reflexivity|]. split; reflexivity.
Qed.

(** C10: whatever the outside world does, the 'not_found' list of
    run_maigret is the first 50 entries (at most) of the sites parsed as
    not found, the 'not_registered' list of run_holehe is the first 20
    entries (at most) of the services parsed as not registered, and the
    lists 'found' and 'registered_on' are all the findings parsed. *)
Theorem not_found_lists_are_cut (username email : string) (timeout : Z) (w : world) :
  let mg := maigret_locals_at_return w in
  let ho := holehe_locals_at_return w in
  exists dm dh nf nr,
    Backend.run_maigret username timeout w = Done dm
    /\ Backend.run_holehe email timeout w = Done dh
    /\ dict_get "not_found" dm = Some (VList (map VStr nf))
    /\ nf = firstn 50 (mg_not_found mg)
    /\ List.length nf <= 50
    /\ (exists rest, mg_not_found mg = (nf ++ rest)%list)
    /\ dict_get "found" dm
       = Some (VList (map (fun h => VDict (maigret_hit_dict h)) (mg_found mg)))
    /\ dict_get "not_registered" dh = Some (VList (map VStr nr))
    /\ nr = firstn 20 (not_registered ho)
    /\ List.length nr <= 20
    /\ (exists rest, not_registered ho = (nr ++ rest)%list)
    /\ dict_get "registered_on" dh
       = Some (VList (map (fun h => VDict (holehe_hit_dict h)) (registered ho))).
Proof.
  intros mg ho.
  rewrite run_maigret_returns, run_holehe_returns.
  do 4 eexists.
  split; [reflexivity|]. split; [reflexivity|].
  split; [reflexivity|]. split; [reflexivity|].
  split; [apply firstn_le_length|].
  split; [exists (skipn 50 (mg_not_found mg)); symmetry; apply firstn_skipn|].
  split; [reflexivity|]. split; [reflexivity|]. split; [reflexivity|].
  split; [apply firstn_le_length|].
  split; [exists (skipn 20 (not_registered ho)); symmetry; apply firstn_skipn|].
  reflexivity.
Qed.

(* ====================================================================== *)
(** * The investigation pipeline *)
(* ====================================================================== *)

Lemma extends_refl {A : Type} (l : list A) : extends l l.
Proof. exists []. now rewrite app_nil_r. Qed.

Lemma extends_trans {A : Type} (l1 l2 l3 : list A) :
  extends l1 l2 -> extends l2 l3 -> extends l1 l3.
Proof.
  intros [a ->] [b ->]. exists (a ++ b)%list. now rewrite app_assoc.
Qed.

Lemma extends_app {A : Type} (l a : list A) : extends l (l ++ a)%list.
Proof. now exists a. Qed.

Lemma extends_In {A : Type} (l l' : list A) (x : A) :
  extends l l' -> In x l -> In x l'.
Proof. intros [a ->] H. apply in_or_app. now left. Qed.

Lemma state_grows_refl (st : InvestigationState) : state_grows st st.
Proof. repeat split; apply extends_refl. Qed.

Lemma state_grows_trans (s1 s2 s3 : InvestigationState) :
  state_grows s1 s2 -> state_grows s2 s3 -> state_grows s1 s3.
Proof.
  intros (A1 & B1 & C1) (A2 & B2 & C2).
  repeat split; eapply extends_trans; eassumption.
Qed.

Lemma step1_grows (request : InvestigatePersonRequest) (st : InvestigationState) :
  state_grows st (step1 request st).
Proof. repeat split; apply extends_refl. Qed.

Lemma step2_grows (request : InvestigatePersonRequest)
    (holehe_call : string -> outcome (list holehe_hit)) (st : InvestigationState) :
  state_grows st (step2 request holehe_call st).
Proof.
  unfold step2. destruct (given (ip_email request)) as [email|];
    [|apply state_grows_refl].
  destruct (holehe_call email); repeat split; simpl;
    first [apply extends_app | apply extends_refl].
Qed.

(** One turn of the loop of step 3: the findings of a call that returned
    are read up to the first one whose URL cannot be hashed. *)
Lemma search_variation_spec (unhashable : pyval -> string)
    (sherlock_call : string -> outcome (list finding))
    (acc : keyed pydict * list pydict) (username : string) :
  search_variation unhashable sherlock_call acc username
  = match sherlock_call username with
    | Done found_profiles =>
        fold_left (put_profile username) (readable found_profiles) acc
    | Raised _ => acc
    end.
Proof.
  unfold search_variation. destruct (sherlock_call username) as [ps|e]; [|reflexivity].
  unfold try_except.
  rewrite (for_each_readable unhashable _ (put_profile username)
             (add_profile_spec unhashable username)).
  now destruct (find unhashable_url ps).
Qed.

(** The loop of step 3 is a loop over the findings read. *)
Lemma search_all_spec (unhashable : pyval -> string)
    (sherlock_call : string -> outcome (list finding))
    (us : list string) (acc : keyed pydict * list pydict) :
  fold_left (search_variation unhashable sherlock_call) us acc
  = fold_left put_pair (findings_read sherlock_call us) acc.
Proof.
  revert acc. induction us as [|u us IH]; intros acc; simpl; [reflexivity|].
  rewrite fold_left_app, IH, search_variation_spec. f_equal.
  destruct (sherlock_call u) as [ps|e]; [|reflexivity].
  generalize (readable ps). intros l. revert acc.
  induction l as [|p l IHl]; intros acc; simpl; [reflexivity|]. apply IHl.
Qed.

Lemma put_pair_extends (acc : keyed pydict * list pydict) (uf : string * finding) :
  extends (snd acc) (snd (put_pair acc uf)).
Proof.
  unfold put_pair, put_profile.
  destruct (url_key (snd uf)); [|apply extends_refl].
  destruct (keyed_mem _ _); simpl; [apply extends_refl | apply extends_app].
Qed.

Lemma search_all_extends (unhashable : pyval -> string)
    (sherlock_call : string -> outcome (list finding))
    (us : list string) (acc : keyed pydict * list pydict) :
  extends (snd acc)
          (snd (fold_left (search_variation unhashable sherlock_call) us acc)).
Proof.
  rewrite search_all_spec. generalize (findings_read sherlock_call us).
  intros l. revert acc.
  induction l as [|uf l IH]; intros acc; simpl; [apply extends_refl|].
  eapply extends_trans; [apply put_pair_extends | apply IH].
Qed.

Lemma step3_grows (unhashable : pyval -> string)
    (request : InvestigatePersonRequest)
    (sherlock_call : string -> outcome (list finding)) (st : InvestigationState) :
  state_grows st (step3 unhashable request sherlock_call st).
Proof.
  repeat split; simpl.
  - apply (search_all_extends unhashable sherlock_call _ ([], confirmed_profiles st)).
  - apply extends_refl.
  - apply extends_app.
Qed.

(** C9: the investigation state only grows.  Each of the three steps,
    from whatever state it starts, leaves every entry of
    confirmed_profiles, discovered_emails and discovered_usernames at its
    place and only adds entries after them; so what the state holds after
    any step is still in the result investigate_person returns. *)
Theorem investigation_state_only_grows
    (unhashable : pyval -> string)
    (request : InvestigatePersonRequest)
    (holehe_call : string -> outcome (list holehe_hit))
    (sherlock_call : string -> outcome (list finding))
    (now : string) (execution_time : Z) :
  let s1 := step1 request initial_state in
  let s2 := step2 request holehe_call s1 in
  let s3 := step3 unhashable request sherlock_call s2 in
  let r := investigate_person unhashable request holehe_call sherlock_call now
             execution_time in
  (forall st, state_grows st (step1 request st))
  /\ (forall st, state_grows st (step2 request holehe_call st))
  /\ (forall st, state_grows st (step3 unhashable request sherlock_call st))
  /\ res_confirmed_profiles r = confirmed_profiles s3
  /\ res_discovered_emails r = discovered_emails s3
  /\ res_discovered_usernames r = discovered_usernames s3
  /\ (forall st, In st [initial_state; s1; s2; s3] ->
        extends (confirmed_profiles st) (res_confirmed_profiles r)
        /\ extends (discovered_emails st) (res_discovered_emails r)
        /\ extends (discovered_usernames st) (res_discovered_usernames r)
        /\ (forall p, In p (confirmed_profiles st) -> In p (res_confirmed_profiles r))
        /\ (forall e, In e (discovered_emails st) -> In e (res_discovered_emails r))
        /\ (forall u, In u (discovered_usernames st)
                      -> In u (res_discovered_usernames r))).
Proof.
  intros s1 s2 s3 r.
  split; [intros; apply step1_grows|].
  split; [intros; apply step2_grows|].
  split; [intros; apply step3_grows|].
  split; [reflexivity|]. split; [reflexivity|]. split; [reflexivity|].
  assert (G3 : state_grows s2 s3) by apply step3_grows.
  assert (G2 : state_grows s1 s3)
    by (eapply state_grows_trans; [apply step2_grows | exact G3]).
  assert (G1 : state_grows initial_state s3)
    by (eapply state_grows_trans; [apply step1_grows | exact G2]).
  intros st Hst.
  assert (G : state_grows st s3).
  { destruct Hst as [<-|[<-|[<-|[<-|[]]]]]; auto using state_grows_refl. }
  destruct G as (A & B & C).
  change (res_confirmed_profiles r) with (confirmed_profiles s3).
  change (res_discovered_emails r) with (discovered_emails s3).
  change (res_discovered_usernames r) with (discovered_usernames s3).
  repeat split; try assumption; intros x Hx; eapply extends_In; eassumption.
Qed.

(** ** What step 3 adds to confirmed_profiles *)

Lemma pykey_eqb_sym (a b : pykey) : pykey_eqb a b = pykey_eqb b a.
Proof.
  destruct (pykey_eqb_spec a b) as [->|H]; [now rewrite pykey_eqb_refl|].
  destruct (pykey_eqb_spec b a); congruence.
Qed.

Lemma existsb_key_In (k : pykey) (seen : list pykey) :
  existsb (pykey_eqb k) seen = true <-> In k seen.
Proof.
  rewrite existsb_exists. split.
  - intros (x & Hx & E). now destruct (pykey_eqb_spec k x) as [->|].
  - intros H. exists k. split; [assumption | apply pykey_eqb_refl].
Qed.

(** The loop appends the profile of the first finding of each key that
    [all_sherlock_found] does not hold yet. *)
Lemma fold_put_pair (l : list (string * finding))
    (acc : keyed pydict * list pydict) (seen : list pykey) :
  (forall k, existsb (pykey_eqb k) seen = keyed_mem k (fst acc)) ->
  snd (fold_left put_pair l acc)
  = (snd acc ++ map profile_of (first_of_each_key seen l))%list
  /\ List.length (fst (fold_left put_pair l acc))
     = List.length (fst acc) + List.length (first_of_each_key seen l).
Proof.
  revert acc seen. induction l as [|uf l IH]; intros acc seen Hseen; simpl.
  - now rewrite app_nil_r, Nat.add_0_r.
  - unfold put_pair at 2 4. unfold put_profile.
    destruct (url_key (snd uf)) as [k|] eqn:E; [|now apply IH].
    rewrite Hseen. destruct (keyed_mem k (fst acc)) eqn:M; [now apply IH|].
    destruct (IH (keyed_set k (sherlock_profile (fst uf) (get_url (snd uf)) (snd uf))
                            (fst acc),
                  (snd acc ++ [sherlock_profile (fst uf) (get_url (snd uf)) (snd uf)])%list)
                 (k :: seen)) as [IH1 IH2].
    { intros k0. simpl. rewrite keyed_mem_set, Hseen. f_equal. apply pykey_eqb_sym. }
    rewrite IH1, IH2. simpl. split.
    + now rewrite <- app_assoc.
    + assert (L : forall (V : Type) (d : keyed V) v,
                 keyed_mem k d = false
                 -> List.length (keyed_set k v d) = S (List.length d)).
      { intros V d v Hd.
        change (List.length (keyed_set k v d)) with
          (List.length (keyed_set k v d)).
        rewrite <- (length_map fst). fold (keyed_keys (keyed_set k v d)).
        rewrite keyed_keys_set, Hd, length_app. simpl.
        unfold keyed_keys. rewrite length_map. lia. }
      rewrite (L _ _ _ M). lia.
Qed.

Lemma first_of_each_key_In (l : list (string * finding)) (seen : list pykey)
    (uf : string * finding) :
  In uf (first_of_each_key seen l)
  -> In uf l /\ exists k, pair_key uf = Some k /\ ~ In k seen.
Proof.
  revert seen. induction l as [|x l IH]; intros seen; simpl; [intros []|].
  destruct (url_key (snd x)) as [k|] eqn:E.
  - destruct (existsb (pykey_eqb k) seen) eqn:S.
    + intros H. destruct (IH _ H) as [H1 H2]. auto.
    + intros [<-|H].
      * split; [now left|]. exists k. split; [exact E|].
        rewrite <- existsb_key_In. congruence.
      * destruct (IH _ H) as [H1 (k' & Hk' & Hn)]. split; [now right|].
        exists k'. split; [assumption|]. intros Hin. apply Hn. now right.
  - intros H. destruct (IH _ H) as [H1 H2]. auto.
Qed.

Lemma first_of_each_key_keys (l : list (string * finding)) (seen : list pykey)
    (k : pykey) :
  In (Some k) (map pair_key (first_of_each_key seen l))
  <-> In (Some k) (map pair_key l) /\ ~ In k seen.
Proof.
  revert seen. induction l as [|x l IH]; intros seen; simpl; [tauto|].
  unfold pair_key at 2. destruct (url_key (snd x)) as [k'|] eqn:E.
  - destruct (existsb (pykey_eqb k') seen) eqn:S.
    + rewrite IH. apply existsb_key_In in S. split.
      * intros [H1 H2]. auto.
      * intros [[[= <-]|H1] H2]; [contradiction | auto].
    + assert (Hn : ~ In k' seen) by (rewrite <- existsb_key_In; congruence).
      simpl. unfold pair_key at 1. rewrite E, IH. simpl.
      destruct (pykey_dec k' k) as [->|Hne].
      * split; [auto|]. intros _. now left.
      * split.
        -- intros [[= H]|[H1 H2]]; [contradiction|]. split; [auto|].
           intros H. apply H2. now right.
        -- intros [[[= H]|H1] H2]; [contradiction|]. right. split; [assumption|].
           intros [H|H]; [contradiction | contradiction].
  - rewrite IH. split.
    + intros [H1 H2]. auto.
    + intros [[H|H1] H2]; [discriminate | auto].
Qed.

Lemma first_of_each_key_NoDup (l : list (string * finding)) (seen : list pykey) :
  NoDup (map pair_key (first_of_each_key seen l)).
Proof.
  revert seen. induction l as [|x l IH]; intros seen; simpl; [constructor|].
  destruct (url_key (snd x)) as [k|] eqn:E; [|apply IH].
  destruct (existsb (pykey_eqb k) seen); [apply IH|].
  simpl. constructor; [|apply IH].
  unfold pair_key at 1. rewrite E, first_of_each_key_keys.
  intros [_ H]. apply H. now left.
Qed.

Lemma url_key_profile (uf : string * finding) :
  url_key (profile_of uf) = pair_key uf.
Proof. reflexivity. Qed.

Lemma findings_read_In (sherlock_call : string -> outcome (list finding))
    (us : list string) (uf : string * finding) :
  In uf (findings_read sherlock_call us)
  <-> In (fst uf) us
      /\ exists found_profiles,
           sherlock_call (fst uf) = Done found_profiles
           /\ In (snd uf) (readable found_profiles).
Proof.
  unfold findings_read. rewrite in_flat_map. split.
  - intros (u & Hu & H). destruct (sherlock_call u) as [ps|e] eqn:E; [|destruct H].
    apply in_map_iff in H. destruct H as (p & <- & Hp). simpl.
    split; [assumption|]. now exists ps.
  - intros (Hu & ps & E & Hp). exists (fst uf). split; [assumption|].
    rewrite E. apply in_map_iff. exists (snd uf). split; [now destruct uf | assumption].
Qed.

(** What step 3 leaves in confirmed_profiles: the profiles it started
    from, followed by the profile of the first finding read for each key;
    as many profiles are added as all_sherlock_found holds in the end. *)
Lemma step3_profiles (unhashable : pyval -> string)
    (request : InvestigatePersonRequest)
    (sherlock_call : string -> outcome (list finding)) (st : InvestigationState) :
  let acc := fold_left (search_variation unhashable sherlock_call)
               (username_variations request) ([], confirmed_profiles st) in
  confirmed_profiles (step3 unhashable request sherlock_call st) = snd acc
  /\ snd acc
     = (confirmed_profiles st
        ++ map profile_of
             (first_of_each_key []
                (findings_read sherlock_call (username_variations request))))%list
  /\ List.length (fst acc)
     = List.length (first_of_each_key []
                      (findings_read sherlock_call (username_variations request))).
Proof.
  intros acc. split; [reflexivity|]. subst acc. rewrite search_all_spec.
  destruct (fold_put_pair (findings_read sherlock_call (username_variations request))
              ([], confirmed_profiles st) []) as [H1 H2]; [reflexivity|].
  split; [exact H1 | exact H2].
Qed.

(** C2, the claim as stated fails: every Sherlock call of step 3 raises
    and the record of step 3 ends with status 'complete'; and the reason
    recorded for step 2 is the message of the exception, which is empty
    for an exception raised without one. *)
Lemma raising_search_step_ends_complete :
  res_flow_steps
    (investigate_person unhashable_type amanda_request (fun _ => Done [])
       sherlock_crashes "2024-01-01T00:00:00" 0)
  = [ {| step := 1; action := "Generate people search links";
         step_status := "complete";
         step_result := Some "Generated 12 search links" |};
      {| step := 3; action := "Search username variations with Sherlock";
         step_status := "complete";
         step_result := Some "Searched 5 usernames, found 0 profiles" |} ]
  /\ nth_error
       (res_flow_steps
          (investigate_person unhashable_type amanda_email_request (holehe_crashes "")
             sherlock_crashes "2024-01-01T00:00:00" 0)) 1
     = Some {| step := 2; action := "Check email registration: a@example.com";
               step_status := "error"; step_result := Some "" |}.
Proof. vm_compute. split; reflexivity. Qed.

(** C2 (amended): when the holehe call of step 2 raises, the record of
    step 2 ends with status 'error' and, as its result, the message of the
    exception; step 3 still runs: its record follows with status
    'complete', the usernames tried are in discovered_usernames, and
    confirmed_profiles holds the profiles of what Sherlock found: one
    profile, naming 'sherlock' as its source, for every URL among the
    findings read, made of the first finding with that URL, and nothing
    else.  A Sherlock call of step 3 that raises is passed over, as are
    the findings from the first one on whose URL cannot be hashed: what
    the other calls found is still in confirmed_profiles, and the record
    of step 3 ends with status 'complete'. *)
Theorem failed_email_step_recorded_and_search_continues
    (unhashable : pyval -> string)
    (request : InvestigatePersonRequest)
    (holehe_call : string -> outcome (list holehe_hit))
    (sherlock_call : string -> outcome (list finding))
    (now : string) (execution_time : Z) (email : string) (e : exn) :
  given (ip_email request) = Some email ->
  holehe_call email = Raised e ->
  let r := investigate_person unhashable request holehe_call sherlock_call now
             execution_time in
  let read := findings_read sherlock_call (username_variations request) in
  (exists links_summary,
      res_flow_steps r
      = [ {| step := 1; action := "Generate people search links";
             step_status := "complete"; step_result := Some links_summary |};
          {| step := 2; action := "Check email registration: " ++ email;
             step_status := "error"; step_result := Some (exn_str e) |};
          {| step := 3; action := "Search username variations with Sherlock";
             step_status := "complete";
             step_result :=
               Some ("Searched "
                     ++ str_nat (List.length (username_variations request))
                     ++ " usernames, found "
                     ++ str_nat (List.length (res_confirmed_profiles r))
                     ++ " profiles") |} ])
  /\ res_discovered_emails r = [email]
  /\ res_discovered_usernames r = username_variations request
  /\ res_confirmed_profiles r = map profile_of (first_of_each_key [] read)
  /\ NoDup (map url_key (res_confirmed_profiles r))
  /\ (forall username found_profiles item k,
         In username (username_variations request) ->
         sherlock_call username = Done found_profiles ->
         In item (readable found_profiles) ->
         url_key item = Some k ->
         exists p, In p (res_confirmed_profiles r)
                   /\ url_key p = Some k
                   /\ dict_get "source" p = Some (VStr "sherlock"))
  /\ (forall p, In p (res_confirmed_profiles r) ->
         exists username found_profiles item,
           In username (username_variations request)
           /\ sherlock_call username = Done found_profiles
           /\ In item (readable found_profiles)
           /\ p = sherlock_profile username (get_url item) item).
Proof.
  intros Hg Hc r read.
  assert (E2 : step2 request holehe_call (step1 request initial_state)
               = {| flow_steps :=
                      finish_step "error" (exn_str e)
                        (flow_steps (step1 request initial_state)
                         ++ [running 2 ("Check email registration: " ++ email)]);
                    discovered_emails := [email];
                    discovered_usernames := [];
                    confirmed_profiles := [];
                    people_search_links :=
                      people_search_links (step1 request initial_state) |}).
  { unfold step2. rewrite Hg, Hc. reflexivity. }
  destruct (step3_profiles unhashable request sherlock_call
              (step2 request holehe_call (step1 request initial_state)))
    as (P1 & P2 & P3).
  assert (EP : res_confirmed_profiles r = map profile_of (first_of_each_key [] read)).
  { subst r read. cbn [investigate_person res_confirmed_profiles].
    rewrite P1, P2, E2. reflexivity. }
  split; [|split; [|split; [|split; [|split; [|split]]]]].
  - rewrite EP, length_map. fold read in P3. rewrite <- P3.
    subst r. unfold investigate_person. cbn [res_flow_steps]. rewrite E2.
    eexists. reflexivity.
  - subst r. unfold investigate_person. cbn [res_discovered_emails]. now rewrite E2.
  - subst r. unfold investigate_person. cbn [res_discovered_usernames]. now rewrite E2.
  - exact EP.
  - rewrite EP, map_map.
    rewrite (map_ext _ pair_key url_key_profile).
    apply first_of_each_key_NoDup.
  - intros username found_profiles item k Hu Hdone Hitem Hk.
    assert (Hin : In (Some k) (map pair_key (first_of_each_key [] read))).
    { apply first_of_each_key_keys. split; [|intros []].
      apply in_map_iff. exists (username, item). split; [exact Hk|].
      apply findings_read_In. split; [assumption|]. now exists found_profiles. }
    apply in_map_iff in Hin. destruct Hin as (uf & Huf & Hin).
    exists (profile_of uf). split; [rewrite EP; now apply in_map|].
    split; [exact Huf | reflexivity].
  - intros p Hp. rewrite EP in Hp. apply in_map_iff in Hp.
    destruct Hp as ([username item] & <- & Hin).
    apply first_of_each_key_In in Hin. destruct Hin as [Hin _].
    apply findings_read_In in Hin. destruct Hin as (Hu & ps & Hcall & Hitem).
    exists username, ps, item. auto.
Qed.

Lemma failed_email_step_recorded_and_search_continues_witness :
  given (ip_email amanda_email_request) = Some "a@example.com"
  /\ holehe_crashes "executor is shut down" "a@example.com"
     = Raised (OtherException "executor is shut down")
  /\ res_discovered_emails
       (investigate_person unhashable_type amanda_email_request
          (holehe_crashes "executor is shut down") sherlock_crashes "now" 0)
     = ["a@example.com"].
Proof.
  assert (H1 : given (ip_email amanda_email_request) = Some "a@example.com")
    by reflexivity.
  assert (H2 : holehe_crashes "executor is shut down" "a@example.com"
               = Raised (OtherException "executor is shut down"))
    by reflexivity.
  split; [exact H1|]. split; [exact H2|].
  exact (proj1 (proj2
    (failed_email_step_recorded_and_search_continues unhashable_type
       amanda_email_request
       (holehe_crashes "executor is shut down") sherlock_crashes "now" 0
       "a@example.com" (OtherException "executor is shut down") H1 H2))).
Defined.

(* ====================================================================== *)
(** * Further properties of the username variation generator *)
(* ====================================================================== *)

Lemma string_length_append (a b : string) :
  String.length (a ++ b) = String.length a + String.length b.
Proof. induction a; simpl; [reflexivity | now rewrite IHa]. Qed.

Lemma all_chars_append (p : ascii -> bool) (a b : string) :
  all_chars p (a ++ b) = all_chars p a && all_chars p b.
Proof.
  induction a as [|c a IH]; simpl; [reflexivity|].
  now rewrite IH, andb_assoc.
Qed.

Lemma lower_char_idempotent (c : ascii) :
  PyStr.lower_char (PyStr.lower_char c) = PyStr.lower_char c.
Proof. destruct c as [[] [] [] [] [] [] [] []]; reflexivity. Qed.

Lemma lower_all_lowered (s : string) :
  all_chars (fun c => Ascii.eqb (PyStr.lower_char c) c) (PyStr.lower s) = true.
Proof.
  induction s as [|c s IH]; simpl; [reflexivity|].
  now rewrite lower_char_idempotent, Ascii.eqb_refl.
Qed.

Lemma split_ws_from_chars (p : ascii -> bool) (s cur : string) :
  all_chars (fun c => negb (PyStr.isspace c) && p c) cur = true ->
  all_chars p s = true ->
  Forall (fun piece => all_chars (fun c => negb (PyStr.isspace c) && p c) piece = true)
         (PyStr.split_ws_from cur s).
Proof.
  revert cur. induction s as [|c s IH]; intros cur Hc Hs; simpl.
  - destruct (PyStr.is_empty cur); now repeat constructor.
  - simpl in Hs. apply andb_prop in Hs. destruct Hs as [Hp Hs].
    destruct (PyStr.isspace c) eqn:E.
    + destruct (PyStr.is_empty cur); [|constructor; [assumption|]]; now apply IH.
    + apply IH; [|assumption]. unfold PyStr.snoc.
      rewrite all_chars_append, Hc. simpl. now rewrite E, Hp.
Qed.

Lemma name_parts_chars (full_name : string) :
  Forall (fun piece => all_chars lowered_nonspace piece = true)
         (name_parts full_name).
Proof.
  apply (split_ws_from_chars (fun c => Ascii.eqb (PyStr.lower_char c) c));
    [reflexivity | apply lower_all_lowered].
Qed.

Lemma first_char_chars (p : ascii -> bool) (s : string) :
  all_chars p s = true -> all_chars p (PyStr.first_char s) = true.
Proof.
  destruct s as [|c s]; simpl; [reflexivity|].
  intros H. apply andb_prop in H. now rewrite (proj1 H).
Qed.

Lemma nth_Forall {A : Type} (P : A -> Prop) (l : list A) (n : nat) (d : A) :
  Forall P l -> P d -> P (nth n l d).
Proof.
  intros H Hd. revert n. induction H; intros [|n]; simpl; auto.
Qed.

Lemma last_Forall {A : Type} (P : A -> Prop) (l : list A) (d : A) :
  Forall P l -> P d -> P (List.last l d).
Proof.
  intros H Hd. induction H as [|x l Hx Hl IH]; simpl; [assumption|].
  destruct l; assumption.
Qed.

Lemma variations_chars (full_name : string) :
  Forall (fun v => all_chars lowered_nonspace v = true) (variations full_name).
Proof.
  pose proof (name_parts_chars full_name) as HP.
  unfold variations.
  set (parts := name_parts full_name) in *.
  assert (H0 : all_chars lowered_nonspace (nth 0 parts "") = true)
    by now apply (nth_Forall (fun v => all_chars lowered_nonspace v = true)).
  assert (HL : all_chars lowered_nonspace (List.last parts "") = true)
    by now apply (last_Forall (fun v => all_chars lowered_nonspace v = true)).
  assert (HM : all_chars lowered_nonspace
                 (if (2 <? List.length parts)%nat then nth 1 parts "" else "") = true).
  { destruct (2 <? List.length parts)%nat; [|reflexivity].
    now apply (nth_Forall (fun v => all_chars lowered_nonspace v = true)). }
  set (first := nth 0 parts "") in *.
  set (last := List.last parts "") in *.
  set (middle := if (2 <? List.length parts)%nat then nth 1 parts "" else "") in *.
  pose proof (first_char_chars _ _ H0) as HF0.
  pose proof (first_char_chars _ _ HL) as HFL.
  pose proof (first_char_chars _ _ HM) as HFM.
  apply Forall_app. split.
  - repeat (constructor;
            [rewrite ?all_chars_append, ?H0, ?HL, ?HF0, ?HFL; reflexivity|]).
    constructor.
  - destruct (PyStr.is_empty middle); [constructor|].
    repeat (constructor;
            [rewrite ?all_chars_append, ?H0, ?HL, ?HFM; reflexivity|]).
    constructor.
Qed.

Lemma dict_fromkeys_length (l : list string) :
  List.length (dict_fromkeys l) <= List.length l.
Proof.
  induction l as [|x l IH] using rev_ind; [simpl; lia|].
  rewrite dict_fromkeys_snoc, length_app. simpl.
  destruct (key_in x (dict_fromkeys l)); [lia|].
  rewrite length_app. simpl. lia.
Qed.

Lemma filter_length {A : Type} (f : A -> bool) (l : list A) :
  List.length (filter f l) <= List.length l.
Proof.
  induction l as [|x l IH]; simpl; [lia|]. destruct (f x); simpl; lia.
Qed.

(** X1: for a name of at least two parts, no candidate contains a
    whitespace character and every candidate is in lower case (str.lower
    leaves each of its characters as it is). *)
Theorem variations_lower_case_without_whitespace (full_name : string) :
  2 <= List.length (name_parts full_name) ->
  Forall (fun v => all_chars lowered_nonspace v = true)
         (generate_username_variations full_name).
Proof.
  intros H. unfold generate_username_variations.
  destruct (Nat.ltb_spec (List.length (name_parts full_name)) 2); [lia|].
  apply Forall_forall. intros v Hv.
  apply dict_fromkeys_In, filter_In in Hv. destruct Hv as [Hv _].
  pose proof (variations_chars full_name) as HV.
  rewrite Forall_forall in HV. now apply HV.
Qed.

Lemma variations_lower_case_without_whitespace_witness :
  2 <= List.length (name_parts "Amanda  J. DRISKELL")
  /\ Forall (fun v => all_chars lowered_nonspace v = true)
            (generate_username_variations "Amanda  J. DRISKELL").
Proof.
  assert (H : 2 <= List.length (name_parts "Amanda  J. DRISKELL"))
    by (vm_compute; lia).
  split; [exact H|].
  exact (variations_lower_case_without_whitespace "Amanda  J. DRISKELL" H).
Defined.

(** X2: whatever the name, generate_username_variations returns at least
    one candidate and at most 16. *)
Theorem variations_count (full_name : string) :
  1 <= List.length (generate_username_variations full_name) <= 16.
Proof.
  unfold generate_username_variations.
  destruct (List.length (name_parts full_name) <? 2)%nat; [simpl; lia|].
  split.
  - assert (Hin : In (nth 0 (name_parts full_name) "" ++ "official")
                     (dict_fromkeys
                        (filter (fun v => (2 <? String.length v)%nat)
                                (variations full_name)))).
    { apply dict_fromkeys_In, filter_In. split.
      - unfold variations. apply in_or_app. left. simpl. tauto.
      - apply Nat.ltb_lt. rewrite string_length_append. simpl. lia. }
    destruct (dict_fromkeys _); [destruct Hin | simpl; lia].
  - eapply Nat.le_trans; [apply dict_fromkeys_length|].
    eapply Nat.le_trans; [apply filter_length|].
    unfold variations. rewrite length_app.
    destruct (PyStr.is_empty _); simpl; lia.
Qed.

(* ====================================================================== *)
(** * Further properties of the adapters of main.py *)
(* ====================================================================== *)

Lemma for_each_app {St A : Type} (l1 l2 : list A) (body : A -> M St unit) (s : St) :
  for_each (l1 ++ l2) body s
  = match for_each l1 body s with
    | (Done _, s') => for_each l2 body s'
    | (Raised e, s') => (Raised e, s')
    end.
Proof.
  revert s. induction l1 as [|a l1 IH]; intros s; simpl; [reflexivity|].
  unfold bind. destruct (body a s) as [[[]|e] s']; [apply IH | reflexivity].
Qed.

(** A property of the locals that every round of a loop keeps holds after
    the loop, however it ends. *)
Lemma for_each_invariant {St A : Type} (P : St -> Prop) (l : list A)
    (body : A -> M St unit) :
  (forall a s, P s -> P (snd (body a s))) ->
  forall s, P s -> P (snd (for_each l body s)).
Proof.
  intros H. induction l as [|a l IH]; intros s Hs; simpl; [assumption|].
  unfold bind. pose proof (H a s Hs) as Ha.
  destruct (body a s) as [[[]|e] s']; simpl in *; [now apply IH | assumption].
Qed.

(** ** run_maigret reads any JSON *)



(** ** run_sherlock and its output file *)

Lemma sherlock_sites_counted (py_repr : pyval -> string)
    (d : list (string * pyval)) (st : locals) :
  Forall (fun si => is_dict (snd si) = true) d ->
  exists st',
    for_each d (fun si => sherlock_site py_repr (fst si) (snd si)) st = (Done tt, st')
    /\ List.length (found st') + List.length (not_found st') + List.length (errors st')
       = List.length (found st) + List.length (not_found st) + List.length (errors st)
         + List.length d.
Proof.
  intros H. revert st. induction H as [|[site info] d Hi Hd IH]; intros st; simpl.
  - exists st. split; [reflexivity | lia].
  - unfold bind. destruct info; try discriminate. simpl.
    repeat match goal with
           | |- context [if ?c then _ else _] => destruct c
           end;
      unfold add_found, add_not_found, add_error, modify;
      match goal with
      | |- context [for_each d _ ?s] =>
          destruct (IH s) as (st' & E & Hc); exists st';
          split; [exact E|];
          rewrite Hc; simpl; rewrite ?length_app; simpl; lia
      end.
Qed.

(** X4: when the output file of Sherlock is a dict whose values are all
    dicts and nothing is printed, every site of the file is classified
    exactly once: as found, as not found, or as an error. *)
Theorem sherlock_classifies_each_site (py_repr : pyval -> string)
    (d : list (string * pyval)) :
  Forall (fun si => is_dict (snd si) = true) d ->
  let st := sherlock_locals py_repr (completed_world "" (FileJson (VDict d))) in
  List.length (found st) + List.length (not_found st) + List.length (errors st)
  = List.length d.
Proof.
  intros H. unfold sherlock_locals, try_except, sherlock_try, read_output. simpl.
  unfold bind.
  destruct (sherlock_sites_counted py_repr d no_locals H) as (st' & E & Hc).
  rewrite E. simpl. exact Hc.
Qed.

Lemma sherlock_classifies_each_site_witness :
  Forall (fun si => is_dict (snd si) = true)
         [("GitHub", VDict [("status", VStr "Claimed")]);
          ("GitLab", VDict [("status", VStr "Available")]);
          ("Gitea", VDict [("status", VStr "Illegal")])]
  /\ (let st := sherlock_locals (fun _ => "?")
                  (completed_world ""
                     (FileJson (VDict [("GitHub", VDict [("status", VStr "Claimed")]);
                                       ("GitLab", VDict [("status", VStr "Available")]);
                                       ("Gitea", VDict [("status", VStr "Illegal")])]))) in
      List.length (found st) + List.length (not_found st) + List.length (errors st)
      = 3).
Proof.
  assert (H : Forall (fun si => is_dict (snd si) = true)
                [("GitHub", VDict [("status", VStr "Claimed")]);
                 ("GitLab", VDict [("status", VStr "Available")]);
                 ("Gitea", VDict [("status", VStr "Illegal")])])
    by (repeat constructor).
  split; [exact H|].
  exact (sherlock_classifies_each_site (fun _ => "?") _ H).
Defined.

(** X5: an entry of the output file that is no dict ends the reading of
    the results: the sites before it are kept, the sites after it and
    everything Sherlock printed on standard output are lost, and one error
    that names the type of the entry is recorded. *)
Theorem sherlock_malformed_entry_hides_the_rest (py_repr : pyval -> string)
    (d1 d2 : list (string * pyval)) (site stdout : string) (info : pyval) :
  Forall (fun si => is_dict (snd si) = true) d1 ->
  is_dict info = false ->
  let st := sherlock_locals py_repr
              (completed_world stdout (FileJson (VDict (d1 ++ (site, info) :: d2)))) in
  let st1 := sherlock_locals py_repr (completed_world "" (FileJson (VDict d1))) in
  found st = found st1
  /\ not_found st = not_found st1
  /\ errors st
     = List.app (errors st1)
         ["Error: '" ++ type_name info ++ "' object has no attribute 'get'"].
Proof.
  intros H1 Hi.
  unfold sherlock_locals, try_except, sherlock_try, read_output. simpl.
  unfold bind. rewrite for_each_app.
  destruct (sherlock_sites_counted py_repr d1 no_locals H1) as (st' & E & _).
  rewrite E. simpl. unfold bind.
  destruct info; try discriminate; simpl; repeat split.
Qed.

Lemma sherlock_malformed_entry_hides_the_rest_witness :
  Forall (fun si => is_dict (snd si) = true)
         [("GitHub", VDict [("status", VStr "Claimed")])]
  /\ is_dict (VStr "rate limited") = false
  /\ found (sherlock_locals (fun _ => "?")
              (completed_world "[+] GitLab: https://gitlab.com/bob"
                 (FileJson (VDict ([("GitHub", VDict [("status", VStr "Claimed")])]
                                   ++ ("X", VStr "rate limited")
                                   :: [("GitLab", VDict [("status", VStr "Claimed")])])))))
     = found (sherlock_locals (fun _ => "?")
                (completed_world ""
                   (FileJson (VDict [("GitHub", VDict [("status", VStr "Claimed")])])))).
Proof.
  assert (H : Forall (fun si => is_dict (snd si) = true)
                [("GitHub", VDict [("status", VStr "Claimed")])])
    by (repeat constructor).
  split; [exact H|]. split; [reflexivity|].
  exact (proj1 (sherlock_malformed_entry_hides_the_rest (fun _ => "?")
                  [("GitHub", VDict [("status", VStr "Claimed")])]
                  [("GitLab", VDict [("status", VStr "Claimed")])]
                  "X" "[+] GitLab: https://gitlab.com/bob" (VStr "rate limited")
                  H eq_refl)).
Defined.

(** ** What run_sherlock takes from standard output *)


Lemma try_except_invariant {St : Type} (P : St -> Prop) (body : M St unit)
    (handler : exn -> M St unit) (s : St) :
  P (snd (body s)) -> (forall e s', P s' -> P (snd (handler e s'))) ->
  P (snd (try_except body handler s)).
Proof.
  intros Hb Hh. unfold try_except.
  destruct (body s) as [[[]|e] s']; simpl in *; auto.
Qed.


(* ====================================================================== *)
(** * Further properties of multi_username_search *)
(* ====================================================================== *)

Lemma map_snd_combine_seq {A : Type} (l : list A) (k : nat) :
  map snd (combine (seq k (List.length l)) l) = l.
Proof.
  revert k. induction l as [|a l IH]; intros k; simpl; [reflexivity|].
  now rewrite IH.
Qed.

Lemma multi_runs_usernames (request : MultiUsernameRequest)
    (call : nat -> string -> outcome username_result) :
  map fst (multi_runs request call) = multi_usernames request.
Proof.
  unfold multi_runs. rewrite map_map. simpl. apply map_snd_combine_seq.
Qed.

Lemma multi_step_searched (unhashable : pyval -> string) (st : multi_locals)
    (uc : string * outcome username_result) :
  searched_usernames (multi_step unhashable st uc)
  = (searched_usernames st ++ [fst uc])%list.
Proof.
  unfold multi_step. destruct (snd uc) as [result|e]; [|reflexivity].
  now destruct (for_each _ _ _) as [[[]|e] found].
Qed.

Lemma multi_fold_searched (unhashable : pyval -> string)
    (runs : list (string * outcome username_result)) (st : multi_locals) :
  searched_usernames (fold_left (multi_step unhashable) runs st)
  = (searched_usernames st ++ map fst runs)%list.
Proof.
  revert st. induction runs as [|uc runs IH]; intros st; simpl.
  - now rewrite app_nil_r.
  - rewrite IH, multi_step_searched. now rewrite <- app_assoc.
Qed.

Lemma usernames_searched_spec (unhashable : pyval -> string)
    (request : MultiUsernameRequest)
    (call : nat -> string -> outcome username_result)
    (now : string) (execution_time : Z) :
  mr_usernames_searched
    (multi_username_search unhashable request call now execution_time)
  = multi_usernames request.
Proof.
  simpl. unfold multi_loop. rewrite multi_fold_searched. simpl.
  apply multi_runs_usernames.
Qed.

(** X7: multi_username_search reports as searched exactly the usernames
    it was to search, in their order: the usernames given (those generated
    from the name when none is given) cut to max_usernames, whether their
    searches returned or raised. *)
Theorem every_username_reported_searched (unhashable : pyval -> string)
    (request : MultiUsernameRequest)
    (call : nat -> string -> outcome username_result)
    (now : string) (execution_time : Z) :
  mr_usernames_searched
    (multi_username_search unhashable request call now execution_time)
  = slice_to (mu_max_usernames request)
      (match mu_usernames request with
       | Some (u :: us) => u :: us
       | _ => generate_username_variations (mu_name request)
       end).
Proof.
  rewrite usernames_searched_spec. reflexivity.
Qed.

(** X8: with max_usernames at least 0, no more than max_usernames
    usernames are searched, and no more than 20 errors are returned. *)
Theorem multi_search_bounded (unhashable : pyval -> string)
    (request : MultiUsernameRequest)
    (call : nat -> string -> outcome username_result)
    (now : string) (execution_time : Z) :
  (0 <= mu_max_usernames request)%Z ->
  let r := multi_username_search unhashable request call now execution_time in
  (Z.of_nat (List.length (mr_usernames_searched r)) <= mu_max_usernames request)%Z
  /\ List.length (mr_errors r) <= 20.
Proof.
  intros H r. split.
  - subst r. rewrite usernames_searched_spec. unfold multi_usernames, slice_to.
    destruct (Z.leb_spec 0 (mu_max_usernames request)); [|lia].
    pose proof (firstn_le_length (Z.to_nat (mu_max_usernames request))
                  (match mu_usernames request with
                   | Some (u :: us) => u :: us
                   | _ => generate_username_variations (mu_name request)
                   end)).
    lia.
  - apply firstn_le_length.
Qed.

Lemma multi_search_bounded_witness :
  (0 <= mu_max_usernames two_usernames_request)%Z
  /\ (Z.of_nat (List.length (mr_usernames_searched
                               (multi_username_search unhashable_type
                                  two_usernames_request search_raises "now" 0)))
      <= mu_max_usernames two_usernames_request)%Z.
Proof.
  assert (H : (0 <= mu_max_usernames two_usernames_request)%Z) by (simpl; lia).
  split; [exact H|].
  exact (proj1 (multi_search_bounded unhashable_type two_usernames_request
                  search_raises "now" 0 H)).
Defined.

(** X9: every profile multi_username_search returns carries the entry
    'searched_username', and its value is one of the usernames reported as
    searched. *)
Theorem profiles_name_their_username (unhashable : pyval -> string)
    (request : MultiUsernameRequest)
    (call : nat -> string -> outcome username_result)
    (now : string) (execution_time : Z) :
  let r := multi_username_search unhashable request call now execution_time in
  Forall (fun p => exists u, In u (mr_usernames_searched r)
                             /\ dict_get "searched_username" p = Some (VStr u))
         (mr_profiles r).
Proof.
  set (Q := fun st : multi_locals =>
              Forall (fun kv : pykey * finding =>
                        exists u, In u (searched_usernames st)
                                  /\ dict_get "searched_username" (snd kv)
                                     = Some (VStr u))
                     (all_found st)).
  assert (Hstep : forall st uc, Q st -> Q (multi_step unhashable st uc)).
  { intros st [username o] Hq. unfold Q in *.
    rewrite multi_step_searched, multi_step_found. simpl.
    assert (Hold : Forall (fun kv : pykey * finding =>
                             exists u, In u (searched_usernames st ++ [username])
                                       /\ dict_get "searched_username" (snd kv)
                                          = Some (VStr u))
                          (all_found st)).
    { eapply Forall_impl; [|exact Hq]. intros kv (u & Hu & Hg).
      exists u. split; [apply in_or_app; now left | assumption]. }
    destruct o as [result|e]; [|exact Hold].
    clear Hq. revert Hold. generalize (all_found st).
    induction (readable (r_found result)) as [|item items IH]; intros d Hd; simpl;
      [exact Hd|].
    apply IH. unfold put_found.
    destruct (url_key item) as [k|]; [|exact Hd].
    destruct (keyed_mem k d); [exact Hd|].
    apply keyed_set_Forall; [|exact Hd].
    exists username. split; [apply in_or_app; right; now left|].
    simpl. apply dict_get_set_eq. }
  assert (Hfold : forall runs st,
             Q st -> Q (fold_left (multi_step unhashable) runs st)).
  { induction runs as [|uc runs IH]; intros st Hq; simpl; auto. }
  intros r. apply Forall_forall. intros p Hp. subst r. simpl in *.
  assert (HQ : Q (multi_loop unhashable (multi_runs request call)))
    by (apply Hfold; constructor).
  unfold Q in HQ. rewrite Forall_forall in HQ.
  unfold keyed_values in Hp. apply in_map_iff in Hp.
  destruct Hp as (kv & <- & Hkv). now apply HQ.
Qed.

(* ====================================================================== *)
(** * Further properties of investigate_person *)
(* ====================================================================== *)

(** X10: the step log investigate_person returns has the records of the
    steps 1, 2, 3 when an email is given and of the steps 1, 3 when none
    is; no record is left 'running': each ends 'complete' or 'error' and
    has a result; the records of steps 1 and 3 always end 'complete'. *)
Theorem step_log_is_closed
    (unhashable : pyval -> string)
    (request : InvestigatePersonRequest)
    (holehe_call : string -> outcome (list holehe_hit))
    (sherlock_call : string -> outcome (list finding))
    (now : string) (execution_time : Z) :
  let r := investigate_person unhashable request holehe_call sherlock_call now
             execution_time in
  map step (res_flow_steps r)
  = match given (ip_email request) with
    | Some _ => [1; 2; 3]%Z
    | None => [1; 3]%Z
    end
  /\ Forall step_closed (res_flow_steps r)
  /\ (forall fs, In fs (res_flow_steps r) -> step fs <> 2%Z ->
                 step_status fs = "complete").
Proof.
  unfold investigate_person, step3, step2. cbn [res_flow_steps flow_steps].
  destruct (given (ip_email request)) as [email|].
  - destruct (holehe_call email) as [services|e]; cbn [flow_steps step1 initial_state];
      (split; [reflexivity|]); split.
    + repeat constructor; simpl; auto; discriminate.
    + intros fs [<-|[<-|[<-|[]]]]; simpl; intros H; congruence.
    + repeat constructor; simpl; auto; discriminate.
    + intros fs [<-|[<-|[<-|[]]]]; simpl; intros H; congruence.
  - cbn [flow_steps step1 initial_state]. split; [reflexivity|]. split.
    + repeat constructor; simpl; auto; discriminate.
    + intros fs [<-|[<-|[]]]; simpl; intros H; congruence.
Qed.

Lemma NoDup_firstn {A : Type} (n : nat) (l : list A) :
  NoDup l -> NoDup (firstn n l).
Proof.
  intros H. revert n. induction H as [|x l Hx Hl IH]; intros [|n]; simpl;
    try constructor; auto.
  intros Hin. apply Hx. rewrite <- (firstn_skipn n l).
  apply in_or_app. now left.
Qed.

(** X11: investigate_person returns as discovered_usernames the first
    five generated variations of the name (all of them when there are
    fewer): at most five usernames, none twice; and as discovered_emails
    the email of the request alone, or nothing when none is given. *)
Theorem discovered_identifiers
    (unhashable : pyval -> string)
    (request : InvestigatePersonRequest)
    (holehe_call : string -> outcome (list holehe_hit))
    (sherlock_call : string -> outcome (list finding))
    (now : string) (execution_time : Z) :
  let r := investigate_person unhashable request holehe_call sherlock_call now
             execution_time in
  res_discovered_usernames r
  = firstn 5 (generate_username_variations (ip_name request))
  /\ List.length (res_discovered_usernames r) <= 5
  /\ NoDup (res_discovered_usernames r)
  /\ res_discovered_emails r
     = match given (ip_email request) with
       | Some email => [email]
       | None => []
       end.
Proof.
  assert (E : discovered_usernames (step2 request holehe_call (step1 request initial_state))
              = []
              /\ discovered_emails (step2 request holehe_call (step1 request initial_state))
                 = match given (ip_email request) with
                   | Some email => [email]
                   | None => []
                   end).
  { unfold step2. destruct (given (ip_email request)) as [email|]; [|now split].
    destruct (holehe_call email); now split. }
  destruct E as [Eu Ee].
  unfold investigate_person, step3.
  cbn [res_discovered_usernames res_discovered_emails
       discovered_usernames discovered_emails].
  rewrite Eu, Ee. cbn [List.app]. unfold username_variations.
  split; [reflexivity|]. split; [apply firstn_le_length|].
  split; [|reflexivity].
  apply NoDup_firstn, generate_username_variations_NoDup.
Qed.

(** X12: the confirmed_profiles investigate_person returns are the
    profiles of the holehe step (one for each service of the email, when
    an email is given and the call returned) followed by the profiles of
    what Sherlock found: for the findings read over all the usernames
    tried, one profile for every distinct URL, made of the first finding
    with that URL and naming 'sherlock' as its source, and no other. *)
Theorem confirmed_profiles_structure
    (unhashable : pyval -> string)
    (request : InvestigatePersonRequest)
    (holehe_call : string -> outcome (list holehe_hit))
    (sherlock_call : string -> outcome (list finding))
    (now : string) (execution_time : Z) :
  let r := investigate_person unhashable request holehe_call sherlock_call now
             execution_time in
  let from_holehe :=
    match given (ip_email request) with
    | Some email =>
        match holehe_call email with
        | Done services => map (holehe_profile email) services
        | Raised _ => []
        end
    | None => []
    end in
  let read := findings_read sherlock_call (username_variations request) in
  let from_sherlock := map profile_of (first_of_each_key [] read) in
  res_confirmed_profiles r = (from_holehe ++ from_sherlock)%list
  /\ Forall (fun p => dict_get "source" p = Some (VStr "holehe (email)")) from_holehe
  /\ Forall (fun p => dict_get "source" p = Some (VStr "sherlock")) from_sherlock
  /\ NoDup (map url_key from_sherlock)
  /\ (forall k, In (Some k) (map url_key from_sherlock)
                <-> In (Some k) (map pair_key read))
  /\ Forall (fun p => exists uf, In uf read /\ p = profile_of uf) from_sherlock.
Proof.
  intros r from_holehe read from_sherlock.
  assert (E : confirmed_profiles
                (step2 request holehe_call (step1 request initial_state))
              = from_holehe).
  { subst from_holehe. unfold step2.
    destruct (given (ip_email request)) as [email|]; [|reflexivity].
    destruct (holehe_call email); reflexivity. }
  destruct (step3_profiles unhashable request sherlock_call
              (step2 request holehe_call (step1 request initial_state)))
    as (P1 & P2 & _).
  assert (K : map url_key from_sherlock = map pair_key (first_of_each_key [] read)).
  { subst from_sherlock. rewrite map_map. apply map_ext. apply url_key_profile. }
  split; [|split; [|split; [|split; [|split]]]].
  - subst r. cbn [investigate_person res_confirmed_profiles].
    rewrite P1, P2, E. reflexivity.
  - subst from_holehe. destruct (given (ip_email request)) as [email|]; [|constructor].
    destruct (holehe_call email) as [services|e]; [|constructor].
    apply Forall_forall. intros p Hp. apply in_map_iff in Hp.
    destruct Hp as (h & <- & _). reflexivity.
  - apply Forall_forall. intros p Hp. apply in_map_iff in Hp.
    destruct Hp as (uf & <- & _). reflexivity.
  - rewrite K. apply first_of_each_key_NoDup.
  - intros k. rewrite K, first_of_each_key_keys. simpl. tauto.
  - apply Forall_forall. intros p Hp. apply in_map_iff in Hp.
    destruct Hp as (uf & <- & Hin). exists uf. split; [|reflexivity].
    now apply first_of_each_key_In in Hin.
Qed.

(* ====================================================================== *)
(** * Phone intelligence *)
(* ====================================================================== *)

Lemma replace_one_char (c : ascii) (s : string) :
  PyStr.replace (String c "") "" s = keep_chars (fun a => negb (Ascii.eqb a c)) s.
Proof.
  unfold PyStr.replace. induction s as [|a s IH]; [reflexivity|].
  cbn [PyStr.replace_from keep_chars prefix String.length Nat.sub].
  destruct (Ascii.ascii_dec c a) as [->|Hne].
  - rewrite Ascii.eqb_refl. simpl. destruct s; exact IH.
  - destruct (Ascii.eqb_spec a c) as [->|_]; [contradiction|].
    simpl. now rewrite IH.
Qed.

Lemma keep_chars_twice (p q : ascii -> bool) (s : string) :
  keep_chars p (keep_chars q s) = keep_chars (fun c => q c && p c) s.
Proof.
  induction s as [|a s IH]; simpl; [reflexivity|].
  destruct (q a); simpl; [destruct (p a); now rewrite IH | exact IH].
Qed.

Lemma keep_chars_ext (p q : ascii -> bool) (s : string) :
  (forall c, p c = q c) -> keep_chars p s = keep_chars q s.
Proof.
  intros H. induction s as [|a s IH]; simpl; [reflexivity|].
  now rewrite H, IH.
Qed.

Lemma clean_phone_digits (phone : string) :
  Phone.clean_phone phone = digits_of phone.
Proof.
  unfold Phone.clean_phone, digits_of.
  rewrite (replace_one_char "-"), (replace_one_char " "),
          (replace_one_char "("), (replace_one_char ")").
  rewrite !keep_chars_twice. apply keep_chars_ext. intros c.
  unfold formatting_char.
  destruct (Ascii.eqb c "-"), (Ascii.eqb c " "), (Ascii.eqb c "("), (Ascii.eqb c ")");
    reflexivity.
Qed.

(** X13: phone_search reads a number without regard to its formatting:
    two phone strings that differ only in the characters "-", " ", "("
    and ")" get the same location and the same search links. *)
Theorem phone_formatting_ignored (p q now : string) (execution_time : Z) :
  digits_of p = digits_of q ->
  Phone.ps_location (Phone.phone_search p now execution_time)
  = Phone.ps_location (Phone.phone_search q now execution_time)
  /\ Phone.ps_social_media (Phone.phone_search p now execution_time)
     = Phone.ps_social_media (Phone.phone_search q now execution_time).
Proof.
  intros H. unfold Phone.phone_search.
  cbn [Phone.ps_location Phone.ps_social_media].
  rewrite !clean_phone_digits, H. split; reflexivity.
Qed.

Lemma phone_formatting_ignored_witness :
  digits_of "(212) 555-1234" = digits_of "212-555-1234"
  /\ Phone.ps_location (Phone.phone_search "(212) 555-1234" "now" 0)
     = Phone.ps_location (Phone.phone_search "212-555-1234" "now" 0).
Proof.
  assert (H : digits_of "(212) 555-1234" = digits_of "212-555-1234")
    by reflexivity.
  split; [exact H|].
  exact (proj1 (phone_formatting_ignored "(212) 555-1234" "212-555-1234" "now" 0 H)).
Defined.

Lemma keep_chars_all (p : ascii -> bool) (s : string) :
  all_chars p s = true -> keep_chars p s = s.
Proof.
  induction s as [|a s IH]; simpl; [reflexivity|].
  intros H. apply andb_prop in H. destruct H as [Ha Hs].
  now rewrite Ha, IH.
Qed.

Lemma drop_country_code_national (n : string) :
  String.length n = 10 -> prefix "+1" n = false ->
  Phone.drop_country_code n = n
  /\ Phone.drop_country_code ("1" ++ n) = n
  /\ Phone.drop_country_code ("+1" ++ n) = n.
Proof.
  intros L P. unfold Phone.drop_country_code, PyStr.startswith.
  split; [|split].
  - rewrite P, L. simpl. now rewrite andb_false_r.
  - simpl. rewrite L. simpl. destruct n; reflexivity.
  - replace (prefix "+1" ("+1" ++ n)) with true by (simpl; now destruct n).
    cbn [Phone.from_index append]. rewrite L. simpl. now rewrite andb_false_r.
Qed.

(** X14: a 10-character number without formatting characters that does
    not itself start with "+1" is read the same with and without the
    country code: given alone, after "1" or after "+1", it gets the
    location of its first three characters (city and state 'Unknown' for
    an area code outside the table, never no location) and the same
    search links. *)
Theorem phone_country_code_dropped (n now : string) (execution_time : Z) :
  String.length n = 10 ->
  all_chars (fun c => negb (formatting_char c)) n = true ->
  prefix "+1" n = false ->
  forall given_as, In given_as [n; "1" ++ n; "+1" ++ n] ->
    Phone.ps_location (Phone.phone_search given_as now execution_time)
    = Some (dict_get_or (Phone.up_to 3 n)
              {| Phone.city := "Unknown"; Phone.state := "Unknown" |}
              Phone.area_codes)
    /\ Phone.ps_social_media (Phone.phone_search given_as now execution_time)
       = Phone.ps_social_media (Phone.phone_search n now execution_time).
Proof.
  intros L C P given_as Hin.
  destruct (drop_country_code_national n L P) as (E0 & E1 & E2).
  assert (Hc : digits_of n = n) by now apply keep_chars_all.
  assert (E : Phone.drop_country_code (Phone.clean_phone given_as) = n).
  { rewrite clean_phone_digits.
    destruct Hin as [<-|[<-|[<-|[]]]]; unfold digits_of in *; simpl;
      rewrite Hc; assumption. }
  assert (En : Phone.drop_country_code (Phone.clean_phone n) = n)
    by (rewrite clean_phone_digits, Hc; exact E0).
  unfold Phone.phone_search. cbn [Phone.ps_location Phone.ps_social_media].
  rewrite E, En, L. split; reflexivity.
Qed.

Lemma phone_country_code_dropped_witness :
  String.length "5045551234" = 10
  /\ all_chars (fun c => negb (formatting_char c)) "5045551234" = true
  /\ prefix "+1" "5045551234" = false
  /\ In ("+1" ++ "5045551234") ["5045551234"; "1" ++ "5045551234"; "+1" ++ "5045551234"]
  /\ Phone.ps_location (Phone.phone_search ("+1" ++ "5045551234") "now" 0)
     = Some (dict_get_or (Phone.up_to 3 "5045551234")
               {| Phone.city := "Unknown"; Phone.state := "Unknown" |}
               Phone.area_codes).
Proof.
  assert (H1 : String.length "5045551234" = 10) by reflexivity.
  assert (H2 : all_chars (fun c => negb (formatting_char c)) "5045551234" = true)
    by reflexivity.
  assert (H3 : prefix "+1" "5045551234" = false) by reflexivity.
  assert (H4 : In ("+1" ++ "5045551234")
                  ["5045551234"; "1" ++ "5045551234"; "+1" ++ "5045551234"])
    by (simpl; tauto).
  split; [exact H1|]. split; [exact H2|]. split; [exact H3|]. split; [exact H4|].
  exact (proj1 (phone_country_code_dropped "5045551234" "now" 0 H1 H2 H3 _ H4)).
Defined.

(** ** run_phoneinfoga *)

Lemma fallback_spec (phone : string) (s : Phone.infoga_locals) :
  Phone.fallback phone s
  = (Done tt,
     if (String.length (Phone.drop_country_code (Phone.clean_phone phone)) =? 10)%nat
     then {| Phone.rd := Phone.set_valid (VBool true)
                           (Phone.set_country (VStr "US") (Phone.rd s));
             Phone.pi_errors := Phone.pi_errors s |}
     else s).
Proof.
  unfold Phone.fallback, Phone.drop_country_code. cbv zeta.
  rewrite (andb_comm (String.length _ =? 11)%nat).
  destruct (String.length _ =? 10)%nat; reflexivity.
Qed.

(** X15: when the PhoneInfoga binary is missing, run_phoneinfoga falls
    back to a basic analysis: the number is reported valid, in the
    country 'US', exactly when the cleaned number without its country code
    has 10 characters (phone_search gives a location from 10 characters
    on); otherwise it stays not valid, without country.  One error is
    recorded and no search queries are produced. *)
Theorem phoneinfoga_missing_binary_fallback (phone msg : string) (w : world) :
  let st := Phone.infoga_locals_at_return phone
              (with_proc (ProcRaises (FileNotFoundError msg)) w) in
  let national := Phone.drop_country_code (Phone.clean_phone phone) in
  Phone.valid (Phone.rd st) = VBool (String.length national =? 10)%nat
  /\ Phone.country (Phone.rd st)
     = (if (String.length national =? 10)%nat then VStr "US" else VNone)
  /\ Phone.dork_results (Phone.rd st) = []
  /\ List.length (Phone.pi_errors st) = 1.
Proof.
  unfold Phone.infoga_locals_at_return, try_except, Phone.infoga_try.
  cbn [with_proc proc Phone.infoga_except raise].
  unfold bind, Phone.infoga_add_error, modify. rewrite fallback_spec.
  destruct (String.length _ =? 10)%nat; repeat split.
Qed.

Lemma bind_invariant {St A B : Type} (P : St -> Prop) (m : M St A)
    (k : A -> M St B) (s : St) :
  P (snd (m s)) -> (forall a s', P s' -> P (snd (k a s'))) ->
  P (snd (bind m k s)).
Proof.
  intros Hm Hk. unfold bind.
  destruct (m s) as [[a|e] s']; simpl in *; auto.
Qed.

(** Nothing but the last statement of the try block touches the search
    queries, and nothing in the block records an error. *)
Lemma infoga_reading_keeps (phone : string) (w : world) (stdout : string)
    (s : Phone.infoga_locals) :
  let P := fun st : Phone.infoga_locals =>
             Phone.dork_results (Phone.rd st) = [] /\ Phone.pi_errors st = [] in
  P s ->
  P (snd ((read_output (output_file w) (Phone.infoga_json phone) ;;;
           when (negb (PyStr.is_empty stdout))
                (for_each (PyStr.split PyStr.nl stdout) Phone.infoga_line)) s)).
Proof.
  intros P Hs.
  assert (Hupd : forall f s', (forall r, Phone.dork_results (f r) = Phone.dork_results r) ->
                              P s' -> P (snd (Phone.update f s'))).
  { intros f s' Hf [H1 H2]. split; simpl; [now rewrite Hf | assumption]. }
  assert (Hidx : forall (l : list string) i (k : string -> M Phone.infoga_locals unit) s',
             (forall v s'', P s'' -> P (snd (k v s''))) -> P s' ->
             P (snd (bind (index l i) k s'))).
  { intros l i k s' Hk H. apply bind_invariant; [|exact Hk].
    unfold index. destruct (nth_error l i); exact H. }
  apply bind_invariant.
  - unfold read_output. destruct (output_file w) as [|e|data]; try exact Hs.
    unfold Phone.infoga_json. destruct data; try exact Hs.
    apply bind_invariant; [apply Hupd; [reflexivity | exact Hs]|].
    intros _ s1 H1. unfold when. destruct (dict_mem "googlesearch" d); [|exact H1].
    apply bind_invariant.
    + unfold Phone.iterate. destruct (dict_get_or _ _ _); exact H1.
    + intros items s2 H2. apply for_each_invariant; [|exact H2].
      intros item s3 H3. unfold Phone.infoga_item.
      destruct item; exact H3.
  - intros _ s1 H1. unfold when. destruct (negb _); [|exact H1].
    apply for_each_invariant; [|exact H1].
    intros line s2 H2. unfold Phone.infoga_line.
    repeat match goal with
           | |- context [if ?c then _ else _] => destruct c
           end;
      try exact H2;
      apply Hidx; try exact H2; intros v s3 H3; exact H3.
Qed.

(** X16: run_phoneinfoga returns its six search-engine queries for the
    number exactly when the run recorded no error; a run that failed
    (timeout, missing binary, output that cannot be read) records exactly
    one error and returns no query. *)
Theorem phoneinfoga_queries_or_one_error (phone : string) (w : world) :
  let st := Phone.infoga_locals_at_return phone w in
  (Phone.pi_errors st = [] /\ Phone.dork_results (Phone.rd st) = Phone.dorks phone)
  \/ (List.length (Phone.pi_errors st) = 1 /\ Phone.dork_results (Phone.rd st) = []).
Proof.
  unfold Phone.infoga_locals_at_return, try_except, Phone.infoga_try.
  assert (Hexc : forall e s, Phone.dork_results (Phone.rd s) = [] ->
                             Phone.pi_errors s = [] ->
             List.length (Phone.pi_errors (snd (Phone.infoga_except phone e s))) = 1
             /\ Phone.dork_results (Phone.rd (snd (Phone.infoga_except phone e s))) = []).
  { intros e s Hd He. destruct e; simpl; rewrite ?He; try (split; [reflexivity | exact Hd]).
    unfold bind, Phone.infoga_add_error, modify. rewrite fallback_spec.
    destruct (String.length _ =? 10)%nat; simpl; rewrite He; split;
      try reflexivity; exact Hd. }
  destruct (proc w) as [stdout|e].
  - pose proof (infoga_reading_keeps phone w stdout Phone.infoga_no_locals
                  (conj eq_refl eq_refl)) as H.
    cbv zeta in H.
    change (read_output (output_file w) (Phone.infoga_json phone);;;
            when (negb (PyStr.is_empty stdout))
              (for_each (PyStr.split PyStr.nl stdout) Phone.infoga_line);;;
            Phone.update (Phone.set_dorks (Phone.dorks phone)))
      with (bind (read_output (output_file w) (Phone.infoga_json phone))
              (fun _ => bind (when (negb (PyStr.is_empty stdout))
                                (for_each (PyStr.split PyStr.nl stdout) Phone.infoga_line))
                          (fun _ => Phone.update (Phone.set_dorks (Phone.dorks phone))))).
    unfold bind in *.
    destruct (read_output (output_file w) (Phone.infoga_json phone) Phone.infoga_no_locals)
      as [[[]|e1] s1]; simpl in *.
    + destruct (when (negb (PyStr.is_empty stdout))
                  (for_each (PyStr.split PyStr.nl stdout) Phone.infoga_line) s1)
        as [[[]|e2] s2]; simpl in *.
      * left. destruct H as [_ H]. split; [exact H | reflexivity].
      * right. destruct H as [Hd He]. now apply Hexc.
    + right. destruct H as [Hd He]. now apply Hexc.
  - right. simpl. now apply Hexc.
Qed.

(* ====================================================================== *)
(** * Temporary image hosting *)
(* ====================================================================== *)

(** X17: an image that was uploaded is served under the id the upload
    returned: get_temp_image on the store after upload_temp_image does not
    answer 404; it answers the decoded bytes of what was uploaded (without
    the prefix of a data URL), or 400 when they cannot be decoded. *)
Theorem uploaded_image_is_served (b64decode : string -> option string)
    (temp_images : dict Images.stored_image) (image_base64 : string)
    (current_time : Z) (uuid4 : string) (render_external_url : option string) :
  let up := Images.upload_temp_image temp_images image_base64 current_time uuid4
              render_external_url in
  Images.get_temp_image b64decode (fst up) (Images.image_id (snd up))
  = match b64decode (Images.payload image_base64) with
    | Some image_bytes =>
        Images.Response image_bytes (Images.content_type image_bytes)
    | None => Images.HTTPException 400 "Invalid image data"
    end.
Proof.
  unfold Images.upload_temp_image, Images.get_temp_image. simpl.
  now rewrite dict_get_set_eq.
Qed.

Lemma dict_get_del {V : Type} (k x : string) (d : dict V) :
  dict_get k (Images.dict_del x d)
  = if String.eqb x k then None else dict_get k d.
Proof.
  unfold Images.dict_del. induction d as [|[k' v'] d IH]; simpl.
  - now destruct (String.eqb x k).
  - destruct (String.eqb_spec x k') as [->|Hx]; simpl.
    + rewrite IH. destruct (String.eqb_spec k k') as [->|Hk].
      * now rewrite String.eqb_refl.
      * reflexivity.
    + rewrite IH. destruct (String.eqb_spec k k') as [->|Hk]; [|reflexivity].
      destruct (String.eqb_spec x k'); [contradiction | reflexivity].
Qed.

Lemma dict_get_del_all {V : Type} (k : string) (xs : list string) (d : dict V) :
  dict_get k (fold_left (fun d x => Images.dict_del x d) xs d)
  = if key_in k xs then None else dict_get k d.
Proof.
  revert d. induction xs as [|x xs IH]; intros d; simpl; [reflexivity|].
  rewrite IH, dict_get_del. rewrite (String.eqb_sym k x).
  destruct (String.eqb x k); simpl; [now destruct (key_in k xs) | reflexivity].
Qed.

Lemma expired_key (temp_images : dict Images.stored_image) (current_time : Z)
    (k : string) (v : Images.stored_image) :
  NoDup (dict_keys temp_images) ->
  dict_get k temp_images = Some v ->
  key_in k (Images.expired temp_images current_time)
  = (600 <? Images.delta_seconds current_time (Images.uploaded_at v))%Z.
Proof.
  unfold Images.expired.
  induction temp_images as [|[k' v'] d IH]; simpl; [discriminate|].
  intros Hn Hg. inversion Hn as [|? ? Hnot Hn']; subst.
  destruct (String.eqb_spec k k') as [->|Hne].
  - injection Hg as ->.
    destruct (600 <? _)%Z eqn:E; simpl.
    + now rewrite String.eqb_refl.
    + destruct (key_in k' _) eqn:K; [|reflexivity].
      apply key_in_In, in_map_iff in K. destruct K as ([k2 v2] & Ek & Hin).
      simpl in Ek. subst k2. apply filter_In in Hin. destruct Hin as [Hin _].
      exfalso. apply Hnot. unfold dict_keys.
      change k' with (fst (k', v2)). now apply in_map.
  - destruct (600 <? Images.delta_seconds current_time (Images.uploaded_at v'))%Z;
      simpl.
    + destruct (String.eqb_spec k k'); [contradiction|]. now apply IH.
    + now apply IH.
Qed.

(** X18: an upload removes from the store the images whose age, counted
    as the seconds of the time difference without its whole days, is more
    than 600, and no other: an image stored under another id than the new
    one is still served after the upload exactly when that count is at
    most 600, so also when it is a whole number of days and less than ten
    minutes old. *)
Theorem upload_expires_by_seconds_of_day
    (temp_images : dict Images.stored_image) (image_base64 : string)
    (current_time : Z) (uuid4 : string) (render_external_url : option string)
    (k : string) (v : Images.stored_image) :
  NoDup (dict_keys temp_images) ->
  dict_get k temp_images = Some v ->
  k <> Phone.up_to 8 uuid4 ->
  dict_get k (fst (Images.upload_temp_image temp_images image_base64 current_time
                     uuid4 render_external_url))
  = if (600 <? ((current_time - Images.uploaded_at v) / 1000000) mod 86400)%Z
    then None else Some v.
Proof.
  intros Hn Hg Hk. unfold Images.upload_temp_image. cbn [fst].
  rewrite dict_get_set_ne by congruence.
  rewrite dict_get_del_all, (expired_key _ _ k v Hn Hg), Hg.
  reflexivity.
Qed.

Lemma upload_expires_by_seconds_of_day_witness :
  NoDup (dict_keys day_old_store)
  /\ dict_get "0a1b2c3d" day_old_store
     = Some {| Images.data := "aGVsbG8="; Images.uploaded_at := 0 |}
  /\ "0a1b2c3d" <> Phone.up_to 8 "ffffffff-0000-4000-8000-000000000000"
  /\ dict_get "0a1b2c3d"
       (fst (Images.upload_temp_image day_old_store "d29ybGQ=" 86700000000
               "ffffffff-0000-4000-8000-000000000000" None))
     = Some {| Images.data := "aGVsbG8="; Images.uploaded_at := 0 |}.
Proof.
  assert (H1 : NoDup (dict_keys day_old_store)) by (repeat constructor; intros []).
  assert (H2 : dict_get "0a1b2c3d" day_old_store
               = Some {| Images.data := "aGVsbG8="; Images.uploaded_at := 0 |})
    by reflexivity.
  assert (H3 : "0a1b2c3d" <> Phone.up_to 8 "ffffffff-0000-4000-8000-000000000000")
    by discriminate.
  split; [exact H1|]. split; [exact H2|]. split; [exact H3|].
  exact (upload_expires_by_seconds_of_day day_old_store "d29ybGQ=" 86700000000
           "ffffffff-0000-4000-8000-000000000000" None "0a1b2c3d" _ H1 H2 H3).
Defined.

(* ====================================================================== *)
(** * theHarvester *)
(* ====================================================================== *)

Lemma harvest_line_ok (line0 : string) (s : Harvester.locals) :
  harvest_ok s -> harvest_ok (snd (Harvester.harvest_line line0 s)).
Proof.
  intros H. unfold Harvester.harvest_line.
  set (line := PyStr.strip line0).
  destruct (PyStr.is_empty line) eqn:En; [exact H|].
  apply is_empty_false in En.
  repeat match goal with
         | |- context [if ?c || ?d then _ else _] => destruct (c || d); [exact H|]
         | |- context [if PyStr.contains ?a ?b then _ else _] =>
             destruct (PyStr.contains a b); [exact H|]
         end.
  unfold bind, get.
  destruct (Harvester.current_section s) as [sec|]; [|exact H].
  destruct (PyStr.startswith "-" line) eqn:Ed; [exact H|].
  assert (R : result_line line) by now split.
  destruct H as (He & Hh & Hi & Hu & Hp).
  destruct sec; simpl; unfold when;
    try destruct (PyStr.contains _ line) eqn:Ec;
    try destruct (negb (PyStr.is_empty line));
    simpl; repeat split; try assumption;
    apply Forall_app; split; try assumption; repeat constructor; assumption.
Qed.

Lemma harvest_source_ok (p : proc_outcome) (s : Harvester.locals) :
  harvest_ok s -> harvest_ok (snd (Harvester.harvest_source p s)).
Proof.
  intros H. destruct p as [stdout|e]; [|exact H].
  unfold Harvester.harvest_source, when.
  destruct (negb (PyStr.is_empty stdout)); [|exact H].
  apply bind_invariant; [exact H|]. intros _ s' H'.
  apply for_each_invariant; [|exact H']. intros; now apply harvest_line_ok.
Qed.

Lemma harvest_locals_ok (sources : option (list string))
    (run : nat -> string -> proc_outcome) :
  harvest_ok (Harvester.locals_before_dedup sources run).
Proof.
  unfold Harvester.locals_before_dedup. apply try_except_invariant.
  - apply for_each_invariant.
    + intros; now apply harvest_source_ok.
    + repeat split; constructor.
  - intros e s' H. destruct e; exact H.
Qed.

Lemma set_order_Forall (list_of_set : list string -> list string)
    (P : string -> Prop) (l : list string) :
  set_order list_of_set -> Forall P l -> Forall P (list_of_set l).
Proof.
  intros H Hl. rewrite Forall_forall in *. intros x Hx.
  apply Hl. now apply (H l).
Qed.

(** X19: whatever theHarvester prints for its sources, the lists
    run_theharvester returns hold no empty line and no line that starts
    with "-"; every entry of emails_found contains "@", every entry of
    urls_found contains "http", and no list holds an entry twice. *)
Theorem harvester_results_are_clean
    (list_of_set : list string -> list string)
    (domain : string) (sources : option (list string)) (limit : Z)
    (run : nat -> string -> proc_outcome) (now : string) (execution_time : Z) :
  set_order list_of_set ->
  let r := Harvester.run_theharvester list_of_set domain sources limit run now
             execution_time in
  Forall (fun e => result_line e /\ PyStr.contains "@" e = true)
         (Harvester.emails_found r)
  /\ Forall result_line (Harvester.hosts_found r)
  /\ Forall result_line (Harvester.ips_found r)
  /\ Forall (fun u => result_line u /\ PyStr.contains "http" u = true)
            (Harvester.urls_found r)
  /\ Forall result_line (Harvester.people_found r)
  /\ NoDup (Harvester.emails_found r) /\ NoDup (Harvester.hosts_found r)
  /\ NoDup (Harvester.ips_found r) /\ NoDup (Harvester.urls_found r)
  /\ NoDup (Harvester.people_found r).
Proof.
  intros H r. subst r. unfold Harvester.run_theharvester. simpl.
  destruct (harvest_locals_ok sources run) as (He & Hh & Hi & Hu & Hp).
  repeat split; try (now apply set_order_Forall); apply H.
Qed.

Lemma nodup_set_order : set_order (nodup string_dec).
Proof.
  intros l. split; [apply NoDup_nodup | intros x; apply nodup_In].
Qed.

Lemma harvester_results_are_clean_witness :
  set_order (nodup string_dec)
  /\ Harvester.emails_found
       (Harvester.run_theharvester (nodup string_dec) "example.com"
          (Some ["google"]) 100 harvester_prints "now" 0)
     = ["alice@example.com"]
  /\ Forall (fun e => result_line e /\ PyStr.contains "@" e = true)
       (Harvester.emails_found
          (Harvester.run_theharvester (nodup string_dec) "example.com"
             (Some ["google"]) 100 harvester_prints "now" 0)).
Proof.
  split; [exact nodup_set_order|].
  split; [vm_compute; reflexivity|].
  exact (proj1 (harvester_results_are_clean (nodup string_dec) "example.com"
                  (Some ["google"]) 100 harvester_prints "now" 0 nodup_set_order)).
Defined.

(* ====================================================================== *)
(** * h8mail *)
(* ====================================================================== *)

Lemma up_to_length (n : nat) (s : string) :
  n <= String.length s -> String.length (Phone.up_to n s) = n.
Proof.
  revert s. induction n as [|n IH]; intros s H; [reflexivity|].
  destruct s as [|c s]; simpl in *; [lia|]. rewrite IH; lia.
Qed.

(** X20: whatever the output file of h8mail holds, every entry that
    run_h8mail records in leaked_passwords is made of the first three
    characters of a longer string, followed by "***": no password is
    recorded there in full. *)
Theorem h8mail_passwords_masked (not_a_container : pyval -> string)
    (email : string) (chase : bool) (w : world) :
  Forall masked
    (H8mail.leaked_passwords (H8mail.locals_at_return not_a_container email chase w)).
Proof.
  set (P := fun st : H8mail.locals => Forall masked (H8mail.leaked_passwords st)).
  assert (Hcheck : forall v s, P s -> P (snd (H8mail.check_password not_a_container v s))).
  { intros v s H. unfold H8mail.check_password.
    destruct v as [|b|n|bits|str|l|d]; try exact H.
    - unfold when. destruct (_ && _); [|exact H].
      destruct (negb _ && (3 <? _)%nat) eqn:E; [|exact H].
      apply andb_prop in E. destruct E as [_ E]. apply Nat.ltb_lt in E.
      unfold P, modify. cbn [snd H8mail.add_leaked H8mail.leaked_passwords].
      apply Forall_app. split; [exact H|].
      constructor; [|constructor].
      exists (Phone.up_to 3 (List.last (PyStr.split ":" str) "")).
      split; [reflexivity|]. apply up_to_length. lia.
    - destruct (existsb _ l); exact H.
    - destruct (dict_mem ":" d); exact H. }
  assert (Hbreach : forall v s, P s -> P (snd (H8mail.h8_breach not_a_container v s))).
  { intros v s H. unfold H8mail.h8_breach. destruct v; try exact H.
    apply bind_invariant; [exact H|]. intros _ s' H'. now apply Hcheck. }
  assert (Hiter : forall v (k : list pyval -> M H8mail.locals unit) s,
             (forall items s', P s' -> P (snd (k items s'))) -> P s ->
             P (snd (bind (Phone.iterate v) k s))).
  { intros v k s Hk H. apply bind_invariant; [|exact Hk].
    unfold Phone.iterate. destruct v; exact H. }
  assert (Htarget : forall v s, P s -> P (snd (H8mail.h8_target not_a_container email v s))).
  { intros v s H. unfold H8mail.h8_target. destruct v; try exact H.
    apply bind_invariant.
    - unfold when. destruct (negb _); exact H.
    - intros _ s' H'. apply Hiter; [|exact H'].
      intros items s2 H2. now apply for_each_invariant. }
  change (P (H8mail.locals_at_return not_a_container email chase w)).
  unfold H8mail.locals_at_return. apply try_except_invariant.
  - unfold H8mail.h8_try. destruct (proc w) as [stdout|e]; [|constructor].
    apply bind_invariant.
    + unfold read_output. destruct (output_file w) as [|e|data]; try constructor.
      unfold H8mail.h8_json. destruct data; try constructor.
      apply Hiter; [|constructor].
      intros items s2 H2. now apply for_each_invariant.
    + intros _ s' H'. unfold when. destruct (negb _); [|exact H'].
      apply for_each_invariant; [|exact H'].
      intros line s2 H2. unfold H8mail.h8_line, when. destruct (_ && _); exact H2.
  - intros e s' H. destruct e; exact H.
Qed.

(* ====================================================================== *)
(** * full_osint_sweep *)
(* ====================================================================== *)

(** X21: when the executor runs the two adapters, full_osint_sweep
    returns, and the total it reports is the number of findings of the
    Sherlock search (run for the username given or, when none is given,
    for the lower-cased name without spaces) plus the number of services
    of the holehe search (run when an email is given); what the phone
    search finds does not count.  When the await of the username search
    or of the email search raises, the sweep raises and returns no
    result. *)
Theorem sweep_total_is_sherlock_plus_holehe (py_repr : pyval -> string)
    (request : Sweep.FullSweepRequest) (sherlock_world holehe_world : world)
    (clock : string) (elapsed : Z) (email_first : bool) (aw : Sweep.awaits)
    (now : string) (execution_time : Z) :
  (exists r,
      Sweep.full_osint_sweep request
        (Sweep.executor_runs py_repr sherlock_world holehe_world clock elapsed
           email_first)
        now execution_time = Done r
      /\ Sweep.total_profiles_found r
         = (match given (Sweep.sweep_username request) with
            | Some _ => List.length (found (sherlock_locals py_repr sherlock_world))
            | None => 0
            end)
           + (match given (Sweep.email request) with
              | Some _ => List.length (registered (holehe_locals_at_return holehe_world))
              | None => 0
              end))
  /\ (forall u e,
         given (Sweep.sweep_username request) = Some u ->
         Sweep.sherlock_await aw u = Raised e ->
         exists e', Sweep.full_osint_sweep request aw now execution_time = Raised e')
  /\ (forall a e,
         given (Sweep.email request) = Some a ->
         Sweep.holehe_await aw a = Raised e ->
         exists e', Sweep.full_osint_sweep request aw now execution_time = Raised e').
Proof.
  split; [|split].
  - unfold Sweep.full_osint_sweep, Sweep.search_username, Sweep.search_email,
      Sweep.executor_runs.
    cbn [Sweep.sherlock_await Sweep.holehe_await Sweep.email_task_first].
    destruct (given (Sweep.sweep_username request)) as [u|];
      destruct (given (Sweep.email request)) as [e|];
      rewrite ?run_sherlock_returns, ?run_holehe_returns;
      cbv zeta; cbn [Sweep.gather Sweep.and_then fst snd];
      cbn [Sweep.count_of truthy dict_get_or dict_get
           String.eqb Ascii.eqb Bool.eqb Sweep.len_of Sweep.and_then];
      eexists; (split; [reflexivity|]);
      cbn [Sweep.total_profiles_found]; rewrite ?length_map; reflexivity.
  - intros u e Hu He.
    unfold Sweep.full_osint_sweep, Sweep.search_username. rewrite Hu, He.
    destruct (Sweep.search_email request aw) as [[d|e2]|]; cbn [Sweep.gather Sweep.and_then];
      eexists; reflexivity.
  - intros a e Ha He.
    unfold Sweep.full_osint_sweep, Sweep.search_email. rewrite Ha, He.
    destruct (Sweep.search_username request aw) as [[d|e2]|];
      cbn [Sweep.gather Sweep.and_then]; eexists; reflexivity.
Qed.

(* ====================================================================== *)
(** * Further properties of the merge, of run_holehe and of api/osint.py *)
(* ====================================================================== *)

Lemma merged_values_keys (s m : list finding) (k : pykey) :
  In (Some k) (map url_key (keyed_values (merged s m)))
  <-> In (Some k) (map url_key (s ++ m)).
Proof.
  rewrite (well_keyed_urls _ (merged_wk s m)), <- merged_keys, in_map_iff. split.
  - now intros (x & [= ->] & H).
  - intros H. now exists k.
Qed.

Lemma merged_values_strings (s m : list finding) (u : string) :
  In (VStr u) (map get_url (keyed_values (merged s m)))
  <-> u <> "" /\ In (VStr u) (map get_url (s ++ m)).
Proof.
  rewrite <- In_url_str, <- merged_values_keys. split.
  - apply In_str_keyed. rewrite (well_keyed_urls _ (merged_wk s m)).
    apply no_None_in_Some.
  - intros H. now apply In_url_str in H.
Qed.

(** X22: which adapter's findings are merged first does not change
    whether the merge returns or raises, nor, when it returns, the set of
    URLs of the merged collection and the number of its entries: merging
    the findings of Maigret before those of Sherlock gives the same URLs
    and the same total_unique_profiles. *)
Theorem merged_urls_do_not_depend_on_order (unhashable : pyval -> string)
    (s m : list finding) :
  match combined unhashable s m, combined unhashable m s with
  | Done c, Done c' =>
      (forall k, In (Some k) (map url_key (profiles c))
                 <-> In (Some k) (map url_key (profiles c')))
      /\ (forall u, In (VStr u) (map get_url (profiles c))
                    <-> In (VStr u) (map get_url (profiles c')))
      /\ total_unique_profiles c = total_unique_profiles c'
  | Raised _, Raised _ => True
  | _, _ => False
  end.
Proof.
  rewrite !combined_spec, !find_app.
  destruct (find unhashable_url s), (find unhashable_url m); try exact I.
  cbn [profiles total_unique_profiles].
  assert (H : forall a b k, In k (keyed_keys (merged a b))
                            -> In k (keyed_keys (merged b a))).
  { intros a b k. rewrite !merged_keys, !map_app, !in_app_iff. tauto. }
  split; [|split].
  - intros k. rewrite !merged_values_keys, !map_app, !in_app_iff. tauto.
  - intros u. rewrite !merged_values_strings, !map_app, !in_app_iff. tauto.
  - assert (L : forall a b, List.length (merged a b) <= List.length (merged b a)).
    { intros a b. rewrite <- (length_map fst (merged a b)),
                          <- (length_map fst (merged b a)).
      apply NoDup_incl_length; [apply (merged_wk a b)|].
      intros k. apply H. }
    apply Nat.le_antisymm; apply L.
Qed.

Lemma split_from_not_nil (sep : string) (s cur : string) (skip : nat) :
  PyStr.split_from sep skip cur s <> [].
Proof.
  revert skip cur.
  induction s as [|c s IH]; intros skip cur; cbn [PyStr.split_from]; [discriminate|].
  destruct skip; [|apply IH].
  destruct (prefix sep (String c s)); [discriminate | apply IH].
Qed.

Lemma holehe_line_counted (line0 : string) (s : holehe_locals) :
  exists s',
    holehe_line line0 s = (Done tt, s')
    /\ List.length (registered s') + List.length (not_registered s')
       + List.length (h_errors s')
       = List.length (registered s) + List.length (not_registered s)
         + List.length (h_errors s)
         + (if holehe_marked line0 then 1 else 0).
Proof.
  unfold holehe_line, holehe_marked.
  set (line := PyStr.strip line0).
  destruct (PyStr.is_empty line); simpl; [exists s; split; [reflexivity | lia]|].
  destruct (PyStr.contains "[+]" line); simpl.
  { destruct (PyStr.split ":" _) as [|p0 rest] eqn:E;
      [exfalso; exact (split_from_not_nil _ _ _ _ E)|].
    eexists. split; [reflexivity|]. simpl. rewrite length_app. simpl. lia. }
  destruct (PyStr.contains "[-]" line); simpl.
  { destruct (PyStr.split ":" _) as [|p0 rest] eqn:E;
      [exfalso; exact (split_from_not_nil _ _ _ _ E)|].
    eexists. split; [reflexivity|]. simpl. rewrite length_app. simpl. lia. }
  destruct (PyStr.contains "[x]" line); simpl.
  { destruct (PyStr.split ":" _) as [|p0 rest] eqn:E;
      [exfalso; exact (split_from_not_nil _ _ _ _ E)|].
    eexists. split; [reflexivity|]. simpl. rewrite length_app. simpl. lia. }
  exists s. split; [reflexivity | lia].
Qed.

Lemma holehe_lines_counted (lines : list string) (s : holehe_locals) :
  exists s',
    for_each lines holehe_line s = (Done tt, s')
    /\ List.length (registered s') + List.length (not_registered s')
       + List.length (h_errors s')
       = List.length (registered s) + List.length (not_registered s)
         + List.length (h_errors s)
         + List.length (filter holehe_marked lines).
Proof.
  revert s. induction lines as [|l lines IH]; intros s; simpl.
  - exists s. split; [reflexivity | lia].
  - unfold bind. destruct (holehe_line_counted l s) as (s1 & E1 & C1).
    rewrite E1. destruct (IH s1) as (s2 & E2 & C2).
    exists s2. split; [exact E2|]. rewrite C2, C1.
    destruct (holehe_marked l); simpl; lia.
Qed.

(** X23: when holehe has ended, run_holehe accounts for every marked line
    of its output exactly once, as a registered service, as a service not
    registered or as an error, and for no other line; reading the output
    itself never fails. *)
Theorem holehe_counts_each_marked_line (stdout : string) (w : world) :
  let st := holehe_locals_at_return (with_proc (Completed stdout) w) in
  List.length (registered st) + List.length (not_registered st)
  + List.length (h_errors st)
  = List.length (filter holehe_marked (PyStr.split PyStr.nl stdout)).
Proof.
  unfold holehe_locals_at_return, try_except, holehe_try. simpl.
  destruct (holehe_lines_counted (PyStr.split PyStr.nl stdout) holehe_no_locals)
    as (s' & E & C).
  rewrite E. simpl. exact C.
Qed.

(** ** The URLs api/osint.py takes from standard output *)

Lemma take_nonspace_chars (s : string) :
  all_chars (fun c => negb (PyStr.isspace c)) (Api.take_nonspace s) = true.
Proof.
  induction s as [|c s IH]; simpl; [reflexivity|].
  destruct (PyStr.isspace c) eqn:E; simpl; [reflexivity|]. now rewrite E.
Qed.

Lemma url_at_shape (s u : string) :
  Api.url_at s = Some u ->
  (prefix "http://" u = true \/ prefix "https://" u = true)
  /\ all_chars (fun c => negb (PyStr.isspace c)) u = true.
Proof.
  unfold Api.url_at.
  destruct (prefix "https://" s).
  - destruct (PyStr.is_empty _); [discriminate|]. intros [= <-]. split.
    + right. simpl. now destruct (Api.take_nonspace _).
    + simpl. apply take_nonspace_chars.
  - destruct (prefix "http://" s); [|discriminate].
    destruct (PyStr.is_empty _); [discriminate|]. intros [= <-]. split.
    + left. simpl. now destruct (Api.take_nonspace _).
    + simpl. apply take_nonspace_chars.
Qed.

Lemma search_url_shape (s u : string) :
  Api.search_url s = Some u ->
  (prefix "http://" u = true \/ prefix "https://" u = true)
  /\ all_chars (fun c => negb (PyStr.isspace c)) u = true.
Proof.
  induction s as [|c s IH]; cbn [Api.search_url].
  - destruct (Api.url_at "") eqn:E; [|discriminate].
    intros [= <-]. now apply (url_at_shape "").
  - destruct (Api.url_at (String c s)) eqn:E.
    + intros [= <-]. now apply (url_at_shape (String c s)).
    + exact IH.
Qed.

Lemma api_sherlock_line_entries (line : string) (sites : list pydict) :
  Forall api_site_entry sites ->
  Forall api_site_entry (snd (Api.sherlock_line line sites)).
Proof.
  intros H. unfold Api.sherlock_line, when.
  destruct (PyStr.contains "[+]" line); [|exact H].
  destruct (Api.search_url line) as [u|] eqn:E; [|exact H].
  apply search_url_shape in E.
  apply bind_invariant.
  - destruct (PyStr.contains ":" line); [|exact H].
    apply bind_invariant.
    + unfold index. destruct (nth_error _ 1); exact H.
    + intros p s' H'. apply bind_invariant.
      * unfold index. destruct (nth_error _ 0); exact H'.
      * intros q s2 H2. exact H2.
  - intros site s' H'. unfold Api.append_site, modify. simpl.
    apply Forall_app. split; [exact H'|].
    constructor; [|constructor]. exists site, u. now split.
Qed.

(** X24: every entry of 'results' that run_sherlock of api/osint.py
    returns has the three fields site, url and status 'found', and its
    URL starts with "http://" or "https://" and contains no whitespace,
    whatever Sherlock printed. *)
Theorem api_sherlock_urls_well_formed (username : string) (p : proc_outcome) :
  exists d,
    Api.run_sherlock username p = Done d
    /\ forall fs, dict_get "results" d = Some (VList fs) ->
         exists sites, fs = map VDict sites /\ Forall api_site_entry sites.
Proof.
  destruct p as [stdout|[msg|msg|msg]].
  - unfold Api.run_sherlock, run, try_except, bind, Api.stdout_of, ret, get. simpl.
    pose proof (for_each_invariant (Forall api_site_entry)
                  (PyStr.split PyStr.nl stdout) Api.sherlock_line
                  api_sherlock_line_entries [] (Forall_nil _)) as H.
    destruct (for_each (PyStr.split PyStr.nl stdout) Api.sherlock_line [])
      as [[[]|e] sites]; simpl in *.
    + eexists. split; [reflexivity|]. simpl. intros fs [= <-]. eauto.
    + destruct e; eexists; (split; [reflexivity|]); simpl;
        intros fs Hfs; try discriminate;
        injection Hfs as <-; exists []; split; constructor.
  - eexists. split; [reflexivity|]. simpl. discriminate.
  - eexists. split; [reflexivity|]. simpl. intros fs [= <-].
    exists []. split; constructor.
  - eexists. split; [reflexivity|]. simpl. intros fs [= <-].
    exists []. split; constructor.
Qed.

(* ====================================================================== *)
(** * The adapters' findings in full_username_search *)
(* ====================================================================== *)

Lemma find_none_Forall {A : Type} (f : A -> bool) (l : list A) :
  find f l = None <-> Forall (fun x => f x = false) l.
Proof.
  induction l as [|x l IH]; simpl.
  - split; [constructor | reflexivity].
  - destruct (f x) eqn:E.
    + split; [discriminate|]. intros H. inversion H; congruence.
    + rewrite IH. split; [now constructor | now inversion 1].
Qed.

Lemma unhashable_url_false (item : finding) :
  unhashable_url item = false
  <-> (truthy (get_url item) = true -> hash_key (get_url item) <> None).
Proof.
  unfold unhashable_url.
  destruct (truthy (get_url item)); simpl.
  - destruct (hash_key (get_url item)); split; try congruence.
    intros H. now exfalso; apply H.
  - split; [discriminate | reflexivity].
Qed.

(** X25: the findings full_username_search merges are the lists 'found'
    of the dicts run_sherlock and run_maigret return.  When the executor
    runs the two adapters, full_username_search returns exactly when no
    finding of theirs has, as its URL, a list or a dict that is not empty;
    otherwise it raises. *)
Theorem adapters_feed_the_merge
    (py_repr unhashable : pyval -> string) (username now : string) (timeout : Z)
    (w1 w2 : world) :
  let sr := sherlock_result py_repr w1 in
  let mr := maigret_result w2 in
  (exists d1 d2,
      run_sherlock py_repr username timeout w1 = Done d1
      /\ run_maigret username timeout w2 = Done d2
      /\ dict_get "found" d1 = Some (VList (map VDict (r_found sr)))
      /\ dict_get "found" d2 = Some (VList (map VDict (r_found mr))))
  /\ ((exists r, full_username_search unhashable username now (Done (sr, mr)) = Done r)
      <-> Forall (fun u => truthy u = true -> hash_key u <> None)
                 (map url (found (sherlock_locals py_repr w1))
                  ++ map m_url (mg_found (maigret_locals_at_return w2))))
  /\ ((exists e, full_username_search unhashable username now (Done (sr, mr)) = Raised e)
      <-> Exists (fun u => truthy u = true /\ hash_key u = None)
                 (map url (found (sherlock_locals py_repr w1))
                  ++ map m_url (mg_found (maigret_locals_at_return w2)))).
Proof.
  intros sr mr.
  assert (U : map get_url (r_found sr ++ r_found mr)
              = (map url (found (sherlock_locals py_repr w1))
                 ++ map m_url (mg_found (maigret_locals_at_return w2)))%list).
  { subst sr mr. unfold sherlock_result, maigret_result. cbn [r_found].
    rewrite map_app, !map_map. reflexivity. }
  assert (F : find unhashable_url (r_found sr ++ r_found mr) = None
              <-> Forall (fun u => truthy u = true -> hash_key u <> None)
                         (map get_url (r_found sr ++ r_found mr))).
  { rewrite find_none_Forall, Forall_map, !Forall_forall.
    split; intros H item Hin; apply unhashable_url_false, H, Hin. }
  split; [|split].
  - rewrite run_sherlock_returns, run_maigret_returns. cbv zeta.
    do 2 eexists. split; [reflexivity|]. split; [reflexivity|].
    subst sr mr. unfold sherlock_result, maigret_result. cbn [r_found].
    rewrite !map_map. split; reflexivity.
  - rewrite <- U, <- F. unfold full_username_search. rewrite combined_spec.
    destruct (find unhashable_url (r_found sr ++ r_found mr)).
    + split; [intros [r H]; discriminate | discriminate].
    + split; [reflexivity|]. intros _. eexists. reflexivity.
  - rewrite <- U, Exists_map.
    unfold full_username_search. rewrite combined_spec.
    destruct (find unhashable_url (r_found sr ++ r_found mr)) as [item|] eqn:E.
    + split; [|intros _; eexists; reflexivity]. intros _.
      apply find_some in E. destruct E as [Hin Hbad].
      apply Exists_exists. exists item. split; [assumption|].
      unfold unhashable_url in Hbad. apply andb_prop in Hbad.
      destruct Hbad as [Ht Hh]. split; [assumption|].
      now destruct (hash_key (get_url item)).
    + split; [intros [e H]; discriminate|]. intros H.
      apply Exists_exists in H. destruct H as (item & Hin & Ht & Hh).
      apply find_none with (x := item) in E; [|assumption].
      unfold unhashable_url in E. now rewrite Ht, Hh in E.
Qed.
